(** * Irrigation planner: event scheduling core

    A shallow embedding of [src/main/irrigationPlanner.cpp] (class
    [IrrigationPlanner]) together with the properties its specification
    states about it.

    Conventions of the embedding:
    - C [int] and [time_t] values are integers of [Z]; where the source
      computes into an [int] member ([tm_sec]) the result is reduced to
      32 bits, two's complement ([int_wrap]); pool indices and element
      counts ([unsigned int]) are [nat];
    - the fixed-size member arrays ([events], [eventsUsed], [stopEvents],
      [stopEventsUsed], [zones]) and the caller's [dest] buffer are memory
      indexed by position: total functions from [nat], written by [upd].
      The compile-time capacities bound every loop, exactly as in the
      source, so a cell at or beyond a capacity is never touched;
    - member functions take the planner state and return the new state
      next to their result;
    - the C library ([localtime_r], [mktime]), the compile-time
      capacities, and the collaborators whose code is not part of the
      planner (settings manager, the error status of
      [IrrigationEvent::getEventData]) are parameters of the development;
      the class [IrrigationEvent] follows sections 3 and 4.1 of the
      specification. *)

From Stdlib Require Import ZArith List Bool Lia Arith Sorted.
Import ListNotations.
Open Scope Z_scope.

(* ------------------------------------------------------------------ *)
(** ** Memory cells indexed by position *)

Definition array (T : Type) : Type := nat -> T.

Definition upd {T : Type} (a : array T) (i : nat) (v : T) : array T :=
  fun j => if Nat.eqb j i then v else a j.

(** A character array written at one position ([name[i] = c]); the
    arrays written this way hold more than [i] characters. *)
Fixpoint list_set (l : list nat) (i : nat) (v : nat) : list nat :=
  match l, i with
  | [], _ => []
  | _ :: r, O => v :: r
  | x :: r, S k => x :: list_set r k v
  end.

(* ------------------------------------------------------------------ *)
(** ** Calendar time of the C library *)

Definition time_t : Type := Z.

(** [struct tm]. *)
Record tm : Type := mkTm {
  tm_sec : Z; tm_min : Z; tm_hour : Z;
  tm_mday : Z; tm_mon : Z; tm_year : Z;
  tm_wday : Z; tm_yday : Z; tm_isdst : Z
}.

(** The value an [int] holds after a computation whose exact result is
    [z]: [z] reduced modulo 2^32 into [-2^31 .. 2^31 - 1]. *)
Definition int_wrap (z : Z) : Z :=
  (z + 2147483648) mod 4294967296 - 2147483648.

(** [startTimeTm.tm_sec++] and [stopTimeTm.tm_sec += durationSecs]:
    [tm_sec] is an [int]. *)
Definition tm_add_sec (t : tm) (d : Z) : tm :=
  mkTm (int_wrap (tm_sec t + d)) (tm_min t) (tm_hour t) (tm_mday t) (tm_mon t)
       (tm_year t) (tm_wday t) (tm_yday t) (tm_isdst t).

(** [stopTimeTm.tm_isdst = -1]. *)
Definition tm_set_isdst (t : tm) (f : Z) : tm :=
  mkTm (tm_sec t) (tm_min t) (tm_hour t) (tm_mday t) (tm_mon t)
       (tm_year t) (tm_wday t) (tm_yday t) f.

(** *** A concrete calendar: proleptic Gregorian, UTC

    Used to instantiate the C library at concrete inputs. *)
Module Calendar.

Definition days_from_civil (y m d : Z) : Z :=
  let y' := if m <=? 2 then y - 1 else y in
  let era := y' / 400 in
  let yoe := y' - era * 400 in
  let mp := if 2 <? m then m - 3 else m + 9 in
  let doy := (153 * mp + 2) / 5 + d - 1 in
  let doe := yoe * 365 + yoe / 4 - yoe / 100 + doy in
  era * 146097 + doe - 719468.

Definition civil_from_days (z : Z) : Z * Z * Z :=
  let z' := z + 719468 in
  let era := z' / 146097 in
  let doe := z' - era * 146097 in
  let yoe := (doe - doe / 1460 + doe / 36524 - doe / 146096) / 365 in
  let doy := doe - (365 * yoe + yoe / 4 - yoe / 100) in
  let mp := (5 * doy + 2) / 153 in
  let d := doy - (153 * mp + 2) / 5 + 1 in
  let m := if mp <? 10 then mp + 3 else mp - 9 in
  let y := yoe + era * 400 in
  ((if m <=? 2 then y + 1 else y), m, d).

(** Seconds since the epoch of broken-down fields read as UTC, with the
    fields normalised the way [mktime] does (seconds over 59 carry into
    minutes, months over 11 into years, and so on). *)
Definition timegm (t : tm) : time_t :=
  let y := tm_year t + 1900 + tm_mon t / 12 in
  let m := tm_mon t mod 12 + 1 in
  let days := days_from_civil y m 1 + (tm_mday t - 1) in
  days * 86400 + tm_hour t * 3600 + tm_min t * 60 + tm_sec t.

(** Broken-down UTC fields of an absolute time; [isdst] is the flag to
    report. *)
Definition gmtime (isdst : Z) (t : time_t) : tm :=
  let days := t / 86400 in
  let rem := t mod 86400 in
  let '(y, m, d) := civil_from_days days in
  mkTm (rem mod 60) ((rem / 60) mod 60) (rem / 3600)
       d (m - 1) (y - 1900)
       ((days + 4) mod 7) (days - days_from_civil y 1 1) isdst.

(** Time zone UTC: no daylight saving. *)
Definition utc_localtime_r (t : time_t) : tm := gmtime 0 t.
Definition utc_mktime (t : tm) : time_t := timegm t.

(** Central European time in 2023 ([TZ=CET-1CEST,M3.5.0,M10.5.0/3]):
    UTC+1, and UTC+2 between 2023-03-26 01:00:00 UTC and
    2023-10-29 01:00:00 UTC. *)
Definition cet_dst_begin : time_t := 1679792400.
Definition cet_dst_end : time_t := 1698541200.

Definition cet_in_dst (t : time_t) : bool :=
  (cet_dst_begin <=? t) && (t <? cet_dst_end).

Definition cet_localtime_r (t : time_t) : tm :=
  if cet_in_dst t then gmtime 1 (t + 7200) else gmtime 0 (t + 3600).

(** [mktime]: a non-negative [tm_isdst] names the offset to use; a
    negative one lets the library decide, here summer time whenever the
    wall-clock reading exists as summer time.  The reading that is
    resolved has its seconds brought into 0 .. 59; seconds beyond that
    range count as elapsed time from it (the C standard leaves the
    treatment of out-of-range members to the library; the GNU C library
    proceeds this way). *)
Definition cet_mktime (t : tm) : time_t :=
  let sec := Z.max 0 (Z.min 59 (tm_sec t)) in
  let w := timegm (mkTm sec (tm_min t) (tm_hour t) (tm_mday t) (tm_mon t)
                        (tm_year t) (tm_wday t) (tm_yday t) (tm_isdst t)) in
  let resolved :=
    if 0 <? tm_isdst t then w - 7200
    else if tm_isdst t =? 0 then w - 3600
    else if cet_in_dst (w - 7200) then w - 7200 else w - 3600 in
  resolved + (tm_sec t - sec).

End Calendar.

(* ------------------------------------------------------------------ *)
(** ** Irrigation events: data *)

(** Recurrence definition of an event: a single absolute date and time,
    or a time of day with a set of active weekdays (bit [d] of
    [weekdays] set: weekday [d] is active, Sunday being 0). *)
Inductive recurrence : Type :=
| SingleEvent (hour minute second day month year : Z)
| WeeklyEvent (hour minute second : Z) (weekdays : Z).

(** [IrrigationEvent::irrigation_event_data_t]. *)
Record irrigation_event_data_t : Type := mkEventData {
  zoneIdx : Z;
  durationSecs : Z;
  isStart : bool
}.

(** Modelled from the spec: the class [IrrigationEvent]
    ([irrigationEvent.h] and its implementation) is missing.  Section 3 of
    the specification gives its attributes: zone index, duration in
    seconds, start-vs-stop flag, the recurrence definition, and the
    cached reference time and next occurrence (zero: none). *)
Record IrrigationEvent : Type := mkEvent {
  eventData : irrigation_event_data_t;
  eventRecurrence : recurrence;
  referenceTime : time_t;
  nextOccurance : time_t
}.

(** Modelled from the spec: [IrrigationEvent::getNextOccurance] is
    missing; section 4.1, it "returns the cached value without
    recomputation". *)
Definition getNextOccurance (e : IrrigationEvent) : time_t := nextOccurance e.

(** Modelled from the spec: [IrrigationEvent::getReferenceTime] is
    missing; the reference time is "the time basis an event last used
    to compute its cached next occurrence". *)
Definition getReferenceTime (e : IrrigationEvent) : time_t := referenceTime e.

(** Modelled from the spec: [IrrigationEvent::operator<] is missing;
    section 4.1, "event A < event B iff A's cached next occurrence <
    B's, with 0 (none) treated as +infinity". *)
Definition eventLt (a b : IrrigationEvent) : bool :=
  if getNextOccurance a =? 0 then false
  else if getNextOccurance b =? 0 then true
  else getNextOccurance a <? getNextOccurance b.

(** Modelled from the spec: the setters of [IrrigationEvent] that the
    planner calls on a stop slot are missing; each rewrites the
    attribute of section 3 it is named after. *)
Definition setSingleEvent (e : IrrigationEvent)
    (hour minute second day month year : Z) : IrrigationEvent :=
  mkEvent (eventData e) (SingleEvent hour minute second day month year)
          (referenceTime e) (nextOccurance e).

Definition setStartFlag (e : IrrigationEvent) (f : bool) : IrrigationEvent :=
  mkEvent (mkEventData (zoneIdx (eventData e)) (durationSecs (eventData e)) f)
          (eventRecurrence e) (referenceTime e) (nextOccurance e).

Definition setDuration (e : IrrigationEvent) (secs : Z) : IrrigationEvent :=
  mkEvent (mkEventData (zoneIdx (eventData e)) secs (isStart (eventData e)))
          (eventRecurrence e) (referenceTime e) (nextOccurance e).

Definition setZoneIndex (e : IrrigationEvent) (idx : Z) : IrrigationEvent :=
  mkEvent (mkEventData idx (durationSecs (eventData e)) (isStart (eventData e)))
          (eventRecurrence e) (referenceTime e) (nextOccurance e).

(* ------------------------------------------------------------------ *)
(** ** Planner: data *)

(** [irrigation_zone_cfg_t]: a name and the channel-assignment slots. *)
Record irrigation_zone_cfg_t : Type := mkZone {
  zoneName : list nat;
  chEnabled : array bool;
  chNum : array Z;
  chStateStart : array bool;
  chStateStop : array bool
}.

(** [IrrigationPlanner::err_t]. *)
Inductive err_t : Type :=
| ERR_OK
| ERR_INVALID_PARAM
| ERR_INVALID_HANDLE
| ERR_INVALID_ZONE_IDX
| ERR_NO_STOP_SLOT_AVAIL
| ERR_PARTIAL_EVENT_HANDLES
| ERR_NO_HANDLES_FOUND
| ERR_TIMEOUT.

(** [IrrigationPlanner::event_handle_t]. *)
Record event_handle_t : Type := mkHandle {
  idx : Z;
  isStartHandle : bool
}.

(** A function pointer: [None] is [nullptr], [Some f] the address of
    callback [f]. *)
Definition IrrigConfigUpdateHookFncPtr : Type := option nat.

(** Calls the planner makes into other components, in the order made. *)
Inductive external_call : Type :=
| CopyZonesAndEvents
| HookCalled (f : nat) (param : Z).

(** The members of [IrrigationPlanner].  A mutex member is [true] while
    some task holds it. *)
Record IrrigationPlanner : Type := mkPlanner {
  zones : array irrigation_zone_cfg_t;
  events : array IrrigationEvent;
  eventsUsed : array bool;
  stopEvents : array IrrigationEvent;
  stopEventsUsed : array bool;
  configLock : bool;
  configUpdatedDuringLock : bool;
  configUpdatedHook : IrrigConfigUpdateHookFncPtr;
  configUpdatedHookParamPtr : Z;
  configMutex : bool;
  hookMutex : bool
}.

Definition set_events (p : IrrigationPlanner) (ev : array IrrigationEvent)
    (used : array bool) : IrrigationPlanner :=
  mkPlanner (zones p) ev used (stopEvents p) (stopEventsUsed p)
            (configLock p) (configUpdatedDuringLock p)
            (configUpdatedHook p) (configUpdatedHookParamPtr p)
            (configMutex p) (hookMutex p).

Definition set_stopEvents (p : IrrigationPlanner) (ev : array IrrigationEvent)
    (used : array bool) : IrrigationPlanner :=
  mkPlanner (zones p) (events p) (eventsUsed p) ev used
            (configLock p) (configUpdatedDuringLock p)
            (configUpdatedHook p) (configUpdatedHookParamPtr p)
            (configMutex p) (hookMutex p).

Definition set_zones (p : IrrigationPlanner) (z : array irrigation_zone_cfg_t)
    : IrrigationPlanner :=
  mkPlanner z (events p) (eventsUsed p) (stopEvents p) (stopEventsUsed p)
            (configLock p) (configUpdatedDuringLock p)
            (configUpdatedHook p) (configUpdatedHookParamPtr p)
            (configMutex p) (hookMutex p).

Definition set_configLock (p : IrrigationPlanner) (b : bool) : IrrigationPlanner :=
  mkPlanner (zones p) (events p) (eventsUsed p) (stopEvents p) (stopEventsUsed p)
            b (configUpdatedDuringLock p)
            (configUpdatedHook p) (configUpdatedHookParamPtr p)
            (configMutex p) (hookMutex p).

Definition set_configUpdatedDuringLock (p : IrrigationPlanner) (b : bool)
    : IrrigationPlanner :=
  mkPlanner (zones p) (events p) (eventsUsed p) (stopEvents p) (stopEventsUsed p)
            (configLock p) b
            (configUpdatedHook p) (configUpdatedHookParamPtr p)
            (configMutex p) (hookMutex p).

Definition set_hook (p : IrrigationPlanner) (h : IrrigConfigUpdateHookFncPtr)
    (param : Z) : IrrigationPlanner :=
  mkPlanner (zones p) (events p) (eventsUsed p) (stopEvents p) (stopEventsUsed p)
            (configLock p) (configUpdatedDuringLock p) h param
            (configMutex p) (hookMutex p).

Definition set_configMutex (p : IrrigationPlanner) (b : bool) : IrrigationPlanner :=
  mkPlanner (zones p) (events p) (eventsUsed p) (stopEvents p) (stopEventsUsed p)
            (configLock p) (configUpdatedDuringLock p)
            (configUpdatedHook p) (configUpdatedHookParamPtr p)
            b (hookMutex p).

Definition set_hookMutex (p : IrrigationPlanner) (b : bool) : IrrigationPlanner :=
  mkPlanner (zones p) (events p) (eventsUsed p) (stopEvents p) (stopEventsUsed p)
            (configLock p) (configUpdatedDuringLock p)
            (configUpdatedHook p) (configUpdatedHookParamPtr p)
            (configMutex p) b.

(* ------------------------------------------------------------------ *)
(** ** A concrete controller, for evaluating the planner *)

Module Sample.

(** Capacities. *)
Definition numZones : nat := 8.
Definition numEvents : nat := 4.
Definition numNormalEvents : nat := 2.
Definition numStopEvents : nat := 2.
Definition zoneCfgElements : nat := 4.

(** Event data that can always, respectively never, be read. *)
Definition readable : IrrigationEvent -> bool := fun _ => true.
Definition unreadable : IrrigationEvent -> bool := fun _ => false.

(** A settings manager that hands back the configuration it is given. *)
Definition keepConfig (z : array irrigation_zone_cfg_t) (e : array IrrigationEvent)
    (u : array bool)
    : array irrigation_zone_cfg_t * array IrrigationEvent * array bool :=
  (z, e, u).

Definition arrayOf {T : Type} (l : list T) (d : T) : array T := fun i => nth i l d.

Definition noZone : irrigation_zone_cfg_t :=
  mkZone [] (fun _ => false) (fun _ => 0) (fun _ => false) (fun _ => false).

(** Content of a slot that was never written. *)
Definition blank : IrrigationEvent :=
  mkEvent (mkEventData 0 0 false) (SingleEvent 0 0 0 1 1 1970) 0 0.

(** A single-shot start event on 1970-01-01 (UTC) at the given time of
    day, cached from reference time 0. *)
Definition startAt (h m s : Z) (zone secs : Z) : IrrigationEvent :=
  mkEvent (mkEventData zone secs true) (SingleEvent h m s 1 1 1970) 0
          (h * 3600 + m * 60 + s).

Definition stopAt (h m s : Z) (zone : Z) : IrrigationEvent :=
  mkEvent (mkEventData zone 0 false) (SingleEvent h m s 1 1 1970) 0
          (h * 3600 + m * 60 + s).

Definition plannerOf (ev : list IrrigationEvent) (used : list bool)
    (sev : list IrrigationEvent) (sused : list bool) : IrrigationPlanner :=
  mkPlanner (fun _ => noZone) (arrayOf ev blank) (arrayOf used false)
            (arrayOf sev blank) (arrayOf sused false)
            false false None 0 false false.

(** Start events at 01:23:20 (5000 s) and 00:50:00 (3000 s), an unused
    slot holding 00:16:40 (1000 s); one stop event at 00:33:20 (2000 s). *)
Definition dayPlanner : IrrigationPlanner :=
  plannerOf [startAt 1 23 20 0 60; startAt 0 50 0 1 30; startAt 0 16 40 2 10; blank]
            [true; true; false; false]
            [stopAt 0 33 20 1; blank]
            [true; false].

(** Three start events and one stop event due at 00:50:00 (3000 s). *)
Definition busyPlanner : IrrigationPlanner :=
  plannerOf [startAt 0 50 0 0 60; startAt 1 23 20 1 30; startAt 0 50 0 2 10;
             startAt 0 50 0 3 10]
            [true; true; true; false]
            [stopAt 0 50 0 1; stopAt 0 33 20 2]
            [true; true].

(** A one-shot start event (slot 2, past the recurring prefix) on
    2023-06-30 at 23:59:30 UTC for 60 s in zone 3, cached from
    23:00:00; stop slot 0 is in use, stop slot 1 is free. *)
Definition oneShot : IrrigationEvent :=
  mkEvent (mkEventData 3 60 true) (SingleEvent 23 59 30 30 6 2023)
          1688166000 1688169570.

Definition monthEndPlanner : IrrigationPlanner :=
  plannerOf [blank; blank; oneShot; blank] [false; false; true; false]
            [stopAt 0 33 20 1; blank] [true; false].

(** The same with both stop slots in use. *)
Definition fullStopPlanner : IrrigationPlanner :=
  plannerOf [blank; blank; oneShot; blank] [false; false; true; false]
            [stopAt 0 33 20 1; stopAt 0 50 0 2] [true; true].

(** Central European time, the night summer time begins: zone 1 is
    watered every Sunday at 01:30:00 for 7200 s; the event is cached
    from Sunday 2023-03-26 01:00:00 CET, so it is due that day at
    01:30:00 CET (00:30:00 UTC).  Both stop slots are free. *)
Definition springEvent : IrrigationEvent :=
  mkEvent (mkEventData 1 7200 true) (WeeklyEvent 1 30 0 1)
          1679788800 1679790600.


(** A one-shot start event that is used but exhausted: its date
    (1970-01-01 00:16:40 UTC) lies before its reference time, so its
    cache is 0. *)
Definition exhausted : IrrigationEvent :=
  mkEvent (mkEventData 0 60 true) (SingleEvent 0 16 40 1 1 1970) 5000 0.


(** The one-shot event of the month-end planner with the longest
    duration an [int] holds; both stop slots are free. *)
Definition endless : IrrigationEvent :=
  mkEvent (mkEventData 3 2147483647 true) (SingleEvent 23 59 30 30 6 2023)
          1688166000 1688169570.

Definition endlessPlanner : IrrigationPlanner :=
  plannerOf [blank; blank; endless; blank] [false; false; true; false]
            [blank; blank] [false; false].

(** Zone 0 is watered on Tuesdays and Thursdays at 06:00:00 for 300 s. *)
Definition tueThu : IrrigationEvent :=
  mkEvent (mkEventData 0 300 true) (WeeklyEvent 6 0 0 20) 0 0.

Definition weekPlanner : IrrigationPlanner :=
  plannerOf [tueThu; blank; blank; blank] [true; false; false; false]
            [blank; blank] [false; false].

(** A planner without any used slot. *)
Definition emptyPlanner : IrrigationPlanner := plannerOf [] [] [] [].

(** Start slots 1 and 2 are both due at 00:50:00 (3000 s), slot 0 at
    01:23:20 (5000 s). *)
Definition tiePlanner : IrrigationPlanner :=
  plannerOf [startAt 1 23 20 0 60; startAt 0 50 0 1 30; startAt 0 50 0 2 10; blank]
            [true; true; true; false]
            [blank; blank] [false; false].

(** A planner whose config lock is held, with hook 7 registered for
    parameter 42; and the same with the lock free. *)
Definition lockedPlanner : IrrigationPlanner :=
  mkPlanner (fun _ => noZone) (arrayOf [startAt 0 50 0 0 60] blank)
            (arrayOf [true] false) (fun _ => blank) (fun _ => false)
            true false (Some 7%nat) 42 false false.

Definition unlockedPlanner : IrrigationPlanner := set_configLock lockedPlanner false.

(** The locked planner with an update postponed, while another task
    holds the configuration mutex. *)
Definition contendedPlanner : IrrigationPlanner :=
  set_configMutex (set_configUpdatedDuringLock lockedPlanner true) true.

End Sample.

(* ------------------------------------------------------------------ *)
(** ** The planner and the recurrence engine, over their environment *)

Section Planner.

(** The C library's calendar conversions (they depend on the time zone
    the controller runs in). *)
Variable localtime_r : time_t -> tm.
Variable mktime : tm -> time_t.

(** Compile-time capacities, declared in headers outside
    [irrigationPlanner.cpp] ([irrigationPlanner.h], [irrigationZoneCfg.h]). *)
Variable irrigationPlannerNumZones : nat.
Variable irrigationPlannerNumEvents : nat.
Variable irrigationPlannerNumNormalEvents : nat.
Variable irrigationPlannerNumStopEvents : nat.
Variable irrigationZoneCfgElements : nat.
Variable irrigationZoneCfgNameLen : nat.

(** Whether [IrrigationEvent::getEventData] reports
    [IrrigationEvent::ERR_OK] for an event.  The class lives outside
    [irrigationPlanner.cpp]; the planner tests this status in
    [confirmNormalEvent]. *)
Variable eventDataReadable : IrrigationEvent -> bool.

(** [SettingsManager::copyZonesAndEvents(zones, events, eventsUsed)]:
    declared in [settingsManager.h], defined elsewhere; it rewrites the
    three arrays it is handed. *)
Variable copyZonesAndEvents :
  array irrigation_zone_cfg_t -> array IrrigationEvent -> array bool ->
  array irrigation_zone_cfg_t * array IrrigationEvent * array bool.

(** *** Recurrence engine *)

(** Modelled from the spec: the recurrence engine of [IrrigationEvent]
    is missing; section 4.1 has all occurrence arithmetic "normalize
    through a calendar representation" with the daylight-saving flag
    invalidated.  Absolute time of a single-shot date: *)
Definition singleEventTime (hour minute second day month year : Z) : time_t :=
  mktime (mkTm second minute hour day (month - 1) (year - 1900) 0 0 (-1)).

(** Modelled from the spec: the candidates of a weekday recurrence
    (section 4.1), the time of day [hour:minute:second] on the day of
    [now] and on each of the seven days after it. *)
Definition weeklyCandidates (hour minute second : Z) (now : time_t) : list time_t :=
  let t := localtime_r now in
  map (fun d => mktime (mkTm second minute hour (tm_mday t + Z.of_nat d)
                             (tm_mon t) (tm_year t) 0 0 (-1)))
      (seq 0 8).

(** Modelled from the spec: the next occurrence of a recurrence, which
    [IrrigationEvent] computes in code that is missing; section 4.1,
    "Single-shot: next occurrence
    is the fixed date-time if it is >= now, else 0.  Weekday-recurring:
    next occurrence is the earliest date-time >= now whose weekday is in
    the active set and whose time-of-day matches." *)
Definition nextOccuranceFrom (r : recurrence) (now : time_t) : time_t :=
  match r with
  | SingleEvent hour minute second day month year =>
      let t := singleEventTime hour minute second day month year in
      if now <=? t then t else 0
  | WeeklyEvent hour minute second weekdays =>
      match find (fun c => (now <=? c) && Z.testbit weekdays (tm_wday (localtime_r c)))
                 (weeklyCandidates hour minute second now) with
      | Some c => c
      | None => 0
      end
  end.

(** Modelled from the spec: [IrrigationEvent::updateReferenceTime] is
    missing; section 4.1, [updateReferenceTime(now)] "recomputes and
    caches the event's next occurrence at or after now". *)
Definition updateReferenceTime (e : IrrigationEvent) (now : time_t) : IrrigationEvent :=
  mkEvent (eventData e) (eventRecurrence e) now
          (nextOccuranceFrom (eventRecurrence e) now).

(** [IrrigationEvent::getEventData(&evtData)]: the event's data, or
    [None] for a status other than [IrrigationEvent::ERR_OK]. *)
Definition IrrigationEvent_getEventData (e : IrrigationEvent)
    : option irrigation_event_data_t :=
  if eventDataReadable e then Some (eventData e) else None.

(** *** [IrrigationPlanner::getNextEventIdx] *)

(** Loop variables: the list being updated in place, [nextIdx] and the
    pointer [nextEvent] ([None]: [nullptr], [Some p]: [&eventList[p]]). *)
Record next_scan : Type := mkNextScan {
  scanList : array IrrigationEvent;
  nextIdx : Z;
  nextEvent : option nat
}.

Definition getNextEventIdx_body (startTime : time_t) (eventUsedList : array bool)
    (s : next_scan) (i : nat) : next_scan :=
  match nextEvent s, eventUsedList i with
  | Some p, true =>
      let l := upd (scanList s) i (updateReferenceTime (scanList s i) startTime) in
      if negb (getNextOccurance (l i) =? 0) && eventLt (l i) (l p)
      then mkNextScan l (Z.of_nat i) (Some i)
      else mkNextScan l (nextIdx s) (nextEvent s)
  | None, true =>
      let l := upd (scanList s) i (updateReferenceTime (scanList s i) startTime) in
      if negb (getNextOccurance (l i) =? 0)
      then mkNextScan l (Z.of_nat i) (Some i)
      else mkNextScan l (nextIdx s) (nextEvent s)
  | _, false => s
  end.

(** The state after the iterations [i = 0 .. n-1]. *)
Fixpoint getNextEventIdx_loop (startTime : time_t) (eventList : array IrrigationEvent)
    (eventUsedList : array bool) (n : nat) : next_scan :=
  match n with
  | O => mkNextScan eventList (-1) None
  | S k => getNextEventIdx_body startTime eventUsedList
             (getNextEventIdx_loop startTime eventList eventUsedList k) k
  end.

Definition getNextEventIdx (startTime : time_t) (eventList : array IrrigationEvent)
    (eventUsedList : array bool) (listElements : nat)
    : array IrrigationEvent * Z :=
  let s := getNextEventIdx_loop startTime eventList eventUsedList listElements in
  (scanList s, nextIdx s).

(** *** [IrrigationPlanner::getNextEventTime] *)

Definition getNextEventTime (p : IrrigationPlanner) (startTime : time_t)
    (excludeStartTime : bool) : IrrigationPlanner * time_t :=
  let startTime :=
    if excludeStartTime
    then mktime (tm_add_sec (localtime_r startTime) 1)
    else startTime in
  let '(ev, nextStartEventIdx) :=
    getNextEventIdx startTime (events p) (eventsUsed p) irrigationPlannerNumEvents in
  let '(sev, nextStopEventIdx) :=
    getNextEventIdx startTime (stopEvents p) (stopEventsUsed p)
                    irrigationPlannerNumStopEvents in
  let p' := set_stopEvents (set_events p ev (eventsUsed p)) sev (stopEventsUsed p) in
  let nextEventTime :=
    if 0 <=? nextStartEventIdx then
      if 0 <=? nextStopEventIdx then
        if eventLt (ev (Z.to_nat nextStartEventIdx)) (sev (Z.to_nat nextStopEventIdx))
        then getNextOccurance (ev (Z.to_nat nextStartEventIdx))
        else getNextOccurance (sev (Z.to_nat nextStopEventIdx))
      else getNextOccurance (ev (Z.to_nat nextStartEventIdx))
    else
      if 0 <=? nextStopEventIdx
      then getNextOccurance (sev (Z.to_nat nextStopEventIdx))
      else 0 in
  (p', nextEventTime).

(** *** [IrrigationPlanner::getEventHandles] *)

(** Loop variables of the two scans; [hBreak] records a [break]. *)
Record handle_scan : Type := mkHandleScan {
  hDest : array event_handle_t;
  handleCnt : nat;
  hRet : err_t;
  hBreak : bool
}.

Definition getEventHandles_body (eventList : array IrrigationEvent)
    (eventUsedList : array bool) (startPool : bool) (eventTime : time_t)
    (maxElements : nat) (s : handle_scan) (i : nat) : handle_scan :=
  if eventUsedList i then
    if getNextOccurance (eventList i) =? eventTime then
      if (handleCnt s <? maxElements)%nat then
        mkHandleScan (upd (hDest s) (handleCnt s) (mkHandle (Z.of_nat i) startPool))
                     (S (handleCnt s)) (hRet s) false
      else mkHandleScan (hDest s) (handleCnt s) ERR_PARTIAL_EVENT_HANDLES true
    else s
  else s.

Fixpoint getEventHandles_loop (eventList : array IrrigationEvent)
    (eventUsedList : array bool) (startPool : bool) (eventTime : time_t)
    (maxElements : nat) (s0 : handle_scan) (n : nat) : handle_scan :=
  match n with
  | O => s0
  | S k =>
      let s := getEventHandles_loop eventList eventUsedList startPool eventTime
                                    maxElements s0 k in
      if hBreak s then s
      else getEventHandles_body eventList eventUsedList startPool eventTime
                                maxElements s k
  end.

(** [for(int i=handleCnt; i<maxElements; i++) dest[i].idx = -1;], as
    [n] iterations starting at [i]. *)
Fixpoint clearHandles (dest : array event_handle_t) (i n : nat) : array event_handle_t :=
  match n with
  | O => dest
  | S k => clearHandles (upd dest i (mkHandle (-1) (isStartHandle (dest i)))) (S i) k
  end.

Definition getEventHandles (p : IrrigationPlanner) (eventTime : time_t)
    (dest : array event_handle_t) (maxElements : nat)
    : err_t * array event_handle_t :=
  let s0 := mkHandleScan dest O ERR_OK false in
  let s1 := getEventHandles_loop (events p) (eventsUsed p) true eventTime
                                 maxElements s0 irrigationPlannerNumEvents in
  let s2 := getEventHandles_loop (stopEvents p) (stopEventsUsed p) false eventTime
                                 maxElements
                                 (mkHandleScan (hDest s1) (handleCnt s1) (hRet s1) false)
                                 irrigationPlannerNumStopEvents in
  let dest' := clearHandles (hDest s2) (handleCnt s2) (maxElements - handleCnt s2) in
  let ret := if Nat.eqb (handleCnt s2) 0 then ERR_NO_HANDLES_FOUND else hRet s2 in
  (ret, dest').

(** *** [IrrigationPlanner::getEventData] *)

(** [dest] is [None] for a null pointer, else the record it points to.
    The status of the event's own [getEventData] is not looked at. *)
Definition getEventData (p : IrrigationPlanner) (handle : event_handle_t)
    (dest : option irrigation_event_data_t)
    : err_t * option irrigation_event_data_t :=
  let copy (e : IrrigationEvent) :=
    match IrrigationEvent_getEventData e with
    | Some d => Some d
    | None => dest
    end in
  match dest with
  | None => (ERR_INVALID_PARAM, dest)
  | Some _ =>
      if idx handle <? 0 then (ERR_INVALID_HANDLE, dest)
      else if isStartHandle handle then
        if Z.of_nat irrigationPlannerNumEvents <=? idx handle
        then (ERR_INVALID_HANDLE, dest)
        else if negb (eventsUsed p (Z.to_nat (idx handle)))
        then (ERR_INVALID_HANDLE, dest)
        else (ERR_OK, copy (events p (Z.to_nat (idx handle))))
      else
        if Z.of_nat irrigationPlannerNumStopEvents <=? idx handle
        then (ERR_INVALID_HANDLE, dest)
        else if negb (stopEventsUsed p (Z.to_nat (idx handle)))
        then (ERR_INVALID_HANDLE, dest)
        else (ERR_OK, copy (stopEvents p (Z.to_nat (idx handle))))
  end.

(** *** [IrrigationPlanner::confirmNormalEvent] *)

(** The stop-event definition written into a slot holding [slot], for
    the start event [ev] with readable data [evtData]. *)
Definition stopEventFor (ev : IrrigationEvent) (evtData : irrigation_event_data_t)
    (slot : IrrigationEvent) : IrrigationEvent :=
  let stopTime := getNextOccurance ev in
  let stopTimeTm := localtime_r stopTime in
  let stopTimeTm := tm_add_sec stopTimeTm (durationSecs evtData) in
  let stopTimeTm := tm_set_isdst stopTimeTm (-1) in
  let stopTime := mktime stopTimeTm in
  let stopTimeTm := localtime_r stopTime in
  let e := setSingleEvent slot (tm_hour stopTimeTm) (tm_min stopTimeTm)
                          (tm_sec stopTimeTm) (tm_mday stopTimeTm)
                          (tm_mon stopTimeTm + 1) (tm_year stopTimeTm + 1900) in
  let e := setStartFlag e false in
  let e := setDuration e 0 in
  let e := setZoneIndex e (zoneIdx evtData) in
  updateReferenceTime e (getReferenceTime ev).

(** Loop variables of the slot search; [cBreak] records the [break]. *)
Record confirm_scan : Type := mkConfirmScan {
  cStopEvents : array IrrigationEvent;
  cStopEventsUsed : array bool;
  cRet : bool;
  cBreak : bool
}.

Definition confirmNormalEvent_body (ev : IrrigationEvent) (s : confirm_scan)
    (i : nat) : confirm_scan :=
  if negb (cStopEventsUsed s i) then
    let used := upd (cStopEventsUsed s) i true in
    match IrrigationEvent_getEventData ev with
    | None => mkConfirmScan (cStopEvents s) used (cRet s) true
    | Some evtData =>
        mkConfirmScan (upd (cStopEvents s) i (stopEventFor ev evtData (cStopEvents s i)))
                      used true true
    end
  else s.

Fixpoint confirmNormalEvent_loop (ev : IrrigationEvent) (s0 : confirm_scan)
    (n : nat) : confirm_scan :=
  match n with
  | O => s0
  | S k =>
      let s := confirmNormalEvent_loop ev s0 k in
      if cBreak s then s else confirmNormalEvent_body ev s k
  end.

Definition confirmNormalEvent (p : IrrigationPlanner) (idx : nat)
    : IrrigationPlanner * bool :=
  let s := confirmNormalEvent_loop (events p idx)
             (mkConfirmScan (stopEvents p) (stopEventsUsed p) false false)
             irrigationPlannerNumStopEvents in
  let p1 := set_stopEvents p (cStopEvents s) (cStopEventsUsed s) in
  let p2 := if (irrigationPlannerNumNormalEvents <=? idx)%nat
            then set_events p1 (events p1) (upd (eventsUsed p1) idx false)
            else p1 in
  (p2, cRet s).

(** *** [IrrigationPlanner::confirmStopEvent] and [confirmEvent] *)

Definition confirmStopEvent (p : IrrigationPlanner) (idx : nat) : IrrigationPlanner :=
  set_stopEvents p (stopEvents p) (upd (stopEventsUsed p) idx false).

Definition confirmEvent (p : IrrigationPlanner) (handle : event_handle_t)
    : IrrigationPlanner * err_t :=
  if idx handle <? 0 then (p, ERR_INVALID_HANDLE)
  else if isStartHandle handle then
    if Z.of_nat irrigationPlannerNumEvents <=? idx handle
    then (p, ERR_INVALID_HANDLE)
    else if negb (eventsUsed p (Z.to_nat (idx handle)))
    then (p, ERR_INVALID_HANDLE)
    else
      let '(p', ok) := confirmNormalEvent p (Z.to_nat (idx handle)) in
      if negb ok then (p', ERR_NO_STOP_SLOT_AVAIL) else (p', ERR_OK)
  else
    if Z.of_nat irrigationPlannerNumStopEvents <=? idx handle
    then (p, ERR_INVALID_HANDLE)
    else if negb (stopEventsUsed p (Z.to_nat (idx handle)))
    then (p, ERR_INVALID_HANDLE)
    else (confirmStopEvent p (Z.to_nat (idx handle)), ERR_OK).

(** *** [IrrigationPlanner::getZoneConfig] *)

(** What happens to [*cfg]: left alone, assigned a zone of the array, or
    assigned from a read past the end of [zones] (which holds
    [irrigationPlannerNumZones] elements). *)
Inductive cfg_write : Type :=
| CfgUntouched
| CfgCopied (z : irrigation_zone_cfg_t)
| CfgReadPastArray.

Definition getZoneConfig (p : IrrigationPlanner) (idx : Z) : err_t * cfg_write :=
  if (idx <? 0) || (Z.of_nat irrigationZoneCfgElements <=? idx)
  then (ERR_INVALID_ZONE_IDX, CfgUntouched)
  else (ERR_OK,
        if (Z.to_nat idx <? irrigationPlannerNumZones)%nat
        then CfgCopied (zones p (Z.to_nat idx))
        else CfgReadPastArray).

(** *** Configuration reload: [printAllEvents], [irrigConfigUpdated],
    [setConfigLock], [getConfigLock], [registerIrrigPlanUpdatedHook] *)

(** [printAllEvents] (compiled in: [IRRIGATION_PLANNER_PRINT_ALL_EVENTS]
    is defined): besides logging, it moves the reference time of every
    used start event to [now], the value of [time(NULL)]. *)
Fixpoint printAllEvents_loop (ev : array IrrigationEvent) (used : array bool)
    (now : time_t) (n : nat) : array IrrigationEvent :=
  match n with
  | O => ev
  | S k =>
      let ev' := printAllEvents_loop ev used now k in
      if used k then upd ev' k (updateReferenceTime (ev' k) now) else ev'
  end.

Definition printAllEvents (p : IrrigationPlanner) (now : time_t) : IrrigationPlanner :=
  set_events p (printAllEvents_loop (events p) (eventsUsed p) now
                                    irrigationPlannerNumEvents)
             (eventsUsed p).

(** [xSemaphoreTake] on a mutex held elsewhere runs into the timeout and
    returns [pdFALSE]; on a free mutex it takes it. *)
Definition irrigConfigUpdated (p : IrrigationPlanner) (now : time_t)
    : IrrigationPlanner * list external_call :=
  if configLock p then (set_configUpdatedDuringLock p true, [])
  else if configMutex p then (p, [])
  else
    let p1 := set_configMutex p true in
    let '(z, ev, used) := copyZonesAndEvents (zones p1) (events p1) (eventsUsed p1) in
    let p2 := set_events (set_zones p1 z) ev used in
    let p3 := printAllEvents p2 now in
    let '(p4, calls) :=
      if hookMutex p3 then (p3, [])
      else
        let p' := set_hookMutex p3 true in
        let calls := match configUpdatedHook p' with
                     | Some f => [HookCalled f (configUpdatedHookParamPtr p')]
                     | None => []
                     end in
        (set_hookMutex p' false, calls) in
    (set_configMutex p4 false, CopyZonesAndEvents :: calls).

Definition setConfigLock (p : IrrigationPlanner) (lockState : bool) (now : time_t)
    : IrrigationPlanner * list external_call :=
  let p1 := set_configLock p lockState in
  if negb lockState && configUpdatedDuringLock p1
  then irrigConfigUpdated (set_configUpdatedDuringLock p1 false) now
  else (p1, []).

Definition getConfigLock (p : IrrigationPlanner) : bool := configLock p.

Definition registerIrrigPlanUpdatedHook (p : IrrigationPlanner)
    (hook : IrrigConfigUpdateHookFncPtr) (param : Z) : IrrigationPlanner * err_t :=
  if hookMutex p then (p, ERR_TIMEOUT)
  else (set_hookMutex (set_hook (set_hookMutex p true) hook param) false, ERR_OK).

(** [IrrigationPlanner::irrigConfigUpdatedHookDispatch(param)]: [param]
    is [None] for a null pointer, else the planner it points to; the
    result is that planner after the call. *)
Definition irrigConfigUpdatedHookDispatch (param : option IrrigationPlanner)
    (now : time_t) : option IrrigationPlanner * list external_call :=
  match param with
  | None => (None, [])
  | Some planner =>
      let '(planner', calls) := irrigConfigUpdated planner now in
      (Some planner', calls)
  end.

(** *** Constructor and destructor *)

(** [for(int j=0; j < irrigationZoneCfgElements; j++) chEnabled[j] = false;]
    and likewise [eventsUsed[i] = false], [stopEventsUsed[i] = false]:
    the state after the iterations [0 .. n-1]. *)
Fixpoint clearFlags (a : array bool) (n : nat) : array bool :=
  match n with
  | O => a
  | S k => upd (clearFlags a k) k false
  end.

(** The body of the zone loop: terminate the name, disable every
    channel slot. *)
Definition clearZone (z : irrigation_zone_cfg_t) : irrigation_zone_cfg_t :=
  mkZone (list_set (zoneName z) irrigationZoneCfgNameLen 0)
         (clearFlags (chEnabled z) irrigationZoneCfgElements)
         (chNum z) (chStateStart z) (chStateStop z).

Fixpoint clearZones (z : array irrigation_zone_cfg_t) (n : nat)
    : array irrigation_zone_cfg_t :=
  match n with
  | O => z
  | S k => let z' := clearZones z k in upd z' k (clearZone (z' k))
  end.

(** The three storage loops the constructor and the destructor share. *)
Definition clearStorage (p : IrrigationPlanner) : IrrigationPlanner :=
  let p1 := set_zones p (clearZones (zones p) irrigationPlannerNumZones) in
  let p2 := set_events p1 (events p1)
                       (clearFlags (eventsUsed p1) irrigationPlannerNumEvents) in
  set_stopEvents p2 (stopEvents p2)
                 (clearFlags (stopEventsUsed p2) irrigationPlannerNumStopEvents).

(** [IrrigationPlanner::IrrigationPlanner()], on the object's memory
    [mem] as it is before construction: the storage loops,
    [printAllEvents] at clock value [now], the hook pair set to null,
    the two mutexes created (free).  The constructor does not assign
    [configLock] and [configUpdatedDuringLock]. *)
Definition IrrigationPlanner_new (mem : IrrigationPlanner) (now : time_t)
    : IrrigationPlanner :=
  let p1 := printAllEvents (clearStorage mem) now in
  let p2 := set_hook p1 None 0 in
  set_hookMutex (set_configMutex p2 false) false.

(** [IrrigationPlanner::~IrrigationPlanner()]: the storage loops; the
    mutexes are deleted. *)
Definition IrrigationPlanner_delete (p : IrrigationPlanner) : IrrigationPlanner :=
  clearStorage p.

(** *** Reference notions the properties are stated with *)

(** The list after [updateReferenceTime(t)] has been applied to every
    used slot below [n]. *)
Definition updatedList (t : time_t) (l : array IrrigationEvent)
    (used : array bool) (n : nat) : array IrrigationEvent :=
  fun j => if (j <? n)%nat && used j then updateReferenceTime (l j) t else l j.

(** The valid (non-zero) next occurrences of the live slots of a pool,
    in slot order, once every used slot is brought to reference time [t]. *)
Definition liveOccurrences (t : time_t) (l : array IrrigationEvent)
    (used : array bool) (n : nat) : list time_t :=
  filter (fun o => negb (o =? 0))
         (map (fun i => getNextOccurance (updateReferenceTime (l i) t))
              (filter used (seq 0 n))).

(** The same over both pools, start pool first. *)
Definition allLiveOccurrences (p : IrrigationPlanner) (t : time_t) : list time_t :=
  liveOccurrences t (events p) (eventsUsed p) irrigationPlannerNumEvents ++
  liveOccurrences t (stopEvents p) (stopEventsUsed p) irrigationPlannerNumStopEvents.

(** [m] is the least element of [l]. *)
Definition isMinimumOf (m : Z) (l : list Z) : Prop :=
  In m l /\ forall x, In x l -> m <= x.

(** [r] is the least element of [l], or 0 when [l] is empty. *)
Definition minimumOrZero (l : list Z) (r : Z) : Prop :=
  match l with
  | [] => r = 0
  | _ :: _ => isMinimumOf r l
  end.

(** The search floor [getNextEventTime] scans from. *)
Definition searchFloor (startTime : time_t) (excludeStartTime : bool) : time_t :=
  if excludeStartTime
  then mktime (tm_add_sec (localtime_r startTime) 1)
  else startTime.

(** The occurrence of slot [j] of a list once the slot is brought to
    [startTime]. *)
Definition occurrenceAt (startTime : time_t) (eventList : array IrrigationEvent)
    (j : nat) : time_t :=
  getNextOccurance (updateReferenceTime (eventList j) startTime).

(** What the loop variables of [getNextEventIdx] hold after [n]
    iterations. *)
Definition scan_invariant (startTime : time_t) (eventList : array IrrigationEvent)
    (eventUsedList : array bool) (n : nat) (s : next_scan) : Prop :=
  (forall j, scanList s j = updatedList startTime eventList eventUsedList n j) /\
  match nextEvent s with
  | None =>
      nextIdx s = -1 /\
      forall j, (j < n)%nat -> eventUsedList j = true ->
                occurrenceAt startTime eventList j = 0
  | Some q =>
      nextIdx s = Z.of_nat q /\ (q < n)%nat /\ eventUsedList q = true /\
      occurrenceAt startTime eventList q <> 0 /\
      forall j, (j < n)%nat -> eventUsedList j = true ->
                occurrenceAt startTime eventList j <> 0 ->
                occurrenceAt startTime eventList q <= occurrenceAt startTime eventList j
  end.

(** The first free slot below [n], in scan order. *)
Fixpoint firstFree (used : array bool) (n : nat) : option nat :=
  match n with
  | O => None
  | S k =>
      match firstFree used k with
      | Some i => Some i
      | None => if used k then None else Some k
      end
  end.

(** A handle [confirmEvent] accepts as a start event: in range of the
    start pool and naming a used slot. *)
Definition validStartHandle (p : IrrigationPlanner) (h : event_handle_t) : Prop :=
  0 <= idx h /\ isStartHandle h = true /\
  idx h < Z.of_nat irrigationPlannerNumEvents /\
  eventsUsed p (Z.to_nat (idx h)) = true.

(** The slot search of [confirmNormalEvent] on planner [p] for start
    slot [i]. *)
Definition stopSlotSearch (p : IrrigationPlanner) (i : nat) : confirm_scan :=
  match firstFree (stopEventsUsed p) irrigationPlannerNumStopEvents with
  | Some k =>
      confirmNormalEvent_body (events p i)
        (mkConfirmScan (stopEvents p) (stopEventsUsed p) false false) k
  | None => mkConfirmScan (stopEvents p) (stopEventsUsed p) false false
  end.

(** Number of used slots of a pool of capacity [n]. *)
Definition usedCount (used : array bool) (n : nat) : nat :=
  length (filter used (seq 0 n)).

(** Handles of the live slots of a pool whose cached next occurrence is
    [eventTime], in ascending slot order. *)
Definition poolMatches (eventList : array IrrigationEvent) (used : array bool)
    (startPool : bool) (eventTime : time_t) (n : nat) : list event_handle_t :=
  map (fun i => mkHandle (Z.of_nat i) startPool)
      (filter (fun i => used i && (getNextOccurance (eventList i) =? eventTime))
              (seq 0 n)).

(** The same over both pools: start pool first, then stop pool. *)
Definition allMatches (p : IrrigationPlanner) (eventTime : time_t)
    : list event_handle_t :=
  poolMatches (events p) (eventsUsed p) true eventTime irrigationPlannerNumEvents ++
  poolMatches (stopEvents p) (stopEventsUsed p) false eventTime
              irrigationPlannerNumStopEvents.

(** The invalid sentinel. *)
Definition noHandle : event_handle_t := mkHandle (-1) false.

(** Scan order of handles: start handles before stop handles, and
    ascending index within a pool. *)
Definition handleBefore (a b : event_handle_t) : Prop :=
  (isStartHandle a = true /\ isStartHandle b = false) \/
  (isStartHandle a = isStartHandle b /\ idx a < idx b).

(** What the loop variables of a scan of [getEventHandles] hold after
    [n] iterations over a pool, started in state [s0]. *)
Definition handle_scan_invariant (eventList : array IrrigationEvent)
    (used : array bool) (startPool : bool) (eventTime : time_t) (maxElements : nat)
    (s0 : handle_scan) (n : nat) (s : handle_scan) : Prop :=
  let found := poolMatches eventList used startPool eventTime n in
  let total := (handleCnt s0 + length found)%nat in
  handleCnt s = Nat.min maxElements total /\
  hBreak s = (maxElements <? total)%nat /\
  hRet s = (if (maxElements <? total)%nat then ERR_PARTIAL_EVENT_HANDLES else hRet s0) /\
  forall j,
    hDest s j =
    if (handleCnt s0 <=? j)%nat && (j <? handleCnt s)%nat
    then nth (j - handleCnt s0) found noHandle
    else hDest s0 j.

(** A sequence of update notifications, one per element of [nows] (the
    clock value at each); the calls made are collected in order. *)
Fixpoint notifyTimes (p : IrrigationPlanner) (nows : list time_t)
    : IrrigationPlanner * list external_call :=
  match nows with
  | [] => (p, [])
  | now :: rest =>
      let '(p1, c1) := irrigConfigUpdated p now in
      let '(p2, c2) := notifyTimes p1 rest in
      (p2, c1 ++ c2)
  end.

(** Neither mutex is held by another task. *)
Definition mutexesFree (p : IrrigationPlanner) : Prop :=
  configMutex p = false /\ hookMutex p = false.

(** The callback invocation a reload makes for the stored pair. *)
Definition hookCalls (p : IrrigationPlanner) : list external_call :=
  match configUpdatedHook p with
  | Some f => [HookCalled f (configUpdatedHookParamPtr p)]
  | None => []
  end.

(** A handle [confirmEvent] accepts as a stop event: in range of the
    stop pool and naming a used slot. *)
Definition validStopHandle (p : IrrigationPlanner) (h : event_handle_t) : Prop :=
  0 <= idx h /\ isStartHandle h = false /\
  idx h < Z.of_nat irrigationPlannerNumStopEvents /\
  stopEventsUsed p (Z.to_nat (idx h)) = true.

(** A handle of a live slot of its pool. *)
Definition handleAccepted (p : IrrigationPlanner) (h : event_handle_t) : Prop :=
  validStartHandle p h \/ validStopHandle p h.

(** The cached next occurrence of the slot a handle names. *)
Definition handleOccurrence (p : IrrigationPlanner) (h : event_handle_t) : time_t :=
  getNextOccurance (if isStartHandle h
                    then events p (Z.to_nat (idx h))
                    else stopEvents p (Z.to_nat (idx h))).

(** No slot of either pool is live. *)
Definition noLiveSlot (p : IrrigationPlanner) : Prop :=
  (forall j, (j < irrigationPlannerNumEvents)%nat -> eventsUsed p j = false) /\
  (forall j, (j < irrigationPlannerNumStopEvents)%nat -> stopEventsUsed p j = false).

(** The operations of the planner's interface, with their arguments. *)
Inductive operation : Type :=
| GetNextEventTime (startTime : time_t) (excludeStartTime : bool)
| GetEventHandles (eventTime : time_t) (dest : array event_handle_t)
                  (maxElements : nat)
| GetEventData (handle : event_handle_t) (dest : option irrigation_event_data_t)
| ConfirmEvent (handle : event_handle_t)
| GetZoneConfig (idx : Z)
| SetConfigLock (lockState : bool) (now : time_t)
| GetConfigLock
| IrrigConfigUpdated (now : time_t)
| RegisterIrrigPlanUpdatedHook (hook : IrrigConfigUpdateHookFncPtr) (param : Z).

(** The planner after an operation.  [getEventHandles], [getEventData],
    [getZoneConfig] and [getConfigLock] assign no member. *)
Definition stateAfter (p : IrrigationPlanner) (o : operation) : IrrigationPlanner :=
  match o with
  | GetNextEventTime startTime excludeStartTime =>
      fst (getNextEventTime p startTime excludeStartTime)
  | ConfirmEvent handle => fst (confirmEvent p handle)
  | SetConfigLock lockState now => fst (setConfigLock p lockState now)
  | IrrigConfigUpdated now => fst (irrigConfigUpdated p now)
  | RegisterIrrigPlanUpdatedHook hook param =>
      fst (registerIrrigPlanUpdatedHook p hook param)
  | GetEventHandles _ _ _ | GetEventData _ _ | GetZoneConfig _ | GetConfigLock => p
  end.

(** The cached occurrence of an event is the one its recurrence
    definition gives from its cached reference time. *)
Definition cacheCoherent (e : IrrigationEvent) : bool :=
  getNextOccurance e =? nextOccuranceFrom (eventRecurrence e) (getReferenceTime e).

(** A complete stop-event definition: single-shot, not a start event,
    of duration zero, with a coherent cache. *)
Definition isStopEvent (e : IrrigationEvent) : bool :=
  match eventRecurrence e with
  | SingleEvent _ _ _ _ _ _ => true
  | WeeklyEvent _ _ _ _ => false
  end && negb (isStart (eventData e)) && (durationSecs (eventData e) =? 0) &&
  cacheCoherent e.

(** Every used slot holds a valid event: a used stop slot a complete
    stop-event definition, a used start slot a definition that is valid
    for the settings manager ([validDefinition], its notion) with a
    coherent cache. *)
Definition slotsValid (validDefinition : irrigation_event_data_t -> recurrence -> Prop)
    (p : IrrigationPlanner) : Prop :=
  (forall j, (j < irrigationPlannerNumStopEvents)%nat -> stopEventsUsed p j = true ->
             isStopEvent (stopEvents p j) = true) /\
  (forall j, (j < irrigationPlannerNumEvents)%nat -> eventsUsed p j = true ->
             validDefinition (eventData (events p j)) (eventRecurrence (events p j)) /\
             cacheCoherent (events p j) = true).

(** The guarantee of the settings manager (section 6 of the
    specification): the events it copies in as used are valid
    definitions, or it leaves valid arrays as they are. *)
Definition deliversValid
    (validDefinition : irrigation_event_data_t -> recurrence -> Prop) : Prop :=
  forall z e u,
    (forall j, (j < irrigationPlannerNumEvents)%nat -> u j = true ->
               validDefinition (eventData (e j)) (eventRecurrence (e j))) ->
    forall j, (j < irrigationPlannerNumEvents)%nat ->
              snd (copyZonesAndEvents z e u) j = true ->
              validDefinition (eventData (snd (fst (copyZonesAndEvents z e u)) j))
                              (eventRecurrence (snd (fst (copyZonesAndEvents z e u)) j)).

(* ------------------------------------------------------------------ *)
(** ** Properties *)

Lemma upd_same {T : Type} (a : array T) (i : nat) (v : T) : upd a i v i = v.
Proof. unfold upd. now rewrite Nat.eqb_refl. Qed.

Lemma upd_other {T : Type} (a : array T) (i j : nat) (v : T) :
  j <> i -> upd a i v j = a j.
Proof.
  intros H. unfold upd. destruct (Nat.eqb_spec j i); [contradiction | reflexivity].
Qed.

Lemma eventLt_valid (a b : IrrigationEvent) :
  getNextOccurance a <> 0 -> getNextOccurance b <> 0 ->
  eventLt a b = (getNextOccurance a <? getNextOccurance b).
Proof.
  intros Ha Hb. unfold eventLt.
  destruct (Z.eqb_spec (getNextOccurance a) 0); [contradiction |].
  destruct (Z.eqb_spec (getNextOccurance b) 0); [contradiction | reflexivity].
Qed.

(** *** The scan of one pool *)

Section NextEventIdx.

Variable startTime : time_t.
Variable eventList : array IrrigationEvent.
Variable eventUsedList : array bool.

Local Notation occ := (occurrenceAt startTime eventList).

Lemma updatedList_step (n j : nat) :
  updatedList startTime eventList eventUsedList (S n) j =
  if Nat.eqb j n && eventUsedList j
  then updateReferenceTime (eventList j) startTime
  else updatedList startTime eventList eventUsedList n j.
Proof.
  unfold updatedList.
  destruct (Nat.eqb_spec j n) as [-> | Hne]; simpl.
  - replace (n <? S n)%nat with true by (symmetry; apply Nat.ltb_lt; lia).
    replace (n <? n)%nat with false by (symmetry; apply Nat.ltb_ge; lia).
    simpl. destruct (eventUsedList n); reflexivity.
  - destruct (Nat.ltb_spec j (S n)), (Nat.ltb_spec j n); try reflexivity; lia.
Qed.

Lemma updatedList_below (n j : nat) :
  (n <= j)%nat -> updatedList startTime eventList eventUsedList n j = eventList j.
Proof.
  intros H. unfold updatedList.
  replace (j <? n)%nat with false by (symmetry; apply Nat.ltb_ge; lia).
  reflexivity.
Qed.

Lemma getNextEventIdx_loop_invariant (n : nat) :
  scan_invariant startTime eventList eventUsedList n
    (getNextEventIdx_loop startTime eventList eventUsedList n).
Proof.
  induction n as [| n IH].
  - split; cbn [getNextEventIdx_loop scanList nextIdx nextEvent].
    + intros j. unfold updatedList. reflexivity.
    + split; [reflexivity | intros; lia].
  - cbn [getNextEventIdx_loop].
    set (s := getNextEventIdx_loop startTime eventList eventUsedList n) in *.
    destruct IH as [Hl Hn].
    assert (Hcur : scanList s n = eventList n)
      by (rewrite Hl; apply updatedList_below; lia).
    unfold getNextEventIdx_body.
    destruct (eventUsedList n) eqn:Hu.
    + (* the slot is used: it is brought to [startTime] *)
      assert (Hlist : forall j,
                 upd (scanList s) n (updateReferenceTime (scanList s n) startTime) j =
                 updatedList startTime eventList eventUsedList (S n) j).
      { intros j. rewrite updatedList_step.
        destruct (Nat.eqb_spec j n) as [-> | Hne]; cbn [andb].
        - rewrite upd_same, Hu, Hcur. reflexivity.
        - rewrite upd_other by assumption. apply Hl. }
      destruct (nextEvent s) as [q |] eqn:Hq; cbv zeta.
      * destruct Hn as (Hidx & Hqn & Hqu & Hqo & Hmin).
        assert (Hatq : upd (scanList s) n
                         (updateReferenceTime (scanList s n) startTime) q =
                       updateReferenceTime (eventList q) startTime).
        { rewrite upd_other by lia. rewrite (Hl q). unfold updatedList.
          replace (q <? n)%nat with true by (symmetry; apply Nat.ltb_lt; lia).
          rewrite Hqu. reflexivity. }
        rewrite Hatq, upd_same, Hcur. fold (occ n).
        destruct (Z.eqb_spec (occ n) 0) as [Hz | Hnz]; cbn [negb andb].
        -- split; [rewrite <- Hcur; exact Hlist |].
           cbn [nextEvent nextIdx].
           repeat split; auto; try lia.
           intros j Hj Huj Hoj.
           destruct (Nat.eq_dec j n) as [-> | Hne]; [contradiction |].
           apply Hmin; auto; lia.
        -- rewrite eventLt_valid by assumption.
           fold (occ n). fold (occ q).
           destruct (Z.ltb_spec (occ n) (occ q)) as [Hlt | Hge].
           ++ split; [rewrite <- Hcur; exact Hlist |].
              cbn [nextEvent nextIdx].
              repeat split; auto; try lia.
              intros j Hj Huj Hoj.
              destruct (Nat.eq_dec j n) as [-> | Hne]; [lia |].
              specialize (Hmin j ltac:(lia) Huj Hoj). lia.
           ++ split; [rewrite <- Hcur; exact Hlist |].
              cbn [nextEvent nextIdx].
              repeat split; auto; try lia.
              intros j Hj Huj Hoj.
              destruct (Nat.eq_dec j n) as [-> | Hne]; [lia |].
              apply Hmin; auto; lia.
      * destruct Hn as (Hidx & Hnone).
        rewrite upd_same, Hcur. fold (occ n).
        destruct (Z.eqb_spec (occ n) 0) as [Hz | Hnz]; cbn [negb].
        -- split; [rewrite <- Hcur; exact Hlist |].
           cbn [nextEvent nextIdx].
           split; [assumption |].
           intros j Hj Huj.
           destruct (Nat.eq_dec j n) as [-> | Hne]; [assumption |].
           apply Hnone; auto; lia.
        -- split; [rewrite <- Hcur; exact Hlist |].
           cbn [nextEvent nextIdx].
           repeat split; auto; try lia.
           intros j Hj Huj Hoj.
           destruct (Nat.eq_dec j n) as [-> | Hne]; [lia |].
           exfalso. apply Hoj. apply Hnone; auto; lia.
    + (* the slot is unused: skipped and left stale *)
      assert (Hskip : forall j,
                 scanList s j = updatedList startTime eventList eventUsedList (S n) j).
      { intros j. rewrite updatedList_step.
        destruct (Nat.eqb_spec j n) as [-> | Hne]; cbn [andb].
        - rewrite Hu. apply Hl.
        - apply Hl. }
      destruct (nextEvent s) as [q |] eqn:Hq.
      * split; [exact Hskip |]. rewrite Hq.
        destruct Hn as (Hidx & Hqn & Hqu & Hqo & Hmin).
        repeat split; auto; try lia.
        intros j Hj Huj Hoj.
        destruct (Nat.eq_dec j n) as [-> | Hne]; [congruence |].
        apply Hmin; auto; lia.
      * split; [exact Hskip |]. rewrite Hq.
        destruct Hn as (Hidx & Hnone).
        split; [assumption |].
        intros j Hj Huj.
        destruct (Nat.eq_dec j n) as [-> | Hne]; [congruence |].
        apply Hnone; auto; lia.
Qed.

Lemma liveOccurrences_In (n : nat) (x : time_t) :
  In x (liveOccurrences startTime eventList eventUsedList n) <->
  exists j, (j < n)%nat /\ eventUsedList j = true /\ occ j = x /\ x <> 0.
Proof.
  unfold liveOccurrences. rewrite filter_In, in_map_iff. split.
  - intros [(j & Hj & Hin) Hx]. apply filter_In in Hin. destruct Hin as [Hs Hu].
    apply in_seq in Hs. exists j.
    split; [lia |]. split; [assumption |]. split; [assumption |].
    destruct (Z.eqb_spec x 0); [discriminate | assumption].
  - intros (j & Hj & Hu & Ho & Hx). split.
    + exists j. split; [exact Ho |]. apply filter_In. split; [| assumption].
      apply in_seq. lia.
    + destruct (Z.eqb_spec x 0); [contradiction | reflexivity].
Qed.

(** The index returned is negative exactly when the pool has no valid
    occurrence; otherwise it names a slot holding the least one. *)
Lemma getNextEventIdx_spec (n : nat) :
  let '(l, i) := getNextEventIdx startTime eventList eventUsedList n in
  (forall j, l j = updatedList startTime eventList eventUsedList n j) /\
  ((i = -1 /\ liveOccurrences startTime eventList eventUsedList n = []) \/
   (0 <= i /\ getNextOccurance (l (Z.to_nat i)) <> 0 /\
    isMinimumOf (getNextOccurance (l (Z.to_nat i)))
                (liveOccurrences startTime eventList eventUsedList n))).
Proof.
  unfold getNextEventIdx.
  destruct (getNextEventIdx_loop_invariant n) as [Hl Hn].
  set (s := getNextEventIdx_loop startTime eventList eventUsedList n) in *.
  split; [exact Hl |].
  destruct (nextEvent s) as [q |].
  - destruct Hn as (Hidx & Hqn & Hqu & Hqo & Hmin). right.
    assert (Hocc : getNextOccurance (scanList s (Z.to_nat (nextIdx s))) = occ q).
    { rewrite Hidx, Nat2Z.id, Hl. unfold updatedList.
      replace (q <? n)%nat with true by (symmetry; apply Nat.ltb_lt; lia).
      rewrite Hqu. reflexivity. }
    rewrite Hocc. split; [lia |]. split; [assumption |]. split.
    + apply liveOccurrences_In. exists q. auto.
    + intros x Hx. apply liveOccurrences_In in Hx.
      destruct Hx as (j & Hj & Hu & Ho & Hx). subst x. apply Hmin; auto.
  - destruct Hn as (Hidx & Hnone). left. split; [assumption |].
    destruct (liveOccurrences startTime eventList eventUsedList n) as [| x r] eqn:E;
      [reflexivity |].
    assert (Hin : In x (liveOccurrences startTime eventList eventUsedList n))
      by (rewrite E; left; reflexivity).
    apply liveOccurrences_In in Hin. destruct Hin as (j & Hj & Hu & Ho & Hx).
    exfalso. apply Hx. rewrite <- Ho. apply Hnone; auto.
Qed.

End NextEventIdx.

(** *** [getNextEventTime] *)

Lemma isMinimumOf_app_l (a b : Z) (l1 l2 : list Z) :
  isMinimumOf a l1 -> isMinimumOf b l2 -> a <= b -> isMinimumOf a (l1 ++ l2).
Proof.
  intros [Ha Hal] [Hb Hbl] Hab. split.
  - apply in_or_app. now left.
  - intros x Hx. apply in_app_or in Hx. destruct Hx as [Hx | Hx].
    + now apply Hal.
    + specialize (Hbl x Hx). lia.
Qed.

Lemma isMinimumOf_app_r (a b : Z) (l1 l2 : list Z) :
  isMinimumOf a l1 -> isMinimumOf b l2 -> b <= a -> isMinimumOf b (l1 ++ l2).
Proof.
  intros [Ha Hal] [Hb Hbl] Hab. split.
  - apply in_or_app. now right.
  - intros x Hx. apply in_app_or in Hx. destruct Hx as [Hx | Hx].
    + specialize (Hal x Hx). lia.
    + now apply Hbl.
Qed.

Lemma minimumOrZero_of_minimum (l : list Z) (r : Z) :
  isMinimumOf r l -> minimumOrZero l r.
Proof.
  intros H. destruct l as [| x l']; [destruct H as [[] _] | exact H].
Qed.

(** Whatever the flag, the result is the least valid occurrence of the
    live slots of both pools, all brought to the search floor, or 0; and
    the pools are left with every used slot at the search floor. *)
Lemma getNextEventTime_scan (p : IrrigationPlanner) (t : time_t) (e : bool) :
  let f := searchFloor t e in
  minimumOrZero (allLiveOccurrences p f) (snd (getNextEventTime p t e)) /\
  (forall j, events (fst (getNextEventTime p t e)) j =
             updatedList f (events p) (eventsUsed p) irrigationPlannerNumEvents j) /\
  (forall j, stopEvents (fst (getNextEventTime p t e)) j =
             updatedList f (stopEvents p) (stopEventsUsed p)
                         irrigationPlannerNumStopEvents j) /\
  (forall j, eventsUsed (fst (getNextEventTime p t e)) j = eventsUsed p j) /\
  (forall j, stopEventsUsed (fst (getNextEventTime p t e)) j = stopEventsUsed p j).
Proof.
  intros f. unfold getNextEventTime. fold (searchFloor t e). fold f.
  pose proof (getNextEventIdx_spec f (events p) (eventsUsed p)
                                   irrigationPlannerNumEvents) as Hs.
  pose proof (getNextEventIdx_spec f (stopEvents p) (stopEventsUsed p)
                                   irrigationPlannerNumStopEvents) as Hp.
  destruct (getNextEventIdx f (events p) (eventsUsed p) irrigationPlannerNumEvents)
    as [ev si].
  destruct (getNextEventIdx f (stopEvents p) (stopEventsUsed p)
                            irrigationPlannerNumStopEvents) as [sev pi].
  destruct Hs as [Hev Hs], Hp as [Hsev Hp].
  cbn [fst snd]. split; [| repeat split; auto].
  unfold allLiveOccurrences.
  destruct Hs as [[Hsi Hsn] | (Hsi & Hsv & Hsm)];
    destruct Hp as [[Hpi Hpn] | (Hpi & Hpv & Hpm)].
  - subst si pi. rewrite Hsn, Hpn. reflexivity.
  - subst si. rewrite Hsn. cbn [app].
    replace (0 <=? -1) with false by reflexivity.
    replace (0 <=? pi) with true by (symmetry; apply Z.leb_le; lia).
    now apply minimumOrZero_of_minimum.
  - subst pi. rewrite Hpn, app_nil_r.
    replace (0 <=? -1) with false by reflexivity.
    replace (0 <=? si) with true by (symmetry; apply Z.leb_le; lia).
    now apply minimumOrZero_of_minimum.
  - replace (0 <=? si) with true by (symmetry; apply Z.leb_le; lia).
    replace (0 <=? pi) with true by (symmetry; apply Z.leb_le; lia).
    rewrite eventLt_valid by assumption.
    apply minimumOrZero_of_minimum.
    destruct (Z.ltb_spec (getNextOccurance (ev (Z.to_nat si)))
                         (getNextOccurance (sev (Z.to_nat pi)))).
    + eapply isMinimumOf_app_l; eauto; lia.
    + eapply isMinimumOf_app_r; eauto; lia.
Qed.

(** C1: for every state of the two pools and every time [t],
    [getNextEventTime(t, false)] returns the minimum cached
    next-occurrence time over all live slots with a non-zero occurrence
    in the start and the stop pool, after [updateReferenceTime(t)] has
    been applied to every used slot, and returns 0 if no live slot has a
    valid next occurrence. *)
Theorem getNextEventTime_is_minimum (p : IrrigationPlanner) (t : time_t) :
  minimumOrZero (allLiveOccurrences p t) (snd (getNextEventTime p t false)) /\
  (forall j, events (fst (getNextEventTime p t false)) j =
             updatedList t (events p) (eventsUsed p) irrigationPlannerNumEvents j) /\
  (forall j, stopEvents (fst (getNextEventTime p t false)) j =
             updatedList t (stopEvents p) (stopEventsUsed p)
                         irrigationPlannerNumStopEvents j).
Proof.
  destruct (getNextEventTime_scan p t false) as (Hmin & Hev & Hsev & _).
  repeat split; assumption.
Qed.

(** *** Excluding the start time *)

Lemma nextOccuranceFrom_floor (r : recurrence) (now : time_t) :
  nextOccuranceFrom r now = 0 \/ now <= nextOccuranceFrom r now.
Proof.
  destruct r as [h m s d mo y | h m s w]; cbn [nextOccuranceFrom].
  - cbv zeta. destruct (Z.leb_spec now (singleEventTime h m s d mo y)); auto.
  - destruct (find _ _) as [c |] eqn:F; [| now left].
    apply find_some in F. destruct F as [_ F].
    apply andb_prop in F. destruct F as [F _]. right. now apply Z.leb_le.
Qed.

Lemma liveOccurrences_floor (t : time_t) (l : array IrrigationEvent)
    (used : array bool) (n : nat) (x : time_t) :
  In x (liveOccurrences t l used n) -> t <= x.
Proof.
  intros H. apply liveOccurrences_In in H. destruct H as (j & _ & _ & Ho & Hx).
  subst x. unfold occurrenceAt, getNextOccurance, updateReferenceTime in *. cbn [nextOccurance] in *.
  destruct (nextOccuranceFrom_floor (eventRecurrence (l j)) t); [contradiction | assumption].
Qed.

(** C6: [getNextEventTime(t, true)] advances the search floor by one
    second through the calendar round trip ([localtime_r], [tm_sec++],
    [mktime]) before scanning: where that round trip of the C library
    yields [t + 1], the call is the scan from [t + 1], and with at least
    one live slot holding a valid occurrence from that floor on, the
    time returned is that minimum and lies strictly after [t], so it is
    never [t]. *)
Theorem getNextEventTime_excludes_startTime (p : IrrigationPlanner) (t : time_t) :
  mktime (tm_add_sec (localtime_r t) 1) = t + 1 ->
  allLiveOccurrences p (t + 1) <> [] ->
  getNextEventTime p t true = getNextEventTime p (t + 1) false /\
  isMinimumOf (snd (getNextEventTime p t true)) (allLiveOccurrences p (t + 1)) /\
  t < snd (getNextEventTime p t true) /\
  snd (getNextEventTime p t true) <> t.
Proof.
  intros Hrt Hlive.
  assert (Heq : getNextEventTime p t true = getNextEventTime p (t + 1) false).
  { unfold getNextEventTime. rewrite Hrt. reflexivity. }
  split; [exact Heq |].
  destruct (getNextEventTime_scan p (t + 1) false) as (Hmin & _).
  cbn [searchFloor] in Hmin. rewrite <- Heq in Hmin.
  assert (Hm : isMinimumOf (snd (getNextEventTime p t true))
                           (allLiveOccurrences p (t + 1))).
  { unfold minimumOrZero in Hmin.
    destruct (allLiveOccurrences p (t + 1)); [contradiction | exact Hmin]. }
  split; [exact Hm |].
  assert (Hlt : t < snd (getNextEventTime p t true)).
  { destruct Hm as [Hin _]. unfold allLiveOccurrences in Hin.
    apply in_app_or in Hin.
    destruct Hin as [Hin | Hin]; apply liveOccurrences_floor in Hin; lia. }
  split; [exact Hlt | lia].
Qed.

(** *** [getZoneConfig] *)

(** The index is checked against the number of channel slots of a zone,
    [irrigationZoneCfgElements]. *)
Lemma getZoneConfig_range_check (p : IrrigationPlanner) (idx : Z) :
  fst (getZoneConfig p idx) = ERR_INVALID_ZONE_IDX <->
  idx < 0 \/ Z.of_nat irrigationZoneCfgElements <= idx.
Proof.
  unfold getZoneConfig.
  destruct (Z.ltb_spec idx 0), (Z.leb_spec (Z.of_nat irrigationZoneCfgElements) idx);
    cbn [orb fst]; split; intros Hc; auto; try discriminate; lia.
Qed.

(** C3, the wrong bound: [getZoneConfig] compares the index with the
    number of channel slots of a zone, not with the number of zones.
    With more zones than channel slots per zone, the zone at index
    [irrigationZoneCfgElements] exists (it is in range of the zone
    array) and is refused with [ERR_INVALID_ZONE_IDX]. *)
Theorem getZoneConfig_refuses_zone (p : IrrigationPlanner) :
  (irrigationZoneCfgElements < irrigationPlannerNumZones)%nat ->
  getZoneConfig p (Z.of_nat irrigationZoneCfgElements) =
  (ERR_INVALID_ZONE_IDX, CfgUntouched).
Proof.
  intros _. unfold getZoneConfig.
  replace (Z.of_nat irrigationZoneCfgElements <=? Z.of_nat irrigationZoneCfgElements)
    with true by (symmetry; apply Z.leb_le; lia).
  now rewrite orb_true_r.
Qed.

(** With fewer zones than channel slots per zone, the index
    [irrigationPlannerNumZones] passes the check and [zones] is read
    past its end. *)
Lemma getZoneConfig_reads_past_zones (p : IrrigationPlanner) :
  (irrigationPlannerNumZones < irrigationZoneCfgElements)%nat ->
  getZoneConfig p (Z.of_nat irrigationPlannerNumZones) = (ERR_OK, CfgReadPastArray).
Proof.
  intros H. unfold getZoneConfig.
  replace (Z.of_nat irrigationPlannerNumZones <? 0) with false
    by (symmetry; apply Z.ltb_ge; lia).
  replace (Z.of_nat irrigationZoneCfgElements <=? Z.of_nat irrigationPlannerNumZones)
    with false by (symmetry; apply Z.leb_gt; lia).
  cbn [orb]. rewrite Nat2Z.id, Nat.ltb_irrefl. reflexivity.
Qed.

(** *** Stop-slot allocation: [confirmNormalEvent] *)

Lemma firstFree_is_free (used : array bool) (n i : nat) :
  firstFree used n = Some i -> (i < n)%nat /\ used i = false.
Proof.
  induction n as [| n IH]; cbn [firstFree]; [discriminate |].
  destruct (firstFree used n) as [i' |] eqn:F.
  - intros E. inversion E; subst i'. destruct (IH eq_refl). split; [lia | assumption].
  - destruct (used n) eqn:U; [discriminate |].
    intros E. inversion E; subst i. split; [lia | assumption].
Qed.

Lemma firstFree_None (used : array bool) (n : nat) :
  firstFree used n = None <-> forall j, (j < n)%nat -> used j = true.
Proof.
  induction n as [| n IH]; cbn [firstFree].
  - split; [intros _ j Hj; lia | reflexivity].
  - destruct (firstFree used n) as [i |] eqn:F.
    + split; [discriminate |]. intros H.
      apply firstFree_is_free in F. destruct F as (Hi & Hf).
      rewrite H in Hf by lia. discriminate.
    + destruct (used n) eqn:U.
      * split; [| reflexivity]. intros _ j Hj.
        destruct (Nat.eq_dec j n) as [-> | Hne]; [assumption |].
        apply (proj1 IH eq_refl). lia.
      * split; [discriminate |]. intros H. rewrite H in U by lia. discriminate.
Qed.

Lemma firstFree_Some (used : array bool) (n i : nat) :
  firstFree used n = Some i ->
  (i < n)%nat /\ used i = false /\ forall j, (j < i)%nat -> used j = true.
Proof.
  intros F. destruct (firstFree_is_free used n i F) as [Hi Hf].
  repeat split; auto.
  induction n as [| n IH]; cbn [firstFree] in F; [discriminate |].
  destruct (firstFree used n) as [i' |] eqn:F'.
  - inversion F; subst i'. apply firstFree_is_free in F' as G. apply IH; tauto.
  - destruct (used n); [discriminate |]. inversion F; subst i.
    now apply firstFree_None.
Qed.

Lemma confirmNormalEvent_body_free (ev : IrrigationEvent) (s : confirm_scan) (i : nat) :
  cStopEventsUsed s i = false -> cBreak (confirmNormalEvent_body ev s i) = true.
Proof.
  intros H. unfold confirmNormalEvent_body. rewrite H. cbn [negb].
  destruct (IrrigationEvent_getEventData ev); reflexivity.
Qed.

Lemma confirmNormalEvent_body_used (ev : IrrigationEvent) (s : confirm_scan) (i : nat) :
  cStopEventsUsed s i = true -> confirmNormalEvent_body ev s i = s.
Proof.
  intros H. unfold confirmNormalEvent_body. rewrite H. reflexivity.
Qed.

(** The slot search runs the loop body once, on the first free slot, and
    not at all when every slot is used. *)
Lemma confirmNormalEvent_loop_spec (ev : IrrigationEvent) (s0 : confirm_scan) (n : nat) :
  cBreak s0 = false ->
  confirmNormalEvent_loop ev s0 n =
  match firstFree (cStopEventsUsed s0) n with
  | Some i => confirmNormalEvent_body ev s0 i
  | None => s0
  end.
Proof.
  intros Hb. induction n as [| n IH]; cbn [confirmNormalEvent_loop firstFree];
    [reflexivity |].
  rewrite IH. destruct (firstFree (cStopEventsUsed s0) n) as [i |] eqn:F.
  - apply firstFree_Some in F. destruct F as (_ & Hf & _).
    now rewrite (confirmNormalEvent_body_free ev s0 i Hf).
  - rewrite Hb. destruct (cStopEventsUsed s0 n) eqn:U.
    + now apply confirmNormalEvent_body_used.
    + reflexivity.
Qed.

Lemma confirmNormalEvent_unfold (p : IrrigationPlanner) (i : nat) :
  let s := stopSlotSearch p i in
  snd (confirmNormalEvent p i) = cRet s /\
  stopEvents (fst (confirmNormalEvent p i)) = cStopEvents s /\
  stopEventsUsed (fst (confirmNormalEvent p i)) = cStopEventsUsed s /\
  events (fst (confirmNormalEvent p i)) = events p /\
  eventsUsed (fst (confirmNormalEvent p i)) =
    (if (irrigationPlannerNumNormalEvents <=? i)%nat
     then upd (eventsUsed p) i false else eventsUsed p).
Proof.
  unfold confirmNormalEvent, stopSlotSearch.
  rewrite confirmNormalEvent_loop_spec by reflexivity.
  cbn [cStopEventsUsed fst snd].
  destruct (irrigationPlannerNumNormalEvents <=? i)%nat; repeat split; reflexivity.
Qed.

Lemma confirmEvent_start (p : IrrigationPlanner) (h : event_handle_t) :
  validStartHandle p h ->
  confirmEvent p h =
  (fst (confirmNormalEvent p (Z.to_nat (idx h))),
   if snd (confirmNormalEvent p (Z.to_nat (idx h)))
   then ERR_OK else ERR_NO_STOP_SLOT_AVAIL).
Proof.
  intros (H0 & Hs & Hr & Hu). unfold confirmEvent.
  replace (idx h <? 0) with false by (symmetry; apply Z.ltb_ge; lia).
  rewrite Hs.
  replace (Z.of_nat irrigationPlannerNumEvents <=? idx h) with false
    by (symmetry; apply Z.leb_gt; lia).
  rewrite Hu. cbn [negb].
  destruct (confirmNormalEvent p (Z.to_nat (idx h))) as [p' ok].
  destruct ok; reflexivity.
Qed.

(** C4: for every valid start-pool handle whose index lies beyond the
    reserved recurring prefix (a one-shot event), [confirmEvent] clears
    that slot's used-flag, whether or not a stop slot could be
    allocated; and whenever no free stop-pool slot exists,
    [confirmEvent] on a valid start-pool handle returns
    [ERR_NO_STOP_SLOT_AVAIL]. *)
Theorem confirmEvent_retires_one_shot (p : IrrigationPlanner) (h : event_handle_t) :
  validStartHandle p h ->
  (Z.of_nat irrigationPlannerNumNormalEvents <= idx h ->
   eventsUsed (fst (confirmEvent p h)) (Z.to_nat (idx h)) = false) /\
  ((forall j, (j < irrigationPlannerNumStopEvents)%nat -> stopEventsUsed p j = true) ->
   snd (confirmEvent p h) = ERR_NO_STOP_SLOT_AVAIL /\
   (forall j, stopEventsUsed (fst (confirmEvent p h)) j = stopEventsUsed p j) /\
   (forall j, stopEvents (fst (confirmEvent p h)) j = stopEvents p j)).
Proof.
  intros Hv. rewrite (confirmEvent_start p h Hv). cbn [fst snd].
  destruct (confirmNormalEvent_unfold p (Z.to_nat (idx h)))
    as (Hret & Hse & Hsu & _ & Heu).
  destruct Hv as (H0 & _ & _ & _). split.
  - intros Hone. rewrite Heu.
    replace (irrigationPlannerNumNormalEvents <=? Z.to_nat (idx h))%nat with true
      by (symmetry; apply Nat.leb_le; lia).
    apply upd_same.
  - intros Hfull. apply firstFree_None in Hfull.
    rewrite Hret, Hse, Hsu. unfold stopSlotSearch. rewrite Hfull.
    cbn [cRet cStopEvents cStopEventsUsed]. repeat split; reflexivity.
Qed.




(** The error branch of the slot search (the status of
    [IrrigationEvent::getEventData] is not [ERR_OK]): the first free
    stop slot has been flagged as used before the data is read; the loop
    is left without writing the slot and without releasing it, and
    [ERR_NO_STOP_SLOT_AVAIL] is reported.  The slot keeps the event it
    held. *)
Lemma confirmEvent_unreadable_keeps_slot (p : IrrigationPlanner)
    (h : event_handle_t) (i : nat) :
  validStartHandle p h ->
  firstFree (stopEventsUsed p) irrigationPlannerNumStopEvents = Some i ->
  IrrigationEvent_getEventData (events p (Z.to_nat (idx h))) = None ->
  snd (confirmEvent p h) = ERR_NO_STOP_SLOT_AVAIL /\
  stopEventsUsed p i = false /\
  stopEventsUsed (fst (confirmEvent p h)) i = true /\
  (forall j, stopEvents (fst (confirmEvent p h)) j = stopEvents p j).
Proof.
  intros Hv Hfree Hdata. rewrite (confirmEvent_start p h Hv). cbn [fst snd].
  destruct (confirmNormalEvent_unfold p (Z.to_nat (idx h)))
    as (Hret & Hse & Hsu & _ & _).
  rewrite Hret, Hse, Hsu. unfold stopSlotSearch. rewrite Hfree.
  apply firstFree_Some in Hfree. destruct Hfree as (_ & Hf & _).
  unfold confirmNormalEvent_body. cbn [cStopEventsUsed cStopEvents cRet].
  rewrite Hf, Hdata. cbn [negb cRet cStopEvents cStopEventsUsed].
  repeat split; auto. apply upd_same.
Qed.

(** [confirmEvent] fails with [ERR_INVALID_HANDLE] under the same
    conditions as [getEventData]. *)
Lemma confirmEvent_invalid_handle_iff (p : IrrigationPlanner) (h : event_handle_t)
    (d : irrigation_event_data_t) :
  snd (confirmEvent p h) = ERR_INVALID_HANDLE <->
  fst (getEventData p h (Some d)) = ERR_INVALID_HANDLE.
Proof.
  unfold confirmEvent, getEventData.
  destruct (idx h <? 0); [tauto |].
  destruct (isStartHandle h).
  - destruct (Z.of_nat irrigationPlannerNumEvents <=? idx h); [tauto |].
    destruct (eventsUsed p (Z.to_nat (idx h))); cbn [negb fst snd]; [| tauto].
    destruct (confirmNormalEvent p (Z.to_nat (idx h))) as [p' ok].
    destruct ok; cbn [negb snd]; split; discriminate.
  - destruct (Z.of_nat irrigationPlannerNumStopEvents <=? idx h); [tauto |].
    destruct (stopEventsUsed p (Z.to_nat (idx h))); cbn [negb fst snd];
      [split; discriminate | tauto].
Qed.

(** Slots that are used are never written by [confirmEvent], whatever
    the handle. *)
Lemma confirmEvent_never_overwrites (p : IrrigationPlanner) (h : event_handle_t)
    (j : nat) :
  stopEventsUsed p j = true ->
  stopEvents (fst (confirmEvent p h)) j = stopEvents p j.
Proof.
  intros Hj. unfold confirmEvent.
  destruct (idx h <? 0); [reflexivity |].
  destruct (isStartHandle h).
  - destruct (Z.of_nat irrigationPlannerNumEvents <=? idx h); [reflexivity |].
    destruct (eventsUsed p (Z.to_nat (idx h))); [| reflexivity]. cbn [negb].
    destruct (confirmNormalEvent_unfold p (Z.to_nat (idx h))) as (_ & Hse & _).
    destruct (confirmNormalEvent p (Z.to_nat (idx h))) as [p' ok].
    cbn [fst] in Hse.
    assert (Hgoal : stopEvents p' j = stopEvents p j).
    { rewrite Hse. unfold stopSlotSearch.
      destruct (firstFree (stopEventsUsed p) irrigationPlannerNumStopEvents)
        as [k |] eqn:F; [| reflexivity].
      apply firstFree_Some in F. destruct F as (_ & Hk & _).
      unfold confirmNormalEvent_body. cbn [cStopEventsUsed cStopEvents].
      rewrite Hk. cbn [negb].
      destruct (IrrigationEvent_getEventData (events p (Z.to_nat (idx h))));
        cbn [cStopEvents]; [| reflexivity].
      apply upd_other. intros ->. congruence. }
    destruct ok; exact Hgoal.
  - destruct (Z.of_nat irrigationPlannerNumStopEvents <=? idx h); [reflexivity |].
    destruct (stopEventsUsed p (Z.to_nat (idx h))); reflexivity.
Qed.

Lemma usedCount_le_capacity (used : array bool) (n : nat) :
  (usedCount used n <= n)%nat.
Proof.
  unfold usedCount.
  pose proof (filter_length_le used (seq 0 n)) as H.
  rewrite length_seq in H. exact H.
Qed.

(** *** [getEventHandles] *)

Section HandleScan.

Variable eventList : array IrrigationEvent.
Variable used : array bool.
Variable startPool : bool.
Variable eventTime : time_t.
Variable maxElements : nat.
Variable s0 : handle_scan.

Local Notation matches := (poolMatches eventList used startPool eventTime).

Lemma poolMatches_step (n : nat) :
  matches (S n) =
  matches n ++
  (if used n && (getNextOccurance (eventList n) =? eventTime)
   then [mkHandle (Z.of_nat n) startPool] else []).
Proof.
  unfold poolMatches.
  rewrite seq_S, filter_app, map_app. cbn [filter Nat.add].
  destruct (used n && (getNextOccurance (eventList n) =? eventTime)); reflexivity.
Qed.

Lemma getEventHandles_loop_invariant (n : nat) :
  hBreak s0 = false -> (handleCnt s0 <= maxElements)%nat ->
  handle_scan_invariant eventList used startPool eventTime maxElements s0 n
    (getEventHandles_loop eventList used startPool eventTime maxElements s0 n).
Proof.
  intros Hb0 Hc0. induction n as [| n IH].
  - unfold handle_scan_invariant. cbn [getEventHandles_loop].
    unfold poolMatches. cbn [seq filter map length].
    rewrite Nat.add_0_r.
    replace (maxElements <? handleCnt s0)%nat with false
      by (symmetry; apply Nat.ltb_ge; lia).
    repeat split; auto; try lia.
    intros j.
    destruct (Nat.leb_spec (handleCnt s0) j), (Nat.ltb_spec j (handleCnt s0));
      cbn [andb]; try reflexivity; lia.
  - cbn [getEventHandles_loop].
    set (s := getEventHandles_loop eventList used startPool eventTime maxElements s0 n)
      in *.
    unfold handle_scan_invariant in *. destruct IH as (Hcnt & Hbrk & Hret & Hdest).
    rewrite poolMatches_step, length_app.
    set (m := matches n) in *.
    destruct (Nat.ltb_spec maxElements (handleCnt s0 + length m)) as [Hover | Hfit].
    + (* the scan has already left the loop *)
      rewrite Hbrk.
      set (extra := if used n && (getNextOccurance (eventList n) =? eventTime)
                    then [mkHandle (Z.of_nat n) startPool] else []).
      replace (maxElements <? handleCnt s0 + (length m + length extra))%nat
        with true by (symmetry; apply Nat.ltb_lt; lia).
      repeat split; auto; try lia.
      intros j. rewrite Hdest.
      destruct (Nat.leb_spec (handleCnt s0) j), (Nat.ltb_spec j (handleCnt s));
        cbn [andb]; try reflexivity.
      rewrite app_nth1 by lia. reflexivity.
    + rewrite Hbrk. unfold getEventHandles_body.
      destruct (used n) eqn:Hu; cbn [andb].
      * destruct (getNextOccurance (eventList n) =? eventTime) eqn:Hm.
        -- cbn [length]. rewrite Hcnt.
           replace (Nat.min maxElements (handleCnt s0 + length m))
             with (handleCnt s0 + length m)%nat by lia.
           destruct (Nat.ltb_spec (handleCnt s0 + length m) maxElements) as [Hroom | Hfull].
           ++ cbn [handleCnt hBreak hRet hDest].
              replace (maxElements <? handleCnt s0 + (length m + 1))%nat with false
                by (symmetry; apply Nat.ltb_ge; lia).
              repeat split; auto; try lia.
              intros j. unfold upd.
              destruct (Nat.eqb_spec j (handleCnt s0 + length m)) as [-> | Hne].
              ** replace (handleCnt s0 <=? handleCnt s0 + length m)%nat with true
                   by (symmetry; apply Nat.leb_le; lia).
                 replace (handleCnt s0 + length m <? S (handleCnt s0 + length m))%nat
                   with true by (symmetry; apply Nat.ltb_lt; lia).
                 cbn [andb]. rewrite app_nth2 by lia.
                 replace (handleCnt s0 + length m - handleCnt s0 - length m)%nat
                   with O by lia.
                 reflexivity.
              ** rewrite Hdest, Hcnt.
                 replace (Nat.min maxElements (handleCnt s0 + length m))
                   with (handleCnt s0 + length m)%nat by lia.
                 destruct (Nat.leb_spec (handleCnt s0) j),
                          (Nat.ltb_spec j (handleCnt s0 + length m)),
                          (Nat.ltb_spec j (S (handleCnt s0 + length m)));
                   cbn [andb]; try reflexivity; try lia.
                 rewrite app_nth1 by lia. reflexivity.
           ++ cbn [handleCnt hBreak hRet hDest].
              replace (maxElements <? handleCnt s0 + (length m + 1))%nat with true
                by (symmetry; apply Nat.ltb_lt; lia).
              repeat split; auto; try lia.
              intros j. rewrite Hdest, Hcnt.
              replace (Nat.min maxElements (handleCnt s0 + length m))
                with (handleCnt s0 + length m)%nat by lia.
              destruct (Nat.leb_spec (handleCnt s0) j),
                       (Nat.ltb_spec j (handleCnt s0 + length m));
                cbn [andb]; try reflexivity.
              rewrite app_nth1 by lia. reflexivity.
        -- cbn [length]. rewrite app_nil_r, Nat.add_0_r.
           replace (maxElements <? handleCnt s0 + length m)%nat with false
             by (symmetry; apply Nat.ltb_ge; lia).
           repeat split; auto.
      * cbn [length]. rewrite app_nil_r, Nat.add_0_r.
        replace (maxElements <? handleCnt s0 + length m)%nat with false
          by (symmetry; apply Nat.ltb_ge; lia).
        repeat split; auto.
Qed.

End HandleScan.

Lemma clearHandles_spec (n : nat) :
  forall (dest : array event_handle_t) (i j : nat),
  clearHandles dest i n j =
  if (i <=? j)%nat && (j <? i + n)%nat
  then mkHandle (-1) (isStartHandle (dest j))
  else dest j.
Proof.
  induction n as [| n IH]; intros dest i j; cbn [clearHandles].
  - destruct (Nat.leb_spec i j), (Nat.ltb_spec j (i + 0)); cbn [andb];
      try reflexivity; lia.
  - rewrite IH. unfold upd.
    destruct (Nat.eqb_spec j i) as [-> | Hne].
    + replace (S i <=? i)%nat with false by (symmetry; apply Nat.leb_gt; lia).
      replace (i <=? i)%nat with true by (symmetry; apply Nat.leb_le; lia).
      replace (i <? i + S n)%nat with true by (symmetry; apply Nat.ltb_lt; lia).
      reflexivity.
    + destruct (Nat.leb_spec (S i) j), (Nat.ltb_spec j (S i + n)),
               (Nat.leb_spec i j), (Nat.ltb_spec j (i + S n));
        cbn [andb]; try reflexivity; lia.
Qed.

(** The status and the buffer [getEventHandles] returns, in closed form. *)
Lemma getEventHandles_spec (p : IrrigationPlanner) (eventTime : time_t)
    (dest : array event_handle_t) (maxElements : nat) :
  let M := allMatches p eventTime in
  let cnt := Nat.min maxElements (length M) in
  fst (getEventHandles p eventTime dest maxElements) =
    (if Nat.eqb cnt 0 then ERR_NO_HANDLES_FOUND
     else if (maxElements <? length M)%nat then ERR_PARTIAL_EVENT_HANDLES
     else ERR_OK) /\
  forall j,
    snd (getEventHandles p eventTime dest maxElements) j =
    if (j <? cnt)%nat then nth j M noHandle
    else if (j <? maxElements)%nat then mkHandle (-1) (isStartHandle (dest j))
    else dest j.
Proof.
  intros M cnt. unfold getEventHandles. cbn [fst snd].
  pose proof (getEventHandles_loop_invariant (events p) (eventsUsed p) true eventTime
                maxElements (mkHandleScan dest O ERR_OK false)
                irrigationPlannerNumEvents eq_refl (Nat.le_0_l _)) as I1.
  set (s1 := getEventHandles_loop (events p) (eventsUsed p) true eventTime maxElements
               (mkHandleScan dest O ERR_OK false) irrigationPlannerNumEvents) in *.
  destruct I1 as (Hc1 & _ & Hr1 & Hd1). cbn [handleCnt hRet hDest] in Hc1, Hr1, Hd1.
  assert (Hle : (handleCnt s1 <= maxElements)%nat) by lia.
  pose proof (getEventHandles_loop_invariant (stopEvents p) (stopEventsUsed p) false
                eventTime maxElements
                (mkHandleScan (hDest s1) (handleCnt s1) (hRet s1) false)
                irrigationPlannerNumStopEvents eq_refl Hle) as I2.
  set (s2 := getEventHandles_loop (stopEvents p) (stopEventsUsed p) false eventTime
               maxElements (mkHandleScan (hDest s1) (handleCnt s1) (hRet s1) false)
               irrigationPlannerNumStopEvents) in *.
  destruct I2 as (Hc2 & _ & Hr2 & Hd2). cbn [handleCnt hRet hDest] in Hc2, Hr2, Hd2.
  set (m1 := poolMatches (events p) (eventsUsed p) true eventTime
                         irrigationPlannerNumEvents) in *.
  set (m2 := poolMatches (stopEvents p) (stopEventsUsed p) false eventTime
                         irrigationPlannerNumStopEvents) in *.
  assert (HM : M = m1 ++ m2) by reflexivity.
  assert (Hlen : length M = (length m1 + length m2)%nat)
    by (rewrite HM; apply length_app).
  assert (Hcnt : handleCnt s2 = cnt) by (unfold cnt; lia).
  split.
  - rewrite Hcnt, Hr2, Hr1. cbn [Nat.add].
    destruct (Nat.eqb_spec cnt 0); [reflexivity |].
    destruct (Nat.ltb_spec maxElements (handleCnt s1 + length m2)),
             (Nat.ltb_spec maxElements (length M)),
             (Nat.ltb_spec maxElements (length m1)); try reflexivity; lia.
  - intros j. rewrite clearHandles_spec, Hd2, Hd1, Hcnt.
    cbn [Nat.add]. rewrite Nat.sub_0_r.
    replace (0 <=? j)%nat with true by reflexivity. cbn [andb].
    destruct (Nat.ltb_spec j cnt) as [Hin | Hout].
    + replace ((cnt <=? j)%nat && (j <? cnt + (maxElements - cnt))%nat) with false
        by (symmetry; apply andb_false_iff; left; apply Nat.leb_gt; lia).
      rewrite HM.
      destruct (Nat.leb_spec (handleCnt s1) j) as [Hsecond | Hfirst]; cbn [andb].
      * rewrite app_nth2 by lia.
        replace (length m1) with (handleCnt s1) by lia. reflexivity.
      * replace (j <? handleCnt s1)%nat with true by (symmetry; apply Nat.ltb_lt; lia).
        rewrite app_nth1 by lia. reflexivity.
    + replace (cnt <=? j)%nat with true by (symmetry; apply Nat.leb_le; lia).
      replace (j <? cnt + (maxElements - cnt))%nat with (j <? maxElements)%nat
        by (f_equal; lia).
      replace ((handleCnt s1 <=? j)%nat && false) with false by (now rewrite andb_false_r).
      replace (j <? handleCnt s1)%nat with false by (symmetry; apply Nat.ltb_ge; lia).
      cbn [andb]. reflexivity.
Qed.

(** Scan order is kept by the list operations the matches are built with. *)
Lemma StronglySorted_seq_lt (a n : nat) : StronglySorted lt (seq a n).
Proof.
  revert a. induction n as [| n IH]; intros a; cbn [seq]; constructor.
  - apply IH.
  - apply Forall_forall. intros x Hx. apply in_seq in Hx. lia.
Qed.

Lemma StronglySorted_filter_keeps {A : Type} (R : A -> A -> Prop) (f : A -> bool)
    (l : list A) :
  StronglySorted R l -> StronglySorted R (filter f l).
Proof.
  induction 1 as [| a l Hs IH Hall]; cbn [filter]; [constructor |].
  destruct (f a); [| exact IH]. constructor; [exact IH |].
  rewrite Forall_forall in *. intros x Hx. apply filter_In in Hx. now apply Hall.
Qed.

Lemma StronglySorted_map_keeps {A B : Type} (R : A -> A -> Prop) (R' : B -> B -> Prop)
    (f : A -> B) (l : list A) :
  (forall a b, R a b -> R' (f a) (f b)) ->
  StronglySorted R l -> StronglySorted R' (map f l).
Proof.
  intros Hf. induction 1 as [| a l Hs IH Hall]; cbn [map]; constructor; [exact IH |].
  rewrite Forall_forall in *. intros y Hy. apply in_map_iff in Hy.
  destruct Hy as (x & <- & Hx). now apply Hf, Hall.
Qed.

Lemma StronglySorted_app_keeps {A : Type} (R : A -> A -> Prop) (l1 l2 : list A) :
  StronglySorted R l1 -> StronglySorted R l2 ->
  (forall a b, In a l1 -> In b l2 -> R a b) ->
  StronglySorted R (l1 ++ l2).
Proof.
  intros H1 H2. induction H1 as [| a l Hs IH Hall]; intros Hc; cbn [app];
    [exact H2 |].
  constructor.
  - apply IH. intros x y Hx Hy. apply Hc; [now right | exact Hy].
  - rewrite Forall_forall in *. intros x Hx. apply in_app_or in Hx.
    destruct Hx as [Hx | Hx]; [now apply Hall | apply Hc; [now left | exact Hx]].
Qed.

Lemma StronglySorted_firstn_keeps {A : Type} (R : A -> A -> Prop) (n : nat)
    (l : list A) :
  StronglySorted R l -> StronglySorted R (firstn n l).
Proof.
  intros H. revert n. induction H as [| a l Hs IH Hall]; intros n.
  - rewrite firstn_nil. constructor.
  - destruct n as [| n]; cbn [firstn]; constructor; [apply IH |].
    rewrite Forall_forall in *. intros x Hx. apply Hall.
    rewrite <- (firstn_skipn n l). apply in_or_app. now left.
Qed.

Lemma poolMatches_In (eventList : array IrrigationEvent) (used : array bool)
    (startPool : bool) (eventTime : time_t) (n : nat) (h : event_handle_t) :
  In h (poolMatches eventList used startPool eventTime n) <->
  exists i, h = mkHandle (Z.of_nat i) startPool /\ (i < n)%nat /\
            used i = true /\ getNextOccurance (eventList i) = eventTime.
Proof.
  unfold poolMatches. rewrite in_map_iff. split.
  - intros (i & <- & Hi). apply filter_In in Hi. destruct Hi as [Hs Hm].
    apply in_seq in Hs. apply andb_prop in Hm. destruct Hm as [Hu Ht].
    exists i. split; [reflexivity |]. split; [lia |]. split; [exact Hu |].
    now apply Z.eqb_eq.
  - intros (i & -> & Hi & Hu & Ht). exists i. split; [reflexivity |].
    apply filter_In. split; [apply in_seq; lia |].
    rewrite Hu. cbn [andb]. now apply Z.eqb_eq.
Qed.

Lemma poolMatches_sorted (eventList : array IrrigationEvent) (used : array bool)
    (startPool : bool) (eventTime : time_t) (n : nat) :
  StronglySorted handleBefore (poolMatches eventList used startPool eventTime n).
Proof.
  unfold poolMatches.
  apply StronglySorted_map_keeps with (R := lt).
  - intros a b Hab. right. cbn [isStartHandle idx]. split; [reflexivity | lia].
  - apply StronglySorted_filter_keeps, StronglySorted_seq_lt.
Qed.

Lemma allMatches_sorted (p : IrrigationPlanner) (eventTime : time_t) :
  StronglySorted handleBefore (allMatches p eventTime).
Proof.
  unfold allMatches.
  apply StronglySorted_app_keeps; try apply poolMatches_sorted.
  intros a b Ha Hb. apply poolMatches_In in Ha, Hb.
  destruct Ha as (i & -> & _), Hb as (k & -> & _). left. split; reflexivity.
Qed.

(** C8: for every [eventTime], [dest] buffer of capacity [maxElements]
    and pool state, [getEventHandles] writes the matching handles into
    [dest] in pool-scan order with the start pool before the stop pool
    (all start handles precede all stop handles, each in ascending index
    order): the filled prefix of [dest] is the first [maxElements]
    matches.  It clears every unfilled trailing entry of [dest] to the
    invalid sentinel (index -1) and never writes to any index of [dest]
    at or beyond [maxElements]. *)
Theorem getEventHandles_fills_in_scan_order (p : IrrigationPlanner)
    (eventTime : time_t) (dest : array event_handle_t) (maxElements : nat) :
  let M := allMatches p eventTime in
  let cnt := Nat.min maxElements (length M) in
  let dest' := snd (getEventHandles p eventTime dest maxElements) in
  map dest' (seq 0 cnt) = firstn maxElements M /\
  StronglySorted handleBefore (map dest' (seq 0 cnt)) /\
  (forall j, (cnt <= j < maxElements)%nat ->
     dest' j = mkHandle (-1) (isStartHandle (dest j))) /\
  (forall j, (maxElements <= j)%nat -> dest' j = dest j).
Proof.
  intros M cnt dest'.
  destruct (getEventHandles_spec p eventTime dest maxElements) as [_ Hd].
  fold M cnt dest' in Hd.
  assert (Hprefix : map dest' (seq 0 cnt) = firstn maxElements M).
  { apply nth_ext with (d := dest' O) (d' := noHandle).
    - rewrite length_map, length_seq, length_firstn. reflexivity.
    - intros j Hj. rewrite length_map, length_seq in Hj.
      rewrite map_nth, seq_nth by exact Hj. cbn [Nat.add].
      rewrite Hd, nth_firstn.
      replace (j <? cnt)%nat with true by (symmetry; apply Nat.ltb_lt; lia).
      replace (j <? maxElements)%nat with true by (symmetry; apply Nat.ltb_lt; lia).
      reflexivity. }
  split; [exact Hprefix |]. split.
  - rewrite Hprefix. apply StronglySorted_firstn_keeps, allMatches_sorted.
  - split; intros j Hj; rewrite Hd.
    + replace (j <? cnt)%nat with false by (symmetry; apply Nat.ltb_ge; lia).
      replace (j <? maxElements)%nat with true by (symmetry; apply Nat.ltb_lt; lia).
      reflexivity.
    + replace (j <? cnt)%nat with false by (symmetry; apply Nat.ltb_ge; lia).
      replace (j <? maxElements)%nat with false by (symmetry; apply Nat.ltb_ge; lia).
      reflexivity.
Qed.

(** With room for at least one handle, the status is as documented:
    partial when there are more matches than room, none found when
    nothing matches. *)
Lemma getEventHandles_status (p : IrrigationPlanner) (eventTime : time_t)
    (dest : array event_handle_t) (maxElements : nat) :
  (0 < maxElements)%nat ->
  ((maxElements < length (allMatches p eventTime))%nat ->
   fst (getEventHandles p eventTime dest maxElements) = ERR_PARTIAL_EVENT_HANDLES) /\
  (allMatches p eventTime = [] ->
   fst (getEventHandles p eventTime dest maxElements) = ERR_NO_HANDLES_FOUND).
Proof.
  intros Hpos.
  destruct (getEventHandles_spec p eventTime dest maxElements) as [Hr _].
  cbv zeta in Hr. rewrite Hr. split.
  - intros Hmore.
    destruct (Nat.eqb_spec (Nat.min maxElements (length (allMatches p eventTime))) 0);
      [lia |].
    replace (maxElements <? length (allMatches p eventTime))%nat with true
      by (symmetry; apply Nat.ltb_lt; lia).
    reflexivity.
  - intros ->. cbn [length]. rewrite Nat.min_0_r. reflexivity.
Qed.

(** C5, the missed case: a buffer without room holds no handle, so the
    final test [handleCnt == 0] replaces the status by
    [ERR_NO_HANDLES_FOUND], also when slots match [eventTime]: more
    matches than [maxElements = 0] can hold, yet the status is not
    [ERR_PARTIAL_EVENT_HANDLES]. *)
Theorem getEventHandles_no_room (p : IrrigationPlanner) (eventTime : time_t)
    (dest : array event_handle_t) :
  fst (getEventHandles p eventTime dest O) = ERR_NO_HANDLES_FOUND /\
  forall j, snd (getEventHandles p eventTime dest O) j = dest j.
Proof.
  destruct (getEventHandles_spec p eventTime dest O) as [Hr Hd].
  cbv zeta in Hr, Hd. cbn [Nat.min Nat.eqb] in Hr, Hd. split; [exact Hr |].
  intros j. rewrite Hd. reflexivity.
Qed.

(** *** Configuration reload *)

Lemma printAllEvents_members (q : IrrigationPlanner) (now : time_t) :
  zones (printAllEvents q now) = zones q /\
  eventsUsed (printAllEvents q now) = eventsUsed q /\
  stopEvents (printAllEvents q now) = stopEvents q /\
  stopEventsUsed (printAllEvents q now) = stopEventsUsed q /\
  configLock (printAllEvents q now) = configLock q /\
  configUpdatedDuringLock (printAllEvents q now) = configUpdatedDuringLock q /\
  configUpdatedHook (printAllEvents q now) = configUpdatedHook q /\
  configUpdatedHookParamPtr (printAllEvents q now) = configUpdatedHookParamPtr q /\
  configMutex (printAllEvents q now) = configMutex q /\
  hookMutex (printAllEvents q now) = hookMutex q.
Proof. repeat split; reflexivity. Qed.

(** A notification received while the lock is held only raises the
    flag. *)
Lemma irrigConfigUpdated_locked (p : IrrigationPlanner) (now : time_t) :
  configLock p = true ->
  irrigConfigUpdated p now = (set_configUpdatedDuringLock p true, []).
Proof.
  intros H. unfold irrigConfigUpdated. now rewrite H.
Qed.

(** What a notification leaves alone, on each of its four paths
    (deferred, config mutex timed out, hook mutex timed out, applied). *)
Lemma irrigConfigUpdated_members (p : IrrigationPlanner) (now : time_t) :
  let p' := fst (irrigConfigUpdated p now) in
  stopEvents p' = stopEvents p /\
  stopEventsUsed p' = stopEventsUsed p /\
  configLock p' = configLock p /\
  configUpdatedHook p' = configUpdatedHook p /\
  configUpdatedHookParamPtr p' = configUpdatedHookParamPtr p /\
  configMutex p' = configMutex p /\
  hookMutex p' = hookMutex p.
Proof.
  unfold irrigConfigUpdated.
  destruct (configLock p) eqn:Hl; [cbn; auto 10 |].
  destruct (configMutex p) eqn:Hc; [cbn; auto 10 |].
  cbn [zones events eventsUsed set_configMutex].
  destruct (copyZonesAndEvents (zones p) (events p) (eventsUsed p)) as [[z ev] used].
  cbn [hookMutex printAllEvents set_events set_zones set_configMutex].
  destruct (hookMutex p) eqn:Hh; cbn; auto 10.
Qed.

(** A notification received with the lock free and both mutexes
    available reloads once and calls the stored hook, if any, once. *)
Lemma irrigConfigUpdated_applies (q : IrrigationPlanner) (now : time_t) :
  configLock q = false -> mutexesFree q ->
  let fresh := copyZonesAndEvents (zones q) (events q) (eventsUsed q) in
  let q' := fst (irrigConfigUpdated q now) in
  snd (irrigConfigUpdated q now) = CopyZonesAndEvents :: hookCalls q /\
  zones q' = fst (fst fresh) /\
  eventsUsed q' = snd fresh /\
  (forall j, events q' j =
             printAllEvents_loop (snd (fst fresh)) (snd fresh) now
                                 irrigationPlannerNumEvents j) /\
  stopEvents q' = stopEvents q /\
  stopEventsUsed q' = stopEventsUsed q /\
  configLock q' = false /\
  configUpdatedDuringLock q' = configUpdatedDuringLock q /\
  configUpdatedHook q' = configUpdatedHook q /\
  configUpdatedHookParamPtr q' = configUpdatedHookParamPtr q /\
  mutexesFree q'.
Proof.
  intros Hlock [Hcm Hhm] fresh q'. subst q'. unfold irrigConfigUpdated.
  rewrite Hlock, Hcm.
  cbn [zones events eventsUsed set_configMutex]. fold fresh.
  destruct fresh as [[z ev] used].
  cbn [hookMutex printAllEvents set_events set_zones set_configMutex].
  rewrite Hhm. unfold hookCalls, mutexesFree.
  cbn [fst snd set_configMutex set_hookMutex configUpdatedHook
       configUpdatedHookParamPtr zones eventsUsed events stopEvents stopEventsUsed
       configLock configUpdatedDuringLock configMutex hookMutex].
  repeat split; auto.
Qed.

Lemma notifyTimes_locked (p : IrrigationPlanner) (nows : list time_t) :
  configLock p = true -> nows <> [] ->
  notifyTimes p nows = (set_configUpdatedDuringLock p true, []).
Proof.
  intros Hlock Hne. destruct nows as [| now rest]; [contradiction |]. clear Hne.
  revert p now Hlock. induction rest as [| now' rest IH]; intros p now Hlock;
    cbn [notifyTimes]; rewrite (irrigConfigUpdated_locked p now Hlock).
  - reflexivity.
  - cbn [notifyTimes] in IH. rewrite (IH (set_configUpdatedDuringLock p true) now')
      by exact Hlock.
    reflexivity.
Qed.

(** A notification received with the lock free that obtains the
    configuration mutex reloads once; it calls the stored hook, if any,
    once when it obtains the hook mutex too, and not at all otherwise. *)
Lemma irrigConfigUpdated_reloads (q : IrrigationPlanner) (now : time_t) :
  configLock q = false -> configMutex q = false ->
  let fresh := copyZonesAndEvents (zones q) (events q) (eventsUsed q) in
  let q' := fst (irrigConfigUpdated q now) in
  snd (irrigConfigUpdated q now) =
    CopyZonesAndEvents :: (if hookMutex q then [] else hookCalls q) /\
  zones q' = fst (fst fresh) /\
  eventsUsed q' = snd fresh /\
  configLock q' = false /\
  configUpdatedDuringLock q' = configUpdatedDuringLock q /\
  configUpdatedHook q' = configUpdatedHook q /\
  configMutex q' = false /\
  hookMutex q' = hookMutex q.
Proof.
  intros Hlock Hcm fresh q'. subst q'. unfold irrigConfigUpdated.
  rewrite Hlock, Hcm.
  cbn [zones events eventsUsed set_configMutex]. fold fresh.
  destruct fresh as [[z ev] used].
  cbn [hookMutex printAllEvents set_events set_zones set_configMutex].
  unfold hookCalls.
  destruct (hookMutex q) eqn:Hhm;
    cbn [fst snd set_configMutex set_hookMutex configUpdatedHook
         configUpdatedHookParamPtr zones eventsUsed events stopEvents stopEventsUsed
         configLock configUpdatedDuringLock configMutex hookMutex];
    repeat split; auto.
Qed.

(** C9 (amended): whenever the caller-controlled config lock is held,
    every call to [irrigConfigUpdated] defers the update by setting the
    flag: nothing is copied and the hook is not invoked, however many
    notifications arrive, and whoever holds the mutexes.  When
    [setConfigLock(false)] then releases the lock and obtains the
    configuration mutex, exactly one deferred configuration update is
    applied (one copy, not one per notification) and the flag is
    cleared.  A reload applied with the lock free invokes the registered
    hook exactly once when it obtains the hook mutex as well, and not at
    all when it does not. *)
Theorem config_update_deferred_while_locked (p q : IrrigationPlanner)
    (nows : list time_t) (now : time_t) (f g : nat) :
  configLock p = true -> configUpdatedHook p = Some f -> nows <> [] ->
  configLock q = false -> configUpdatedHook q = Some g ->
  let p1 := fst (notifyTimes p nows) in
  let p2 := fst (setConfigLock p1 false now) in
  let fresh := copyZonesAndEvents (zones p) (events p) (eventsUsed p) in
  notifyTimes p nows = (set_configUpdatedDuringLock p true, []) /\
  (configMutex p = false ->
     snd (setConfigLock p1 false now) =
       CopyZonesAndEvents ::
       (if hookMutex p then [] else [HookCalled f (configUpdatedHookParamPtr p)]) /\
     zones p2 = fst (fst fresh) /\
     eventsUsed p2 = snd fresh /\
     configUpdatedDuringLock p2 = false /\
     configLock p2 = false) /\
  (configMutex q = false ->
     snd (irrigConfigUpdated q now) =
       CopyZonesAndEvents ::
       (if hookMutex q then [] else [HookCalled g (configUpdatedHookParamPtr q)])).
Proof.
  intros Hlock Hhook Hne Hqlock Hqhook p1 p2 fresh.
  subst p2 p1. rewrite (notifyTimes_locked p nows Hlock Hne). cbn [fst snd].
  split; [reflexivity |]. split.
  - intros Hcm.
    set (r := mkPlanner (zones p) (events p) (eventsUsed p) (stopEvents p)
                        (stopEventsUsed p) false false (configUpdatedHook p)
                        (configUpdatedHookParamPtr p) (configMutex p) (hookMutex p)).
    change (setConfigLock (set_configUpdatedDuringLock p true) false now)
      with (irrigConfigUpdated r now).
    assert (Hr : configLock r = false) by reflexivity.
    assert (Hm : configMutex r = false) by exact Hcm.
    destruct (irrigConfigUpdated_reloads r now Hr Hm)
      as (Hcalls & Hz & Hu & Hl & Hd & _).
    rewrite Hcalls, Hz, Hu, Hl, Hd. unfold hookCalls.
    cbn [configUpdatedHook r configUpdatedHookParamPtr configUpdatedDuringLock
         zones events eventsUsed hookMutex].
    rewrite Hhook. repeat split; reflexivity.
  - intros Hcm.
    destruct (irrigConfigUpdated_reloads q now Hqlock Hcm) as (Hqcalls & _).
    rewrite Hqcalls. unfold hookCalls. rewrite Hqhook. reflexivity.
Qed.

(** Reloads of a planner that stores no hook: none makes a callback, in
    whatever state the lock and the mutexes are; each one that is not
    deferred by the lock and obtains the configuration mutex copies the
    configuration. *)
Lemma notifyTimes_without_hook (nows : list time_t) :
  forall q, configUpdatedHook q = None ->
  snd (notifyTimes q nows) =
    repeat CopyZonesAndEvents
           (if configLock q || configMutex q then 0 else length nows) /\
  configUpdatedHook (fst (notifyTimes q nows)) = None.
Proof.
  induction nows as [| now rest IH]; intros q Hhook; cbn [notifyTimes].
  - split; [destruct (configLock q || configMutex q); reflexivity | exact Hhook].
  - destruct (irrigConfigUpdated_members q now) as (_ & _ & Hl & Hh & _ & Hcm & _).
    assert (Hcalls : snd (irrigConfigUpdated q now) =
                     repeat CopyZonesAndEvents
                            (if configLock q || configMutex q then 0 else 1)).
    { destruct (configLock q) eqn:El.
      - rewrite (irrigConfigUpdated_locked q now El). reflexivity.
      - destruct (configMutex q) eqn:Em.
        + unfold irrigConfigUpdated. rewrite El, Em. reflexivity.
        + destruct (irrigConfigUpdated_reloads q now El Em) as (Hc & _).
          rewrite Hc. unfold hookCalls. rewrite Hhook.
          destruct (hookMutex q); reflexivity. }
    destruct (irrigConfigUpdated q now) as [q1 c1]. cbn [fst snd] in *.
    rewrite Hhook in Hh.
    destruct (IH q1 Hh) as [Hc Hk].
    destruct (notifyTimes q1 rest) as [q2 c2]. cbn [fst snd] in *.
    subst c1 c2. rewrite Hl, Hcm.
    split; [| exact Hk].
    destruct (configLock q || configMutex q); reflexivity.
Qed.

(** C10 (amended): [registerIrrigPlanUpdatedHook] accepts a null hook
    pointer.  When it obtains the hook mutex it returns [ERR_OK] and
    replaces the stored pair, changing nothing else, which unregisters
    the hook: no subsequent configuration reload invokes a callback (the
    invocation is guarded by the null check), in any state of the
    planner that stores the null hook, and each reload that is not
    deferred by the config lock and obtains the configuration mutex
    applies the new configuration.  When it does not obtain the hook
    mutex it returns [ERR_TIMEOUT] and leaves the planner, with its
    stored pair, as it is. *)
Theorem register_null_hook_unregisters (p : IrrigationPlanner) (param : Z) :
  let r := registerIrrigPlanUpdatedHook p None param in
  (hookMutex p = false ->
     snd r = ERR_OK /\
     fst r = set_hook p None param /\
     forall q nows now,
       configUpdatedHook q = configUpdatedHook (fst r) ->
       snd (notifyTimes q nows) =
         repeat CopyZonesAndEvents
                (if configLock q || configMutex q then 0 else length nows) /\
       configUpdatedHook (fst (notifyTimes q nows)) = None /\
       (configLock q = false -> configMutex q = false ->
        zones (fst (irrigConfigUpdated q now)) =
          fst (fst (copyZonesAndEvents (zones q) (events q) (eventsUsed q))) /\
        eventsUsed (fst (irrigConfigUpdated q now)) =
          snd (copyZonesAndEvents (zones q) (events q) (eventsUsed q)))) /\
  (hookMutex p = true -> r = (p, ERR_TIMEOUT)).
Proof.
  intros r. subst r. unfold registerIrrigPlanUpdatedHook. split.
  - intros Hhm. rewrite Hhm. cbn [fst snd].
    split; [reflexivity |]. split.
    + destruct p. cbn in Hhm. subst. reflexivity.
    + intros q nows now Hq. cbn [configUpdatedHook set_hookMutex set_hook] in Hq.
      destruct (notifyTimes_without_hook nows q Hq) as [Hcalls Hnone].
      split; [exact Hcalls |]. split; [exact Hnone |].
      intros Hl Hcm.
      destruct (irrigConfigUpdated_reloads q now Hl Hcm) as (_ & Hz & Hu & _).
      split; [exact Hz | exact Hu].
  - intros Hhm. rewrite Hhm. reflexivity.
Qed.

(* ------------------------------------------------------------------ *)
(** ** Further properties of the planner *)

(** *** Storage loops, constructor and destructor *)

Lemma clearFlags_spec (a : array bool) (n j : nat) :
  clearFlags a n j = if (j <? n)%nat then false else a j.
Proof.
  induction n as [| n IH]; cbn [clearFlags]; [reflexivity |].
  unfold upd. destruct (Nat.eqb_spec j n) as [-> | Hne].
  - replace (n <? S n)%nat with true by (symmetry; apply Nat.ltb_lt; lia).
    reflexivity.
  - rewrite IH.
    destruct (Nat.ltb_spec j n), (Nat.ltb_spec j (S n)); try reflexivity; lia.
Qed.

Lemma clearZones_spec (z : array irrigation_zone_cfg_t) (n i : nat) :
  clearZones z n i = if (i <? n)%nat then clearZone (z i) else z i.
Proof.
  induction n as [| n IH]; cbn [clearZones]; [reflexivity |].
  unfold upd. destruct (Nat.eqb_spec i n) as [-> | Hne].
  - replace (n <? S n)%nat with true by (symmetry; apply Nat.ltb_lt; lia).
    rewrite IH, Nat.ltb_irrefl. reflexivity.
  - rewrite IH.
    destruct (Nat.ltb_spec i n), (Nat.ltb_spec i (S n)); try reflexivity; lia.
Qed.

Lemma printAllEvents_loop_spec (ev : array IrrigationEvent) (used : array bool)
    (now : time_t) (n j : nat) :
  printAllEvents_loop ev used now n j = updatedList now ev used n j.
Proof.
  induction n as [| n IH]; [reflexivity |].
  cbn [printAllEvents_loop]. rewrite updatedList_step.
  destruct (used n) eqn:Hu.
  - unfold upd. destruct (Nat.eqb_spec j n) as [-> | Hne]; cbn [andb].
    + rewrite Hu, IH, updatedList_below by lia. reflexivity.
    + exact IH.
  - destruct (Nat.eqb_spec j n) as [-> | Hne]; cbn [andb].
    + rewrite Hu. exact IH.
    + exact IH.
Qed.

Lemma updatedList_unused (t : time_t) (l : array IrrigationEvent) (used : array bool)
    (n j : nat) :
  used j = false \/ (n <= j)%nat -> updatedList t l used n j = l j.
Proof.
  intros [H | H]; unfold updatedList.
  - rewrite H, andb_false_r. reflexivity.
  - replace (j <? n)%nat with false by (symmetry; apply Nat.ltb_ge; lia).
    reflexivity.
Qed.

(** X1: the constructor, whatever the object's memory held before, and
    the destructor leave no slot of either pool live; the constructor
    leaves the event storage as it found it, stores the null hook pair,
    leaves both mutexes free and disables every channel slot of every
    zone. *)
Theorem constructor_leaves_no_live_slot (mem : IrrigationPlanner) (now : time_t) :
  noLiveSlot (IrrigationPlanner_new mem now) /\
  noLiveSlot (IrrigationPlanner_delete mem) /\
  (forall j, events (IrrigationPlanner_new mem now) j = events mem j) /\
  (forall j, stopEvents (IrrigationPlanner_new mem now) j = stopEvents mem j) /\
  configUpdatedHook (IrrigationPlanner_new mem now) = None /\
  mutexesFree (IrrigationPlanner_new mem now) /\
  (forall i j, (i < irrigationPlannerNumZones)%nat ->
               (j < irrigationZoneCfgElements)%nat ->
               chEnabled (zones (IrrigationPlanner_new mem now) i) j = false).
Proof.
  assert (Hclear : noLiveSlot (clearStorage mem)).
  { split; intros j Hj; unfold clearStorage;
      cbn [eventsUsed stopEventsUsed set_events set_stopEvents set_zones];
      rewrite clearFlags_spec;
      (replace (j <? _)%nat with true by (symmetry; apply Nat.ltb_lt; lia));
      reflexivity. }
  split; [exact Hclear |]. split; [exact Hclear |].
  split.
  { intros j. unfold IrrigationPlanner_new, printAllEvents.
    cbn [events set_hookMutex set_configMutex set_hook set_events].
    rewrite printAllEvents_loop_spec. apply updatedList_unused.
    destruct (Nat.ltb_spec j irrigationPlannerNumEvents) as [Hj | Hj];
      [left; apply (proj1 Hclear j Hj) | right; exact Hj]. }
  split; [intros j; reflexivity |].
  split; [reflexivity |]. split; [split; reflexivity |].
  intros i j Hi Hj. unfold IrrigationPlanner_new, printAllEvents, clearStorage.
  cbn [zones set_hookMutex set_configMutex set_hook set_events set_stopEvents set_zones].
  rewrite clearZones_spec.
  replace (i <? irrigationPlannerNumZones)%nat with true
    by (symmetry; apply Nat.ltb_lt; lia).
  unfold clearZone. cbn [chEnabled]. rewrite clearFlags_spec.
  replace (j <? irrigationZoneCfgElements)%nat with true
    by (symmetry; apply Nat.ltb_lt; lia).
  reflexivity.
Qed.

(** *** A planner without live slots *)

Lemma filter_none {A : Type} (f : A -> bool) (l : list A) :
  (forall x, In x l -> f x = false) -> filter f l = [].
Proof.
  induction l as [| a l IH]; intros H; [reflexivity |].
  cbn [filter]. rewrite (H a) by (now left). apply IH.
  intros x Hx. apply H. now right.
Qed.

Lemma liveOccurrences_none (t : time_t) (l : array IrrigationEvent)
    (used : array bool) (n : nat) :
  (forall j, (j < n)%nat -> used j = false) -> liveOccurrences t l used n = [].
Proof.
  intros H. unfold liveOccurrences. rewrite (filter_none used); [reflexivity |].
  intros j Hj. apply in_seq in Hj. apply H. lia.
Qed.

Lemma poolMatches_none (l : array IrrigationEvent) (used : array bool) (b : bool)
    (t : time_t) (n : nat) :
  (forall j, (j < n)%nat -> used j = false) -> poolMatches l used b t n = [].
Proof.
  intros H. unfold poolMatches. rewrite filter_none; [reflexivity |].
  intros j Hj. apply in_seq in Hj. rewrite H by lia. reflexivity.
Qed.

(** X2: on a planner without live slots (as the constructor leaves it)
    [getNextEventTime] returns 0 for every time and flag,
    [getEventHandles] reports [ERR_NO_HANDLES_FOUND] and clears the
    whole buffer, and [confirmEvent] and [getEventData] refuse every
    handle with [ERR_INVALID_HANDLE], leaving the planner as it is. *)
Theorem idle_planner (p : IrrigationPlanner) :
  noLiveSlot p ->
  (forall t e, snd (getNextEventTime p t e) = 0) /\
  (forall t dest maxElements,
     fst (getEventHandles p t dest maxElements) = ERR_NO_HANDLES_FOUND /\
     forall j, (j < maxElements)%nat ->
               idx (snd (getEventHandles p t dest maxElements) j) = -1) /\
  (forall h, confirmEvent p h = (p, ERR_INVALID_HANDLE)) /\
  (forall h d, getEventData p h (Some d) = (ERR_INVALID_HANDLE, Some d)).
Proof.
  intros [Hs Hp].
  assert (Hstart : forall h, 0 <= idx h < Z.of_nat irrigationPlannerNumEvents ->
                             eventsUsed p (Z.to_nat (idx h)) = false)
    by (intros h Hh; apply Hs; lia).
  assert (Hstop : forall h, 0 <= idx h < Z.of_nat irrigationPlannerNumStopEvents ->
                            stopEventsUsed p (Z.to_nat (idx h)) = false)
    by (intros h Hh; apply Hp; lia).
  split; [| split; [| split]].
  - intros t e. destruct (getNextEventTime_scan p t e) as (Hmin & _).
    cbv zeta in Hmin. unfold allLiveOccurrences in Hmin.
    rewrite !liveOccurrences_none in Hmin by assumption. exact Hmin.
  - intros t dest maxElements.
    destruct (getEventHandles_spec p t dest maxElements) as [Hr Hd].
    cbv zeta in Hr, Hd. unfold allMatches in Hr, Hd.
    rewrite !poolMatches_none in Hr, Hd by assumption.
    cbn [app length] in Hr, Hd. rewrite Nat.min_0_r in Hr, Hd.
    split; [exact Hr |]. intros j Hj. rewrite Hd.
    replace (j <? 0)%nat with false by (symmetry; apply Nat.ltb_ge; lia).
    replace (j <? maxElements)%nat with true by (symmetry; apply Nat.ltb_lt; lia).
    reflexivity.
  - intros h. unfold confirmEvent.
    destruct (Z.ltb_spec (idx h) 0); [reflexivity |].
    destruct (isStartHandle h).
    + destruct (Z.leb_spec (Z.of_nat irrigationPlannerNumEvents) (idx h));
        [reflexivity |].
      rewrite Hstart by lia. reflexivity.
    + destruct (Z.leb_spec (Z.of_nat irrigationPlannerNumStopEvents) (idx h));
        [reflexivity |].
      rewrite Hstop by lia. reflexivity.
  - intros h d. unfold getEventData.
    destruct (Z.ltb_spec (idx h) 0); [reflexivity |].
    destruct (isStartHandle h).
    + destruct (Z.leb_spec (Z.of_nat irrigationPlannerNumEvents) (idx h));
        [reflexivity |].
      rewrite Hstart by lia. reflexivity.
    + destruct (Z.leb_spec (Z.of_nat irrigationPlannerNumStopEvents) (idx h));
        [reflexivity |].
      rewrite Hstop by lia. reflexivity.
Qed.

(** *** What [getNextEventTime] leaves alone *)

(** X3: [getNextEventTime] never changes a used-flag, never writes an
    unused slot or a cell at or beyond a pool's capacity (unused slots
    are skipped and left stale), and leaves the zones, the config lock
    and its flag, the hook pair and the mutexes as they are. *)
Theorem getNextEventTime_frame (p : IrrigationPlanner) (t : time_t) (e : bool) :
  let p' := fst (getNextEventTime p t e) in
  (forall j, eventsUsed p' j = eventsUsed p j) /\
  (forall j, stopEventsUsed p' j = stopEventsUsed p j) /\
  (forall j, eventsUsed p j = false \/ (irrigationPlannerNumEvents <= j)%nat ->
             events p' j = events p j) /\
  (forall j, stopEventsUsed p j = false \/ (irrigationPlannerNumStopEvents <= j)%nat ->
             stopEvents p' j = stopEvents p j) /\
  zones p' = zones p /\
  configLock p' = configLock p /\
  configUpdatedDuringLock p' = configUpdatedDuringLock p /\
  configUpdatedHook p' = configUpdatedHook p /\
  configUpdatedHookParamPtr p' = configUpdatedHookParamPtr p /\
  configMutex p' = configMutex p /\
  hookMutex p' = hookMutex p.
Proof.
  intros p'. subst p'.
  destruct (getNextEventTime_scan p t e) as (_ & Hev & Hsev & Hu & Hsu).
  split; [exact Hu |]. split; [exact Hsu |].
  split; [intros j Hj; rewrite Hev; now apply updatedList_unused |].
  split; [intros j Hj; rewrite Hsev; now apply updatedList_unused |].
  unfold getNextEventTime.
  destruct (getNextEventIdx _ (events p) _ _) as [ev si].
  destruct (getNextEventIdx _ (stopEvents p) _ _) as [sev pi].
  repeat split; reflexivity.
Qed.

(** *** Handles: what [getEventHandles] hands out *)

Lemma allMatches_In (p : IrrigationPlanner) (t : time_t) (h : event_handle_t) :
  In h (allMatches p t) <-> handleAccepted p h /\ handleOccurrence p h = t.
Proof.
  unfold allMatches. rewrite in_app_iff, !poolMatches_In. split.
  - intros [(i & -> & Hi & Hu & Ho) | (i & -> & Hi & Hu & Ho)].
    + split; [left | unfold handleOccurrence; cbn [idx isStartHandle];
                     rewrite Nat2Z.id; exact Ho].
      unfold validStartHandle. cbn [idx isStartHandle]. rewrite Nat2Z.id.
      repeat split; auto; lia.
    + split; [right | unfold handleOccurrence; cbn [idx isStartHandle];
                      rewrite Nat2Z.id; exact Ho].
      unfold validStopHandle. cbn [idx isStartHandle]. rewrite Nat2Z.id.
      repeat split; auto; lia.
  - intros [[(H0 & Hs & Hr & Hu) | (H0 & Hs & Hr & Hu)] Ho];
      destruct h as [i b]; cbn [idx isStartHandle] in *; subst b;
      unfold handleOccurrence in Ho; cbn [idx isStartHandle] in Ho.
    + left. exists (Z.to_nat i). rewrite Z2Nat.id by lia.
      repeat split; auto; lia.
    + right. exists (Z.to_nat i). rewrite Z2Nat.id by lia.
      repeat split; auto; lia.
Qed.

(** X4: the handles [getEventHandles] writes are handles of live slots
    whose cached next occurrence is [eventTime]; when it reports
    [ERR_OK], every such handle is in the buffer; and below
    [maxElements] an entry has index -1 exactly when it lies past the
    handles written, so the sentinel tells how many were written. *)
Theorem getEventHandles_sound_complete (p : IrrigationPlanner) (eventTime : time_t)
    (dest : array event_handle_t) (maxElements : nat) :
  let cnt := Nat.min maxElements (length (allMatches p eventTime)) in
  let dest' := snd (getEventHandles p eventTime dest maxElements) in
  (forall j, (j < cnt)%nat ->
     handleAccepted p (dest' j) /\ handleOccurrence p (dest' j) = eventTime) /\
  (fst (getEventHandles p eventTime dest maxElements) = ERR_OK ->
   forall h, handleAccepted p h -> handleOccurrence p h = eventTime ->
             exists j, (j < cnt)%nat /\ dest' j = h) /\
  (forall j, (j < maxElements)%nat -> (idx (dest' j) = -1 <-> (cnt <= j)%nat)).
Proof.
  intros cnt dest'.
  destruct (getEventHandles_spec p eventTime dest maxElements) as [Hr Hd].
  fold cnt dest' in Hr, Hd.
  assert (Hin : forall j, (j < cnt)%nat -> In (dest' j) (allMatches p eventTime)).
  { intros j Hj. rewrite Hd.
    replace (j <? cnt)%nat with true by (symmetry; apply Nat.ltb_lt; lia).
    apply nth_In. lia. }
  split; [intros j Hj; apply allMatches_In, Hin, Hj |]. split.
  - intros Hok h Ha Ho. rewrite Hr in Hok.
    destruct (Nat.eqb_spec cnt 0); [discriminate |].
    destruct (Nat.ltb_spec maxElements (length (allMatches p eventTime)));
      [discriminate |].
    assert (Hh : In h (allMatches p eventTime)) by (apply allMatches_In; auto).
    destruct (In_nth _ _ noHandle Hh) as (j & Hj & Hnth).
    exists j. split; [lia |]. rewrite Hd.
    replace (j <? cnt)%nat with true by (symmetry; apply Nat.ltb_lt; lia).
    exact Hnth.
  - intros j Hj. destruct (Nat.ltb_spec j cnt) as [Hlt | Hge].
    + split; [| lia]. intros Hm.
      apply Hin, allMatches_In in Hlt. destruct Hlt as [[Hv | Hv] _];
        destruct Hv as (H0 & _); lia.
    + split; [lia |]. intros _. rewrite Hd.
      replace (j <? cnt)%nat with false by (symmetry; apply Nat.ltb_ge; lia).
      replace (j <? maxElements)%nat with true by (symmetry; apply Nat.ltb_lt; lia).
      reflexivity.
Qed.

(** X5: with room for at least one handle the status of
    [getEventHandles] tells the three cases apart: [ERR_OK] exactly when
    there are matches and all fit, [ERR_PARTIAL_EVENT_HANDLES] exactly
    when there are more matches than room, [ERR_NO_HANDLES_FOUND]
    exactly when nothing matches; no other status is returned. *)
Theorem getEventHandles_status_table (p : IrrigationPlanner) (eventTime : time_t)
    (dest : array event_handle_t) (maxElements : nat) :
  (0 < maxElements)%nat ->
  let n := length (allMatches p eventTime) in
  let ret := fst (getEventHandles p eventTime dest maxElements) in
  (ret = ERR_OK <-> (1 <= n <= maxElements)%nat) /\
  (ret = ERR_PARTIAL_EVENT_HANDLES <-> (maxElements < n)%nat) /\
  (ret = ERR_NO_HANDLES_FOUND <-> n = O) /\
  (ret = ERR_OK \/ ret = ERR_PARTIAL_EVENT_HANDLES \/ ret = ERR_NO_HANDLES_FOUND).
Proof.
  intros Hpos n ret.
  destruct (getEventHandles_spec p eventTime dest maxElements) as [Hr _].
  fold n ret in Hr. rewrite Hr.
  destruct (Nat.eqb_spec (Nat.min maxElements n) 0) as [Hz | Hnz].
  - repeat split; intros; try discriminate; try lia; auto.
  - destruct (Nat.ltb_spec maxElements n) as [Hm | Hf].
    + repeat split; intros; try discriminate; try lia; auto.
    + repeat split; intros; try discriminate; try lia; auto.
Qed.

(** *** The driver loop: from the next event time to its handles *)

Lemma liveOccurrences_nonzero (t : time_t) (l : array IrrigationEvent)
    (used : array bool) (n : nat) (x : time_t) :
  In x (liveOccurrences t l used n) -> x <> 0.
Proof.
  intros H. apply liveOccurrences_In in H. destruct H as (_ & _ & _ & _ & H).
  exact H.
Qed.

(** The slots of the planner [getNextEventTime] returns, seen from the
    planner it was called on. *)
Lemma getNextEventTime_slot (p : IrrigationPlanner) (t : time_t) (e : bool) :
  let f := searchFloor t e in
  let p' := fst (getNextEventTime p t e) in
  (forall j, (j < irrigationPlannerNumEvents)%nat -> eventsUsed p j = true ->
     eventsUsed p' j = true /\
     getNextOccurance (events p' j) = occurrenceAt f (events p) j) /\
  (forall j, (j < irrigationPlannerNumStopEvents)%nat -> stopEventsUsed p j = true ->
     stopEventsUsed p' j = true /\
     getNextOccurance (stopEvents p' j) = occurrenceAt f (stopEvents p) j).
Proof.
  intros f p'. subst p'.
  destruct (getNextEventTime_scan p t e) as (_ & Hev & Hsev & Hu & Hsu).
  fold f in Hev, Hsev.
  split; intros j Hj Hused.
  - rewrite Hu, Hev. split; [exact Hused |]. unfold updatedList, occurrenceAt.
    replace (j <? irrigationPlannerNumEvents)%nat with true
      by (symmetry; apply Nat.ltb_lt; lia).
    rewrite Hused. reflexivity.
  - rewrite Hsu, Hsev. split; [exact Hused |]. unfold updatedList, occurrenceAt.
    replace (j <? irrigationPlannerNumStopEvents)%nat with true
      by (symmetry; apply Nat.ltb_lt; lia).
    rewrite Hused. reflexivity.
Qed.

(** X6: a non-zero time returned by [getNextEventTime] is the cached
    occurrence of at least one live slot of the planner it leaves:
    [getEventHandles] for that time, with room for at least one handle,
    never reports [ERR_NO_HANDLES_FOUND], and its first entry is the
    handle of a live slot due at that time. *)
Theorem next_event_time_has_handles (p : IrrigationPlanner) (t : time_t) (e : bool)
    (dest : array event_handle_t) (maxElements : nat) :
  let p' := fst (getNextEventTime p t e) in
  let r := snd (getNextEventTime p t e) in
  r <> 0 -> (0 < maxElements)%nat ->
  fst (getEventHandles p' r dest maxElements) <> ERR_NO_HANDLES_FOUND /\
  handleAccepted p' (snd (getEventHandles p' r dest maxElements) O) /\
  handleOccurrence p' (snd (getEventHandles p' r dest maxElements) O) = r.
Proof.
  intros p' r Hr Hmax.
  destruct (getNextEventTime_scan p t e) as (Hmin & _). fold r in Hmin.
  cbv zeta in Hmin.
  destruct (getNextEventTime_slot p t e) as [Hs Hp]. fold p' in Hs, Hp.
  assert (Hsome : exists h, In h (allMatches p' r)).
  { unfold minimumOrZero in Hmin.
    destruct (allLiveOccurrences p (searchFloor t e)) as [| x l] eqn:E;
      [contradiction |].
    destruct Hmin as [Hin _]. rewrite <- E in Hin. unfold allLiveOccurrences in Hin.
    apply in_app_or in Hin.
    destruct Hin as [Hin | Hin]; apply liveOccurrences_In in Hin;
      destruct Hin as (j & Hj & Hu & Ho & _).
    - destruct (Hs j Hj Hu) as [Hu' Ho'].
      exists (mkHandle (Z.of_nat j) true). unfold allMatches.
      apply in_or_app. left. apply poolMatches_In. exists j.
      repeat split; auto. rewrite Ho'. exact Ho.
    - destruct (Hp j Hj Hu) as [Hu' Ho'].
      exists (mkHandle (Z.of_nat j) false). unfold allMatches.
      apply in_or_app. right. apply poolMatches_In. exists j.
      repeat split; auto. rewrite Ho'. exact Ho. }
  assert (Hlen : (0 < length (allMatches p' r))%nat).
  { destruct Hsome as [h Hh]. destruct (allMatches p' r); [destruct Hh |].
    cbn [length]. lia. }
  destruct (getEventHandles_spec p' r dest maxElements) as [Hret Hd].
  cbv zeta in Hret, Hd.
  split.
  - rewrite Hret.
    destruct (Nat.eqb_spec (Nat.min maxElements (length (allMatches p' r))) 0);
      [lia |].
    destruct (maxElements <? length (allMatches p' r))%nat; discriminate.
  - apply allMatches_In. rewrite Hd.
    replace (0 <? Nat.min maxElements (length (allMatches p' r)))%nat with true
      by (symmetry; apply Nat.ltb_lt; lia).
    apply nth_In. exact Hlen.
Qed.

(** X7: when [getNextEventTime] returns 0, every live slot of the
    planner it leaves has the cached occurrence 0, so [getEventHandles]
    asked for the time 0 matches every live slot (it does not report
    that nothing is scheduled unless no slot is used). *)
Theorem zero_time_matches_every_live_slot (p : IrrigationPlanner) (t : time_t)
    (e : bool) :
  let p' := fst (getNextEventTime p t e) in
  snd (getNextEventTime p t e) = 0 ->
  forall h, handleAccepted p' h <-> In h (allMatches p' 0).
Proof.
  intros p' Hz h.
  destruct (getNextEventTime_scan p t e) as (Hmin & _ & _ & Hu & Hsu).
  cbv zeta in Hmin. rewrite Hz in Hmin. fold p' in Hu, Hsu.
  destruct (getNextEventTime_slot p t e) as [Hs Hp]. fold p' in Hs, Hp.
  assert (Hnil : allLiveOccurrences p (searchFloor t e) = []).
  { destruct (allLiveOccurrences p (searchFloor t e)) as [| x l] eqn:E;
      [reflexivity |].
    exfalso. destruct Hmin as [Hin _]. rewrite <- E in Hin.
    unfold allLiveOccurrences in Hin. apply in_app_or in Hin.
    destruct Hin as [Hin | Hin]; apply liveOccurrences_nonzero in Hin; lia. }
  unfold allLiveOccurrences in Hnil. apply app_eq_nil in Hnil.
  destruct Hnil as [Hn1 Hn2].
  assert (Hzero : forall l used n j,
             liveOccurrences (searchFloor t e) l used n = [] ->
             (j < n)%nat -> used j = true ->
             occurrenceAt (searchFloor t e) l j = 0).
  { intros l used n j Hn Hj Huj.
    destruct (Z.eq_dec (occurrenceAt (searchFloor t e) l j) 0) as [Hq | Hq];
      [exact Hq |].
    exfalso.
    assert (Hin : In (occurrenceAt (searchFloor t e) l j)
                     (liveOccurrences (searchFloor t e) l used n))
      by (apply liveOccurrences_In; exists j; auto).
    rewrite Hn in Hin. destruct Hin. }
  rewrite allMatches_In. split; [| tauto].
  intros Ha. split; [exact Ha |].
  destruct Ha as [(H0 & Hst & Hr & Hused) | (H0 & Hst & Hr & Hused)];
    unfold handleOccurrence; rewrite Hst.
  - rewrite Hu in Hused.
    destruct (Hs (Z.to_nat (idx h)) ltac:(lia) Hused) as [_ Ho]. rewrite Ho.
    apply (Hzero _ _ _ _ Hn1); [lia | exact Hused].
  - rewrite Hsu in Hused.
    destruct (Hp (Z.to_nat (idx h)) ltac:(lia) Hused) as [_ Ho]. rewrite Ho.
    apply (Hzero _ _ _ _ Hn2); [lia | exact Hused].
Qed.

(** *** [confirmEvent]: refused handles, stop handles, repeated calls *)

Lemma handleAccepted_dec (p : IrrigationPlanner) (h : event_handle_t) :
  handleAccepted p h <->
  (idx h <? 0) = false /\
  (if isStartHandle h
   then (Z.of_nat irrigationPlannerNumEvents <=? idx h) = false /\
        eventsUsed p (Z.to_nat (idx h)) = true
   else (Z.of_nat irrigationPlannerNumStopEvents <=? idx h) = false /\
        stopEventsUsed p (Z.to_nat (idx h)) = true).
Proof.
  unfold handleAccepted, validStartHandle, validStopHandle.
  rewrite Z.ltb_ge. destruct (isStartHandle h); rewrite Z.leb_gt; split.
  - intros [(H0 & _ & Hr & Hu) | (_ & Hc & _)]; [auto | discriminate].
  - intros (H0 & Hr & Hu). left. auto.
  - intros [(_ & Hc & _) | (H0 & _ & Hr & Hu)]; [discriminate | auto].
  - intros (H0 & Hr & Hu). right. auto.
Qed.

(** X8: [confirmEvent] returns [ERR_INVALID_HANDLE] exactly for the
    handles that do not name a live slot of their pool (negative index,
    index at or beyond the pool's capacity, or slot not used), and then
    leaves the planner untouched; every other handle yields [ERR_OK] or
    [ERR_NO_STOP_SLOT_AVAIL], a stop handle always [ERR_OK]. *)
Theorem confirmEvent_refuses_exactly_dead_handles (p : IrrigationPlanner)
    (h : event_handle_t) :
  (snd (confirmEvent p h) = ERR_INVALID_HANDLE <-> ~ handleAccepted p h) /\
  (snd (confirmEvent p h) = ERR_INVALID_HANDLE -> fst (confirmEvent p h) = p) /\
  (snd (confirmEvent p h) = ERR_INVALID_HANDLE \/
   snd (confirmEvent p h) = ERR_OK \/
   (snd (confirmEvent p h) = ERR_NO_STOP_SLOT_AVAIL /\ isStartHandle h = true)).
Proof.
  rewrite handleAccepted_dec. unfold confirmEvent.
  destruct (idx h <? 0).
  { cbn [fst snd]. repeat split; auto. intros _ [H _]. discriminate. }
  destruct (isStartHandle h).
  - destruct (Z.of_nat irrigationPlannerNumEvents <=? idx h).
    { cbn [fst snd]. repeat split; auto. intros _ (_ & H & _). discriminate. }
    destruct (eventsUsed p (Z.to_nat (idx h))); cbn [negb].
    + destruct (confirmNormalEvent p (Z.to_nat (idx h))) as [p' ok].
      destruct ok; cbn [negb fst snd]; repeat split; auto; try discriminate;
        intros H; exfalso; apply H; auto.
    + cbn [fst snd]. repeat split; auto. intros _ (_ & _ & H). discriminate.
  - destruct (Z.of_nat irrigationPlannerNumStopEvents <=? idx h).
    { cbn [fst snd]. repeat split; auto. intros _ (_ & H & _). discriminate. }
    destruct (stopEventsUsed p (Z.to_nat (idx h))); cbn [negb fst snd].
    + repeat split; auto; try discriminate. intros H. exfalso. apply H. auto.
    + repeat split; auto. intros _ (_ & _ & H). discriminate.
Qed.

(** X9: confirming a valid stop handle returns [ERR_OK] and frees
    exactly that stop slot: nothing else of the planner changes (the
    slot keeps its content).  The handle is dead afterwards: confirming
    it again is refused with [ERR_INVALID_HANDLE] and changes nothing. *)
Theorem confirmEvent_frees_stop_slot (p : IrrigationPlanner) (h : event_handle_t) :
  validStopHandle p h ->
  let p' := set_stopEvents p (stopEvents p)
                           (upd (stopEventsUsed p) (Z.to_nat (idx h)) false) in
  confirmEvent p h = (p', ERR_OK) /\
  stopEventsUsed p' (Z.to_nat (idx h)) = false /\
  (forall j, j <> Z.to_nat (idx h) -> stopEventsUsed p' j = stopEventsUsed p j) /\
  confirmEvent p' h = (p', ERR_INVALID_HANDLE).
Proof.
  intros (H0 & Hs & Hr & Hu) p'.
  assert (Hfirst : confirmEvent p h = (p', ERR_OK)).
  { unfold confirmEvent, confirmStopEvent.
    replace (idx h <? 0) with false by (symmetry; apply Z.ltb_ge; lia).
    rewrite Hs.
    replace (Z.of_nat irrigationPlannerNumStopEvents <=? idx h) with false
      by (symmetry; apply Z.leb_gt; lia).
    rewrite Hu. reflexivity. }
  assert (Hfree : stopEventsUsed p' (Z.to_nat (idx h)) = false)
    by (subst p'; cbn [stopEventsUsed set_stopEvents]; apply upd_same).
  split; [exact Hfirst |]. split; [exact Hfree |]. split.
  - intros j Hj. subst p'. cbn [stopEventsUsed set_stopEvents].
    now apply upd_other.
  - unfold confirmEvent.
    replace (idx h <? 0) with false by (symmetry; apply Z.ltb_ge; lia).
    rewrite Hs.
    replace (Z.of_nat irrigationPlannerNumStopEvents <=? idx h) with false
      by (symmetry; apply Z.leb_gt; lia).
    rewrite Hfree. reflexivity.
Qed.

(** The stop-pool flags after [confirmEvent] on a valid start handle,
    with [i] the first free stop slot: flag [i] is set, whether or not
    the slot could be written. *)
Lemma confirmEvent_flags_allocated (p : IrrigationPlanner) (h : event_handle_t)
    (i : nat) :
  validStartHandle p h ->
  firstFree (stopEventsUsed p) irrigationPlannerNumStopEvents = Some i ->
  stopEventsUsed (fst (confirmEvent p h)) = upd (stopEventsUsed p) i true.
Proof.
  intros Hv Hfree. rewrite (confirmEvent_start p h Hv). cbn [fst].
  destruct (confirmNormalEvent_unfold p (Z.to_nat (idx h))) as (_ & _ & Hsu & _).
  rewrite Hsu. unfold stopSlotSearch. rewrite Hfree.
  apply firstFree_Some in Hfree. destruct Hfree as (_ & Hf & _).
  unfold confirmNormalEvent_body. cbn [cStopEventsUsed]. rewrite Hf. cbn [negb].
  destruct (IrrigationEvent_getEventData (events p (Z.to_nat (idx h))));
    reflexivity.
Qed.

Lemma confirmEvent_start_pool (p : IrrigationPlanner) (h : event_handle_t) :
  validStartHandle p h ->
  events (fst (confirmEvent p h)) = events p /\
  eventsUsed (fst (confirmEvent p h)) =
    (if (irrigationPlannerNumNormalEvents <=? Z.to_nat (idx h))%nat
     then upd (eventsUsed p) (Z.to_nat (idx h)) false else eventsUsed p).
Proof.
  intros Hv. rewrite (confirmEvent_start p h Hv). cbn [fst].
  destruct (confirmNormalEvent_unfold p (Z.to_nat (idx h))) as (_ & _ & _ & He & Hu).
  split; assumption.
Qed.

(** X10: confirming a valid start handle never changes the start
    events themselves.  A handle of the recurring prefix stays valid
    (no start flag changes), so the event can be confirmed again; a
    one-shot handle is dead afterwards: confirming it a second time is
    refused with [ERR_INVALID_HANDLE] and changes nothing, so no second
    stop slot is taken. *)
Theorem confirmEvent_start_handle_afterwards (p : IrrigationPlanner)
    (h : event_handle_t) :
  validStartHandle p h ->
  let p' := fst (confirmEvent p h) in
  (forall j, events p' j = events p j) /\
  (forall j, j <> Z.to_nat (idx h) -> eventsUsed p' j = eventsUsed p j) /\
  (idx h < Z.of_nat irrigationPlannerNumNormalEvents -> validStartHandle p' h) /\
  (Z.of_nat irrigationPlannerNumNormalEvents <= idx h ->
   confirmEvent p' h = (p', ERR_INVALID_HANDLE)).
Proof.
  intros Hv p'. destruct (confirmEvent_start_pool p h Hv) as [He Hu].
  fold p' in He, Hu. destruct Hv as (H0 & Hs & Hr & Hused).
  split; [intros j; rewrite He; reflexivity |]. split; [| split].
  - intros j Hj. rewrite Hu.
    destruct (irrigationPlannerNumNormalEvents <=? Z.to_nat (idx h))%nat;
      [now apply upd_other | reflexivity].
  - intros Hrec. unfold validStartHandle. repeat split; auto.
    rewrite Hu.
    replace (irrigationPlannerNumNormalEvents <=? Z.to_nat (idx h))%nat with false
      by (symmetry; apply Nat.leb_gt; lia).
    exact Hused.
  - intros Hone. unfold confirmEvent.
    replace (idx h <? 0) with false by (symmetry; apply Z.ltb_ge; lia).
    rewrite Hs.
    replace (Z.of_nat irrigationPlannerNumEvents <=? idx h) with false
      by (symmetry; apply Z.leb_gt; lia).
    rewrite Hu.
    replace (irrigationPlannerNumNormalEvents <=? Z.to_nat (idx h))%nat with true
      by (symmetry; apply Nat.leb_le; lia).
    rewrite upd_same. reflexivity.
Qed.

Lemma usedCount_ext (u v : array bool) (n : nat) :
  (forall j, (j < n)%nat -> u j = v j) -> usedCount u n = usedCount v n.
Proof.
  intros H. unfold usedCount. f_equal. apply filter_ext_in.
  intros j Hj. apply in_seq in Hj. apply H. lia.
Qed.

Lemma usedCount_step (u : array bool) (n : nat) :
  usedCount u (S n) = (usedCount u n + (if u n then 1 else 0))%nat.
Proof.
  unfold usedCount. rewrite seq_S, filter_app, length_app. cbn [filter Nat.add].
  destruct (u n); reflexivity.
Qed.

Lemma usedCount_set (u : array bool) (n i : nat) :
  (i < n)%nat -> u i = false -> usedCount (upd u i true) n = S (usedCount u n).
Proof.
  intros Hi Hf. induction n as [| n IH]; [lia |].
  rewrite !usedCount_step.
  destruct (Nat.eq_dec i n) as [-> | Hne].
  - rewrite upd_same, Hf.
    rewrite (usedCount_ext (upd u n true) u n)
      by (intros j Hj; apply upd_other; lia).
    lia.
  - rewrite IH by lia. rewrite upd_other by lia. lia.
Qed.

(** X11: a stop slot is borrowed and returned without a leak:
    confirming a valid start handle while a stop slot is free takes
    exactly one slot (the first free one, [i]), so the number of used
    stop slots grows by one and stays within the capacity; confirming
    the stop handle of slot [i] then returns [ERR_OK] and the used-flags
    of the stop pool are what they were before. *)
Theorem stop_slot_round_trip (p : IrrigationPlanner) (h : event_handle_t) (i : nat) :
  validStartHandle p h ->
  firstFree (stopEventsUsed p) irrigationPlannerNumStopEvents = Some i ->
  let p1 := fst (confirmEvent p h) in
  let p2 := fst (confirmEvent p1 (mkHandle (Z.of_nat i) false)) in
  usedCount (stopEventsUsed p1) irrigationPlannerNumStopEvents =
    S (usedCount (stopEventsUsed p) irrigationPlannerNumStopEvents) /\
  (usedCount (stopEventsUsed p1) irrigationPlannerNumStopEvents
     <= irrigationPlannerNumStopEvents)%nat /\
  snd (confirmEvent p1 (mkHandle (Z.of_nat i) false)) = ERR_OK /\
  (forall j, stopEventsUsed p2 j = stopEventsUsed p j).
Proof.
  intros Hv Hfree p1 p2.
  pose proof (confirmEvent_flags_allocated p h i Hv Hfree) as Hflags.
  fold p1 in Hflags.
  apply firstFree_Some in Hfree. destruct Hfree as (Hi & Hf & _).
  split; [rewrite Hflags; now apply usedCount_set |].
  split; [apply usedCount_le_capacity |].
  assert (Hstop : confirmEvent p1 (mkHandle (Z.of_nat i) false) =
                  (set_stopEvents p1 (stopEvents p1)
                                  (upd (stopEventsUsed p1) i false), ERR_OK)).
  { unfold confirmEvent, confirmStopEvent. cbn [idx isStartHandle].
    replace (Z.of_nat i <? 0) with false by (symmetry; apply Z.ltb_ge; lia).
    replace (Z.of_nat irrigationPlannerNumStopEvents <=? Z.of_nat i) with false
      by (symmetry; apply Z.leb_gt; lia).
    rewrite Nat2Z.id, Hflags, upd_same. reflexivity. }
  split; [rewrite Hstop; reflexivity |].
  intros j. subst p2. rewrite Hstop. cbn [fst stopEventsUsed set_stopEvents].
  rewrite Hflags. unfold upd.
  destruct (Nat.eqb_spec j i) as [-> | Hne]; [symmetry; exact Hf | reflexivity].
Qed.

(** *** [getEventData] *)

(** X12: [getEventData] checks the destination first: a null [dest]
    gives [ERR_INVALID_PARAM] whatever the handle.  With a destination,
    a handle of a live slot gives [ERR_OK] (the status of the event's
    own [getEventData] is not looked at) and, when the event's data can
    be read, the data of that slot; every other handle gives
    [ERR_INVALID_HANDLE] and leaves the destination as it was. *)
Theorem getEventData_table (p : IrrigationPlanner) (h : event_handle_t)
    (d : irrigation_event_data_t) :
  getEventData p h None = (ERR_INVALID_PARAM, None) /\
  (handleAccepted p h -> fst (getEventData p h (Some d)) = ERR_OK) /\
  (handleAccepted p h ->
   forall ev, ev = (if isStartHandle h then events p (Z.to_nat (idx h))
                    else stopEvents p (Z.to_nat (idx h))) ->
   eventDataReadable ev = true ->
   snd (getEventData p h (Some d)) = Some (eventData ev)) /\
  (~ handleAccepted p h ->
   getEventData p h (Some d) = (ERR_INVALID_HANDLE, Some d)).
Proof.
  split; [reflexivity |]. rewrite handleAccepted_dec. unfold getEventData.
  destruct (idx h <? 0).
  { repeat split; auto; intros [H _]; discriminate. }
  destruct (isStartHandle h).
  - destruct (Z.of_nat irrigationPlannerNumEvents <=? idx h).
    { repeat split; auto; intros (_ & H & _); discriminate. }
    destruct (eventsUsed p (Z.to_nat (idx h))); cbn [negb].
    + split; [reflexivity |]. split.
      * intros _ ev -> Hread. cbn [snd]. unfold IrrigationEvent_getEventData.
        rewrite Hread. reflexivity.
      * intros H. exfalso. apply H. auto.
    + repeat split; auto; intros (_ & _ & H); discriminate.
  - destruct (Z.of_nat irrigationPlannerNumStopEvents <=? idx h).
    { repeat split; auto; intros (_ & H & _); discriminate. }
    destruct (stopEventsUsed p (Z.to_nat (idx h))); cbn [negb].
    + split; [reflexivity |]. split.
      * intros _ ev -> Hread. cbn [snd]. unfold IrrigationEvent_getEventData.
        rewrite Hread. reflexivity.
      * intros H. exfalso. apply H. auto.
    + repeat split; auto; intros (_ & _ & H); discriminate.
Qed.

(** *** Config lock, reload and hook: every path *)

(** X13: a configuration notification never touches the stop pool
    (pending stop events survive a reload, deferred or applied), the
    config lock or the stored hook pair, and neither does
    [setConfigLock], which changes the config lock to the requested
    state only. *)
Theorem reload_leaves_stop_pool (p : IrrigationPlanner) (b : bool) (now : time_t) :
  stopEvents (fst (irrigConfigUpdated p now)) = stopEvents p /\
  stopEventsUsed (fst (irrigConfigUpdated p now)) = stopEventsUsed p /\
  configLock (fst (irrigConfigUpdated p now)) = configLock p /\
  configUpdatedHook (fst (irrigConfigUpdated p now)) = configUpdatedHook p /\
  configUpdatedHookParamPtr (fst (irrigConfigUpdated p now)) =
    configUpdatedHookParamPtr p /\
  stopEvents (fst (setConfigLock p b now)) = stopEvents p /\
  stopEventsUsed (fst (setConfigLock p b now)) = stopEventsUsed p /\
  configUpdatedHook (fst (setConfigLock p b now)) = configUpdatedHook p /\
  configUpdatedHookParamPtr (fst (setConfigLock p b now)) =
    configUpdatedHookParamPtr p.
Proof.
  destruct (irrigConfigUpdated_members p now) as (H1 & H2 & H3 & H4 & H5 & _).
  repeat (split; [assumption |]).
  unfold setConfigLock.
  destruct (negb b && configUpdatedDuringLock (set_configLock p b));
    [| repeat split; reflexivity].
  destruct (irrigConfigUpdated_members
              (set_configUpdatedDuringLock (set_configLock p b) false) now)
    as (G1 & G2 & _ & G4 & G5 & _).
  rewrite G1, G2, G4, G5. repeat split; reflexivity.
Qed.

(** X14: every mutex taken is given back: [irrigConfigUpdated],
    [setConfigLock] and [registerIrrigPlanUpdatedHook] leave the
    configuration mutex and the hook mutex in the state they found them
    in, on every path, including the paths that run into a timeout. *)
Theorem mutexes_given_back (p : IrrigationPlanner) (b : bool) (now : time_t)
    (hook : IrrigConfigUpdateHookFncPtr) (param : Z) :
  configMutex (fst (irrigConfigUpdated p now)) = configMutex p /\
  hookMutex (fst (irrigConfigUpdated p now)) = hookMutex p /\
  configMutex (fst (setConfigLock p b now)) = configMutex p /\
  hookMutex (fst (setConfigLock p b now)) = hookMutex p /\
  configMutex (fst (registerIrrigPlanUpdatedHook p hook param)) = configMutex p /\
  hookMutex (fst (registerIrrigPlanUpdatedHook p hook param)) = hookMutex p.
Proof.
  destruct (irrigConfigUpdated_members p now) as (_ & _ & _ & _ & _ & H6 & H7).
  split; [exact H6 |]. split; [exact H7 |].
  assert (Hset : configMutex (fst (setConfigLock p b now)) = configMutex p /\
                 hookMutex (fst (setConfigLock p b now)) = hookMutex p).
  { unfold setConfigLock.
    destruct (negb b && configUpdatedDuringLock (set_configLock p b));
      [| split; reflexivity].
    destruct (irrigConfigUpdated_members
                (set_configUpdatedDuringLock (set_configLock p b) false) now)
      as (_ & _ & _ & _ & _ & G6 & G7).
    rewrite G6, G7. split; reflexivity. }
  destruct Hset as [S1 S2]. split; [exact S1 |]. split; [exact S2 |].
  unfold registerIrrigPlanUpdatedHook.
  destruct (hookMutex p) eqn:Hh; cbn [fst];
    (split; [reflexivity | first [exact Hh | reflexivity]]).
Qed.

(** X15: [getConfigLock] returns what [setConfigLock] was last called
    with, also when releasing the lock runs the postponed update; taking
    the lock, or releasing it with no update postponed, makes no call
    and changes nothing but the lock. *)
Theorem setConfigLock_getConfigLock (p : IrrigationPlanner) (b : bool) (now : time_t) :
  getConfigLock (fst (setConfigLock p b now)) = b /\
  setConfigLock p true now = (set_configLock p true, []) /\
  (configUpdatedDuringLock p = false ->
   setConfigLock p false now = (set_configLock p false, [])).
Proof.
  split; [| split].
  - unfold getConfigLock, setConfigLock.
    destruct (negb b && configUpdatedDuringLock (set_configLock p b)) eqn:E;
      [| reflexivity].
    destruct (irrigConfigUpdated_members
                (set_configUpdatedDuringLock (set_configLock p b) false) now)
      as (_ & _ & G3 & _).
    rewrite G3. reflexivity.
  - reflexivity.
  - intros Hf. unfold setConfigLock.
    cbn [negb andb configUpdatedDuringLock set_configLock]. rewrite Hf. reflexivity.
Qed.

(** X16: a notification that cannot take the configuration mutex within
    the timeout is dropped: nothing is copied, no hook is called, the
    planner is unchanged.  When it is the postponed update that is
    dropped this way (the lock is released while the mutex is held
    elsewhere), the flag has already been cleared: the update is lost,
    and releasing the lock again later, with the mutex free, makes no
    call either. *)
Theorem update_dropped_on_config_mutex_timeout (p : IrrigationPlanner)
    (now now' : time_t) :
  configMutex p = true ->
  (configLock p = false -> irrigConfigUpdated p now = (p, [])) /\
  (configUpdatedDuringLock p = true ->
   let p' := fst (setConfigLock p false now) in
   snd (setConfigLock p false now) = [] /\
   configUpdatedDuringLock p' = false /\
   zones p' = zones p /\ events p' = events p /\ eventsUsed p' = eventsUsed p /\
   snd (setConfigLock (set_configMutex p' false) false now') = []).
Proof.
  intros Hm. split.
  - intros Hl. unfold irrigConfigUpdated. rewrite Hl, Hm. reflexivity.
  - intros Hf p'.
    assert (Hp : setConfigLock p false now =
                 (set_configUpdatedDuringLock (set_configLock p false) false, [])).
    { unfold setConfigLock.
      cbn [negb andb configUpdatedDuringLock set_configLock]. rewrite Hf.
      unfold irrigConfigUpdated.
      cbn [configLock configMutex set_configUpdatedDuringLock set_configLock].
      rewrite Hm. reflexivity. }
    subst p'. rewrite Hp. cbn [fst snd]. repeat split.
Qed.

(** X17: when only the hook mutex cannot be taken, the new
    configuration is copied all the same and no hook is called: the
    subscriber is not told about a configuration that is already live. *)
Theorem hook_skipped_on_hook_mutex_timeout (p : IrrigationPlanner) (now : time_t) :
  configLock p = false -> configMutex p = false -> hookMutex p = true ->
  snd (irrigConfigUpdated p now) = [CopyZonesAndEvents] /\
  zones (fst (irrigConfigUpdated p now)) =
    fst (fst (copyZonesAndEvents (zones p) (events p) (eventsUsed p))) /\
  eventsUsed (fst (irrigConfigUpdated p now)) =
    snd (copyZonesAndEvents (zones p) (events p) (eventsUsed p)).
Proof.
  intros Hl Hc Hh. unfold irrigConfigUpdated. rewrite Hl, Hc.
  cbn [zones events eventsUsed set_configMutex].
  destruct (copyZonesAndEvents (zones p) (events p) (eventsUsed p)) as [[z ev] used].
  cbn [hookMutex printAllEvents set_events set_zones set_configMutex].
  rewrite Hh. repeat split.
Qed.

(** X18: at most one hook is stored: a registration replaces the pair
    of the registration before it, so a reload that follows two
    registrations calls the second hook only, with the second
    parameter; a registration that cannot take the hook mutex returns
    [ERR_TIMEOUT] and keeps the planner as it is. *)
Theorem registration_replaces_hook (p : IrrigationPlanner)
    (f1 f2 : nat) (a1 a2 : Z) (now : time_t) :
  configLock p = false -> mutexesFree p ->
  let p1 := fst (registerIrrigPlanUpdatedHook p (Some f1) a1) in
  let p2 := fst (registerIrrigPlanUpdatedHook p1 (Some f2) a2) in
  snd (registerIrrigPlanUpdatedHook p (Some f1) a1) = ERR_OK /\
  snd (registerIrrigPlanUpdatedHook p1 (Some f2) a2) = ERR_OK /\
  snd (irrigConfigUpdated p1 now) = [CopyZonesAndEvents; HookCalled f1 a1] /\
  snd (irrigConfigUpdated p2 now) = [CopyZonesAndEvents; HookCalled f2 a2] /\
  forall h a, registerIrrigPlanUpdatedHook (set_hookMutex p true) h a =
              (set_hookMutex p true, ERR_TIMEOUT).
Proof.
  intros Hl [Hc Hh] p1 p2.
  assert (E1 : registerIrrigPlanUpdatedHook p (Some f1) a1 =
               (set_hookMutex (set_hook (set_hookMutex p true) (Some f1) a1) false,
                ERR_OK))
    by (unfold registerIrrigPlanUpdatedHook; rewrite Hh; reflexivity).
  assert (E2 : registerIrrigPlanUpdatedHook p1 (Some f2) a2 =
               (set_hookMutex (set_hook (set_hookMutex p1 true) (Some f2) a2) false,
                ERR_OK))
    by (subst p1; rewrite E1; reflexivity).
  assert (F1 : configLock p1 = false /\ mutexesFree p1)
    by (subst p1; rewrite E1; cbn [fst]; split; [exact Hl | split; [exact Hc | reflexivity]]).
  assert (F2 : configLock p2 = false /\ mutexesFree p2).
  { subst p2. rewrite E2. cbn [fst]. destruct F1 as [L1 [C1 _]].
    split; [exact L1 | split; [exact C1 | reflexivity]]. }
  split; [rewrite E1; reflexivity |]. split; [rewrite E2; reflexivity |].
  destruct F1 as [L1 M1], F2 as [L2 M2].
  destruct (irrigConfigUpdated_applies p1 now L1 M1) as (K1 & _).
  destruct (irrigConfigUpdated_applies p2 now L2 M2) as (K2 & _).
  split; [rewrite K1; subst p1; rewrite E1; reflexivity |].
  split; [rewrite K2; subst p2; rewrite E2; reflexivity |].
  intros h a. reflexivity.
Qed.

(** X19: an applied reload installs the zones and the used-flags as the
    settings manager delivers them, and the start events it delivers
    with [updateReferenceTime(now)] applied to every slot delivered as
    used (the effect of [printAllEvents]); slots delivered unused and
    cells at or beyond the capacity are installed as delivered. *)
Theorem reload_installs_configuration (p : IrrigationPlanner) (now : time_t) :
  configLock p = false -> mutexesFree p ->
  let fresh := copyZonesAndEvents (zones p) (events p) (eventsUsed p) in
  let p' := fst (irrigConfigUpdated p now) in
  zones p' = fst (fst fresh) /\
  eventsUsed p' = snd fresh /\
  (forall j, events p' j =
             updatedList now (snd (fst fresh)) (snd fresh)
                         irrigationPlannerNumEvents j) /\
  (forall j, snd fresh j = false \/ (irrigationPlannerNumEvents <= j)%nat ->
             events p' j = snd (fst fresh) j).
Proof.
  intros Hl Hm fresh p'.
  destruct (irrigConfigUpdated_applies p now Hl Hm) as (_ & Hz & Hu & He & _).
  fold fresh p' in Hz, Hu, He.
  assert (Hev : forall j, events p' j =
                          updatedList now (snd (fst fresh)) (snd fresh)
                                      irrigationPlannerNumEvents j)
    by (intros j; rewrite He; apply printAllEvents_loop_spec).
  split; [exact Hz |]. split; [exact Hu |]. split; [exact Hev |].
  intros j Hj. rewrite Hev. now apply updatedList_unused.
Qed.

(** *** Ties in [getNextEventIdx] *)

Section NextEventIdxTies.

Variable startTime : time_t.
Variable eventList : array IrrigationEvent.
Variable eventUsedList : array bool.

Local Notation occ := (occurrenceAt startTime eventList).
Local Notation loop := (getNextEventIdx_loop startTime eventList eventUsedList).

(** The candidate after one more iteration: slot [n] replaces it only
    when it is used, has a valid occurrence and that occurrence is
    strictly earlier than the candidate's. *)
Lemma getNextEventIdx_loop_candidate (n : nat) :
  nextEvent (loop (S n)) =
  if eventUsedList n && negb (occ n =? 0) &&
     match nextEvent (loop n) with
     | Some q => occ n <? occ q
     | None => true
     end
  then Some n else nextEvent (loop n).
Proof.
  cbn [getNextEventIdx_loop].
  destruct (getNextEventIdx_loop_invariant startTime eventList eventUsedList n)
    as [Hl Hn].
  set (s := loop n) in *.
  assert (Hcur : scanList s n = eventList n)
    by (rewrite Hl; apply updatedList_below; lia).
  unfold getNextEventIdx_body.
  destruct (eventUsedList n) eqn:Hu; cbn [andb];
    [| destruct (nextEvent s) eqn:E; rewrite ?E; reflexivity].
  destruct (nextEvent s) as [q |] eqn:Hq; cbv zeta.
  - destruct Hn as (_ & Hqn & Hqu & Hqo & _).
    assert (Hatq : upd (scanList s) n
                     (updateReferenceTime (scanList s n) startTime) q =
                   updateReferenceTime (eventList q) startTime).
    { rewrite upd_other by lia. rewrite (Hl q). unfold updatedList.
      replace (q <? n)%nat with true by (symmetry; apply Nat.ltb_lt; lia).
      rewrite Hqu. reflexivity. }
    rewrite Hatq, upd_same, Hcur. fold (occ n).
    destruct (Z.eqb_spec (occ n) 0) as [Hz | Hnz]; cbn [negb andb];
      [reflexivity |].
    rewrite eventLt_valid by assumption. fold (occ n). fold (occ q).
    destruct (occ n <? occ q); reflexivity.
  - rewrite upd_same, Hcur. fold (occ n).
    destruct (Z.eqb_spec (occ n) 0); reflexivity.
Qed.

Lemma getNextEventIdx_loop_earliest_slot (n : nat) :
  match nextEvent (loop n) with
  | Some q => forall j, (j < q)%nat -> eventUsedList j = true -> occ j <> 0 ->
                        occ q < occ j
  | None => True
  end.
Proof.
  induction n as [| n IH]; [exact I |].
  rewrite getNextEventIdx_loop_candidate.
  destruct (getNextEventIdx_loop_invariant startTime eventList eventUsedList n)
    as [_ Hn].
  destruct (eventUsedList n) eqn:Hu; cbn [andb]; [| exact IH].
  destruct (Z.eqb_spec (occ n) 0) as [Hz | Hnz]; cbn [negb andb]; [exact IH |].
  destruct (nextEvent (loop n)) as [q |].
  - destruct Hn as (_ & Hqn & _ & _ & Hmin).
    destruct (Z.ltb_spec (occ n) (occ q)) as [Hlt | Hge]; [| exact IH].
    intros j Hj Huj Hoj. specialize (Hmin j Hj Huj Hoj). lia.
  - destruct Hn as (_ & Hnone).
    intros j Hj Huj Hoj. exfalso. apply Hoj. now apply Hnone.
Qed.

(** X20: when [getNextEventIdx] returns an index (a value that is not
    negative), it names a used slot of the list with a valid
    occurrence that no used slot undercuts, and among the used slots
    due at that same time it is the one with the lowest index: on a
    tie the earlier slot wins. *)
Theorem getNextEventIdx_lowest_index_wins (n : nat) :
  let i := snd (getNextEventIdx startTime eventList eventUsedList n) in
  0 <= i ->
  (Z.to_nat i < n)%nat /\
  eventUsedList (Z.to_nat i) = true /\
  occ (Z.to_nat i) <> 0 /\
  (forall j, (j < n)%nat -> eventUsedList j = true -> occ j <> 0 ->
             occ (Z.to_nat i) <= occ j) /\
  (forall j, (j < n)%nat -> eventUsedList j = true ->
             occ j = occ (Z.to_nat i) -> (Z.to_nat i <= j)%nat).
Proof.
  intros i Hi. subst i. unfold getNextEventIdx in *. cbn [snd] in *.
  destruct (getNextEventIdx_loop_invariant startTime eventList eventUsedList n)
    as [_ Hn].
  pose proof (getNextEventIdx_loop_earliest_slot n) as He.
  destruct (nextEvent (loop n)) as [q |].
  - destruct Hn as (Hidx & Hqn & Hqu & Hqo & Hmin).
    rewrite Hidx, Nat2Z.id.
    split; [exact Hqn |]. split; [exact Hqu |]. split; [exact Hqo |].
    split; [exact Hmin |].
    intros j Hj Huj Hoj.
    destruct (Nat.le_gt_cases q j) as [Hle | Hgt]; [exact Hle |].
    assert (Hv : occ j <> 0) by (rewrite Hoj; exact Hqo).
    specialize (He j Hgt Huj Hv). lia.
  - destruct Hn as (Hidx & _). rewrite Hidx in Hi. lia.
Qed.

End NextEventIdxTies.

(* ------------------------------------------------------------------ *)
(** ** The invariant of the pools *)

Lemma cacheCoherent_updateReferenceTime (e : IrrigationEvent) (t : time_t) :
  cacheCoherent (updateReferenceTime e t) = true.
Proof.
  unfold cacheCoherent, updateReferenceTime, getNextOccurance, getReferenceTime.
  cbn [nextOccurance eventRecurrence referenceTime]. apply Z.eqb_refl.
Qed.

Lemma isStopEvent_updateReferenceTime (e : IrrigationEvent) (t : time_t) :
  isStopEvent e = true -> isStopEvent (updateReferenceTime e t) = true.
Proof.
  unfold isStopEvent. rewrite cacheCoherent_updateReferenceTime.
  cbn [updateReferenceTime eventRecurrence eventData].
  intros H. apply andb_prop in H. destruct H as [H _]. rewrite H. reflexivity.
Qed.

(** Allocating a stop slot rewrites every member of the event in it:
    the event written does not depend on what the slot held, and it is a
    complete stop-event definition. *)
Lemma stopEventFor_complete (ev : IrrigationEvent) (d : irrigation_event_data_t)
    (slot slot' : IrrigationEvent) :
  stopEventFor ev d slot = stopEventFor ev d slot' /\
  isStopEvent (stopEventFor ev d slot) = true.
Proof.
  split; [reflexivity |].
  unfold isStopEvent, stopEventFor. cbv zeta.
  rewrite cacheCoherent_updateReferenceTime. reflexivity.
Qed.

(** What [confirmEvent] does to the stop pool: nothing, or it frees the
    used slot [k] a stop handle names, or it takes the free slot [k] for
    a start handle. *)
Lemma confirmEvent_stop_pool (p : IrrigationPlanner) (h : event_handle_t) :
  let p' := fst (confirmEvent p h) in
  let ev := events p (Z.to_nat (idx h)) in
  (stopEvents p' = stopEvents p /\ stopEventsUsed p' = stopEventsUsed p) \/
  (exists k, (k < irrigationPlannerNumStopEvents)%nat /\
             stopEventsUsed p k = true /\ isStartHandle h = false /\
             stopEvents p' = stopEvents p /\
             stopEventsUsed p' = upd (stopEventsUsed p) k false) \/
  (exists k, (k < irrigationPlannerNumStopEvents)%nat /\
             stopEventsUsed p k = false /\ isStartHandle h = true /\
             stopEventsUsed p' = upd (stopEventsUsed p) k true /\
             match IrrigationEvent_getEventData ev with
             | Some d => stopEvents p' =
                         upd (stopEvents p) k (stopEventFor ev d (stopEvents p k))
             | None => stopEvents p' = stopEvents p
             end).
Proof.
  intros p' ev. subst p' ev. unfold confirmEvent.
  destruct (Z.ltb_spec (idx h) 0) as [Hneg | Hpos]; [left; split; reflexivity |].
  destruct (isStartHandle h).
  - destruct (Z.of_nat irrigationPlannerNumEvents <=? idx h);
      [left; split; reflexivity |].
    destruct (eventsUsed p (Z.to_nat (idx h))); cbn [negb];
      [| left; split; reflexivity].
    destruct (confirmNormalEvent_unfold p (Z.to_nat (idx h)))
      as (_ & Hse & Hsu & _ & _).
    destruct (confirmNormalEvent p (Z.to_nat (idx h))) as [p' ok].
    cbn [fst] in Hse, Hsu.
    assert (Hfst : fst (if negb ok then (p', ERR_NO_STOP_SLOT_AVAIL) else (p', ERR_OK))
                   = p') by (destruct ok; reflexivity).
    rewrite Hfst, Hse, Hsu. unfold stopSlotSearch.
    destruct (firstFree (stopEventsUsed p) irrigationPlannerNumStopEvents)
      as [k |] eqn:F; [| left; split; reflexivity].
    apply firstFree_Some in F. destruct F as (Hk & Hf & _).
    right. right. exists k. unfold confirmNormalEvent_body.
    cbn [cStopEventsUsed cStopEvents]. rewrite Hf. cbn [negb].
    destruct (IrrigationEvent_getEventData (events p (Z.to_nat (idx h))));
      cbn [cStopEventsUsed cStopEvents]; repeat split; auto.
  - destruct (Z.leb_spec (Z.of_nat irrigationPlannerNumStopEvents) (idx h))
      as [Hout | Hin]; [left; split; reflexivity |].
    destruct (stopEventsUsed p (Z.to_nat (idx h))) eqn:Hu; cbn [negb];
      [| left; split; reflexivity].
    right. left. exists (Z.to_nat (idx h)). cbn [fst]. unfold confirmStopEvent.
    repeat split; auto. lia.
Qed.

(** What [confirmEvent] does to the start pool: the events stay, and no
    slot becomes used. *)
Lemma confirmEvent_start_pool_any (p : IrrigationPlanner) (h : event_handle_t) :
  events (fst (confirmEvent p h)) = events p /\
  forall j, eventsUsed (fst (confirmEvent p h)) j = true -> eventsUsed p j = true.
Proof.
  unfold confirmEvent.
  destruct (idx h <? 0); [split; auto |].
  destruct (isStartHandle h).
  - destruct (Z.of_nat irrigationPlannerNumEvents <=? idx h); [split; auto |].
    destruct (eventsUsed p (Z.to_nat (idx h))); cbn [negb]; [| split; auto].
    destruct (confirmNormalEvent_unfold p (Z.to_nat (idx h)))
      as (_ & _ & _ & He & Hu).
    destruct (confirmNormalEvent p (Z.to_nat (idx h))) as [p' ok].
    cbn [fst] in He, Hu.
    assert (Hfst : fst (if negb ok then (p', ERR_NO_STOP_SLOT_AVAIL) else (p', ERR_OK))
                   = p') by (destruct ok; reflexivity).
    rewrite Hfst, He, Hu. split; [reflexivity |]. intros j.
    destruct (irrigationPlannerNumNormalEvents <=? Z.to_nat (idx h))%nat; [| auto].
    unfold upd. destruct (Nat.eqb j (Z.to_nat (idx h))); [discriminate | auto].
  - destruct (Z.of_nat irrigationPlannerNumStopEvents <=? idx h); [split; auto |].
    destruct (stopEventsUsed p (Z.to_nat (idx h))); split; auto.
Qed.

(** What one operation can do to a stop slot: leave it; refresh the
    cache of a used slot; free a used slot; or take a free slot, which
    is then written with the stop event of the confirmed start event
    (left as it is on the error branch of the data read). *)
Lemma stateAfter_stop_slot (p : IrrigationPlanner) (o : operation) (j : nat) :
  let p' := stateAfter p o in
  (stopEventsUsed p' j = stopEventsUsed p j /\ stopEvents p' j = stopEvents p j) \/
  ((j < irrigationPlannerNumStopEvents)%nat /\
   stopEventsUsed p j = true /\ stopEventsUsed p' j = true /\
   exists t, stopEvents p' j = updateReferenceTime (stopEvents p j) t) \/
  ((j < irrigationPlannerNumStopEvents)%nat /\
   stopEventsUsed p j = true /\ stopEventsUsed p' j = false /\
   stopEvents p' j = stopEvents p j) \/
  ((j < irrigationPlannerNumStopEvents)%nat /\
   stopEventsUsed p j = false /\ stopEventsUsed p' j = true /\
   exists h, o = ConfirmEvent h /\
     match IrrigationEvent_getEventData (events p (Z.to_nat (idx h))) with
     | Some d => stopEvents p' j =
                 stopEventFor (events p (Z.to_nat (idx h))) d (stopEvents p j)
     | None => stopEvents p' j = stopEvents p j
     end).
Proof.
  intros p'. subst p'.
  destruct o as [t e | t dest m | h dest | h | i | b now | | now | hook param];
    cbn [stateAfter]; try (left; split; reflexivity).
  - destruct (getNextEventTime_scan p t e) as (_ & _ & Hsev & _ & Hsu).
    rewrite Hsev, Hsu. unfold updatedList.
    destruct (Nat.ltb_spec j irrigationPlannerNumStopEvents) as [Hj | Hj];
      cbn [andb]; [| left; split; reflexivity].
    destruct (stopEventsUsed p j) eqn:Hu; [| left; split; reflexivity].
    right. left. repeat split; auto. now exists (searchFloor t e).
  - destruct (confirmEvent_stop_pool p h)
      as [[He Hu] | [(k & Hk & Hused & _ & He & Hu) | (k & Hk & Hfree & _ & Hu & He)]].
    + left. rewrite He, Hu. split; reflexivity.
    + rewrite He, Hu. destruct (Nat.eq_dec j k) as [-> | Hne].
      * right. right. left. rewrite upd_same. repeat split; auto.
      * left. rewrite upd_other by exact Hne. split; reflexivity.
    + rewrite Hu. destruct (Nat.eq_dec j k) as [-> | Hne].
      * right. right. right. rewrite upd_same. repeat split; auto.
        exists h. split; [reflexivity |].
        destruct (IrrigationEvent_getEventData (events p (Z.to_nat (idx h))));
          rewrite He; [apply upd_same | reflexivity].
      * left. rewrite upd_other by exact Hne. split; [reflexivity |].
        destruct (IrrigationEvent_getEventData (events p (Z.to_nat (idx h))));
          rewrite He; [apply upd_other; exact Hne | reflexivity].
  - left. unfold setConfigLock.
    destruct (negb b && configUpdatedDuringLock (set_configLock p b));
      [| split; reflexivity].
    destruct (irrigConfigUpdated_members
                (set_configUpdatedDuringLock (set_configLock p b) false) now)
      as (G1 & G2 & _).
    rewrite G1, G2. split; reflexivity.
  - left. destruct (irrigConfigUpdated_members p now) as (G1 & G2 & _).
    rewrite G1, G2. split; reflexivity.
  - left. unfold registerIrrigPlanUpdatedHook.
    destruct (hookMutex p); split; reflexivity.
Qed.

(** What a notification does to the start pool: nothing (deferred, or
    dropped on the mutex timeout), or it installs what the settings
    manager delivers, the used slots brought to [now]. *)
Lemma irrigConfigUpdated_start_pool (p : IrrigationPlanner) (now : time_t) :
  let fresh := copyZonesAndEvents (zones p) (events p) (eventsUsed p) in
  let p' := fst (irrigConfigUpdated p now) in
  (events p' = events p /\ eventsUsed p' = eventsUsed p) \/
  (eventsUsed p' = snd fresh /\
   forall j, events p' j =
             updatedList now (snd (fst fresh)) (snd fresh) irrigationPlannerNumEvents j).
Proof.
  intros fresh p'. subst p'. unfold irrigConfigUpdated.
  destruct (configLock p); [left; split; reflexivity |].
  destruct (configMutex p); [left; split; reflexivity |].
  cbn [zones events eventsUsed set_configMutex]. fold fresh.
  destruct fresh as [[z ev] used].
  cbn [hookMutex printAllEvents set_events set_zones set_configMutex].
  right. destruct (hookMutex p);
    cbn [fst snd events eventsUsed set_configMutex set_hookMutex set_events set_zones];
    (split; [reflexivity | intros j; apply printAllEvents_loop_spec]).
Qed.

(** What one operation can do to a start slot: leave its event without
    setting its flag; refresh the cache of a used slot; or install what
    the settings manager delivers for it. *)
Lemma stateAfter_start_slot (p : IrrigationPlanner) (o : operation) (j : nat) :
  let fresh := copyZonesAndEvents (zones p) (events p) (eventsUsed p) in
  let p' := stateAfter p o in
  (events p' j = events p j /\ (eventsUsed p' j = true -> eventsUsed p j = true)) \/
  (eventsUsed p j = true /\ exists t, events p' j = updateReferenceTime (events p j) t) \/
  (eventsUsed p' j = snd fresh j /\
   exists now, events p' j =
               updatedList now (snd (fst fresh)) (snd fresh) irrigationPlannerNumEvents j).
Proof.
  intros fresh p'. subst p'.
  destruct o as [t e | t dest m | h dest | h | i | b now | | now | hook param];
    cbn [stateAfter]; try (left; split; auto; fail).
  - destruct (getNextEventTime_scan p t e) as (_ & Hev & _ & Hu & _).
    rewrite Hev, Hu. unfold updatedList.
    destruct (j <? irrigationPlannerNumEvents)%nat; cbn [andb]; [| left; split; auto].
    destruct (eventsUsed p j) eqn:Huj; [| left; split; auto].
    right. left. split; [reflexivity |]. now exists (searchFloor t e).
  - left. destruct (confirmEvent_start_pool_any p h) as [He Hu].
    rewrite He. split; [reflexivity | apply Hu].
  - unfold setConfigLock.
    destruct (negb b && configUpdatedDuringLock (set_configLock p b));
      [| left; split; auto].
    destruct (irrigConfigUpdated_start_pool
                (set_configUpdatedDuringLock (set_configLock p b) false) now)
      as [[He Hu] | [Hu He]].
    + left. rewrite He, Hu. split; auto.
    + right. right. rewrite Hu. split; [reflexivity |]. exists now. apply He.
  - destruct (irrigConfigUpdated_start_pool p now) as [[He Hu] | [Hu He]].
    + left. rewrite He, Hu. split; auto.
    + right. right. rewrite Hu. split; [reflexivity |]. exists now. apply He.
  - left. unfold registerIrrigPlanUpdatedHook. destruct (hookMutex p); split; auto.
Qed.

(** C7: the invariant of the pools is preserved by every operation.
    The number of used stop slots never exceeds the capacity of the stop
    pool, and no operation writes a stop slot at or beyond it.
    Stop-slot allocation in [confirmEvent] never overwrites a slot whose
    used-flag is already true and keeps that flag set; with every slot
    used it fails closed with [ERR_NO_STOP_SLOT_AVAIL] and leaves the
    stop pool as it is.  No event is written in part: after the
    operation a stop slot holds the event it held, that event with its
    cache refreshed, or a stop event every member of which was written
    (it does not depend on what the slot held); a start slot holds the
    event it held, that event with its cache refreshed, or the event the
    settings manager delivered for it.  And every used slot holds a
    valid event after the operation if it did before: a used stop slot a
    complete stop-event definition, a used start slot a definition the
    settings manager delivered as valid, each with the cache that
    belongs to it; this holds where [IrrigationEvent::getEventData]
    reports [ERR_OK] for the planner's local buffer and the settings
    manager keeps its guarantee. *)
Theorem pool_invariant_preserved
    (validDefinition : irrigation_event_data_t -> recurrence -> Prop)
    (p : IrrigationPlanner) (o : operation) :
  let p' := stateAfter p o in
  let fresh := copyZonesAndEvents (zones p) (events p) (eventsUsed p) in
  (usedCount (stopEventsUsed p') irrigationPlannerNumStopEvents
     <= irrigationPlannerNumStopEvents)%nat /\
  (forall j, (irrigationPlannerNumStopEvents <= j)%nat ->
     stopEventsUsed p' j = stopEventsUsed p j /\ stopEvents p' j = stopEvents p j) /\
  (forall h j, stopEventsUsed p j = true ->
     stopEvents (fst (confirmEvent p h)) j = stopEvents p j /\
     (isStartHandle h = true -> stopEventsUsed (fst (confirmEvent p h)) j = true)) /\
  (forall h, validStartHandle p h ->
     (forall j, (j < irrigationPlannerNumStopEvents)%nat -> stopEventsUsed p j = true) ->
     snd (confirmEvent p h) = ERR_NO_STOP_SLOT_AVAIL /\
     forall j, stopEventsUsed (fst (confirmEvent p h)) j = stopEventsUsed p j /\
               stopEvents (fst (confirmEvent p h)) j = stopEvents p j) /\
  (forall j,
     stopEvents p' j = stopEvents p j \/
     (exists t, stopEvents p' j = updateReferenceTime (stopEvents p j) t) \/
     (exists ev d, forall slot, stopEvents p' j = stopEventFor ev d slot)) /\
  (forall j,
     events p' j = events p j \/
     (exists t, events p' j = updateReferenceTime (events p j) t) \/
     events p' j = snd (fst fresh) j \/
     (exists now, events p' j = updateReferenceTime (snd (fst fresh) j) now)) /\
  ((forall e, eventDataReadable e = true) ->
   deliversValid validDefinition ->
   slotsValid validDefinition p -> slotsValid validDefinition p').
Proof.
  intros p' fresh. split; [apply usedCount_le_capacity |].
  split; [| split; [| split; [| split; [| split]]]].
  - intros j Hj. subst p'.
    destruct (stateAfter_stop_slot p o j)
      as [H | [(Hlt & _) | [(Hlt & _) | (Hlt & _)]]]; [exact H | lia | lia | lia].
  - intros h j Hused.
    destruct (confirmEvent_stop_pool p h)
      as [[He Hu] | [(k & _ & _ & Hstop & He & Hu) | (k & _ & Hfree & _ & Hu & He)]].
    + rewrite He, Hu. split; [reflexivity | intros _; exact Hused].
    + rewrite He. split; [reflexivity |]. intros Hs. congruence.
    + assert (Hne : j <> k) by (intros ->; congruence).
      rewrite Hu, upd_other by exact Hne. split; [| intros _; exact Hused].
      destruct (IrrigationEvent_getEventData (events p (Z.to_nat (idx h))));
        rewrite He; [apply upd_other; exact Hne | reflexivity].
  - intros h Hv Hfull. rewrite (confirmEvent_start p h Hv). cbn [fst snd].
    destruct (confirmNormalEvent_unfold p (Z.to_nat (idx h)))
      as (Hret & Hse & Hsu & _ & _).
    apply firstFree_None in Hfull.
    rewrite Hret, Hse, Hsu. unfold stopSlotSearch. rewrite Hfull.
    cbn [cRet cStopEvents cStopEventsUsed]. repeat split; reflexivity.
  - intros j. subst p'.
    destruct (stateAfter_stop_slot p o j)
      as [[_ He] | [(_ & _ & _ & t & He) | [(_ & _ & _ & He) | (_ & _ & _ & h & _ & He)]]].
    + left. exact He.
    + right. left. exists t. exact He.
    + left. exact He.
    + destruct (IrrigationEvent_getEventData (events p (Z.to_nat (idx h))))
        as [d |]; [| left; exact He].
      right. right. exists (events p (Z.to_nat (idx h))), d. intros slot.
      rewrite He. apply stopEventFor_complete.
  - intros j. subst p'.
    destruct (stateAfter_start_slot p o j)
      as [[He _] | [(_ & t & He) | (_ & now & He)]].
    + left. exact He.
    + right. left. exists t. exact He.
    + right. right. fold fresh in He. rewrite He. unfold updatedList.
      destruct ((j <? irrigationPlannerNumEvents)%nat && snd fresh j);
        [right; exists now; reflexivity | left; reflexivity].
  - intros Hread Hdeliver [Hstop Hstart]. split.
    + intros j Hj Hused'. subst p'.
      destruct (stateAfter_stop_slot p o j)
        as [[Hu He] | [(_ & Hu & _ & t & He) | [(_ & _ & Hu & _) | (_ & _ & _ & h & _ & He)]]].
      * rewrite He. apply Hstop; [exact Hj | rewrite <- Hu; exact Hused'].
      * rewrite He. apply isStopEvent_updateReferenceTime, Hstop; assumption.
      * congruence.
      * unfold IrrigationEvent_getEventData in He. rewrite Hread in He.
        rewrite He. apply stopEventFor_complete. exact (stopEvents p j).
    + intros j Hj Hused'. subst p'.
      destruct (stateAfter_start_slot p o j)
        as [[He Hu] | [(Hu & t & He) | (Hu & now & He)]].
      * rewrite He. apply Hstart; [exact Hj | apply Hu; exact Hused'].
      * rewrite He. destruct (Hstart j Hj Hu) as [Hvalid _].
        split; [exact Hvalid | apply cacheCoherent_updateReferenceTime].
      * rewrite Hu in Hused'. rewrite He. unfold updatedList.
        replace (j <? irrigationPlannerNumEvents)%nat with true
          by (symmetry; apply Nat.ltb_lt; exact Hj).
        rewrite Hused'. cbn [andb].
        split; [| apply cacheCoherent_updateReferenceTime].
        cbn [updateReferenceTime eventData eventRecurrence].
        apply Hdeliver; [| exact Hj | exact Hused'].
        intros i Hi Hui. apply (Hstart i Hi Hui).
Qed.

(** The constructor establishes the invariant: no slot is used. *)
Lemma constructor_establishes_invariant
    (validDefinition : irrigation_event_data_t -> recurrence -> Prop)
    (mem : IrrigationPlanner) (now : time_t) :
  slotsValid validDefinition (IrrigationPlanner_new mem now).
Proof.
  assert (Hs : forall j, (j < irrigationPlannerNumStopEvents)%nat ->
                         stopEventsUsed (IrrigationPlanner_new mem now) j = false).
  { intros j Hj. unfold IrrigationPlanner_new, printAllEvents, clearStorage.
    cbn [stopEventsUsed set_hookMutex set_configMutex set_hook set_events
         set_stopEvents set_zones].
    rewrite clearFlags_spec.
    replace (j <? irrigationPlannerNumStopEvents)%nat with true
      by (symmetry; apply Nat.ltb_lt; exact Hj).
    reflexivity. }
  assert (He : forall j, (j < irrigationPlannerNumEvents)%nat ->
                         eventsUsed (IrrigationPlanner_new mem now) j = false).
  { intros j Hj. unfold IrrigationPlanner_new, printAllEvents, clearStorage.
    cbn [eventsUsed set_hookMutex set_configMutex set_hook set_events
         set_stopEvents set_zones].
    rewrite clearFlags_spec.
    replace (j <? irrigationPlannerNumEvents)%nat with true
      by (symmetry; apply Nat.ltb_lt; exact Hj).
    reflexivity. }
  split; intros j Hj Hused; [rewrite Hs in Hused by exact Hj
                            | rewrite He in Hused by exact Hj]; discriminate.
Qed.

End Planner.

(* ------------------------------------------------------------------ *)
(** ** The planner on the concrete controller *)

Local Notation utcNextEventTime :=
  (getNextEventTime Calendar.utc_localtime_r Calendar.utc_mktime
                    Sample.numEvents Sample.numStopEvents).
Local Notation utcConfirmEvent :=
  (confirmEvent Calendar.utc_localtime_r Calendar.utc_mktime Sample.numEvents
                Sample.numNormalEvents Sample.numStopEvents).
Local Notation cetConfirmEvent :=
  (confirmEvent Calendar.cet_localtime_r Calendar.cet_mktime Sample.numEvents
                Sample.numNormalEvents Sample.numStopEvents).
Local Notation sampleEventHandles :=
  (getEventHandles Sample.numEvents Sample.numStopEvents).
Local Notation utcConfigUpdated :=
  (irrigConfigUpdated Calendar.utc_localtime_r Calendar.utc_mktime Sample.numEvents
                      Sample.keepConfig).
Local Notation utcSetConfigLock :=
  (setConfigLock Calendar.utc_localtime_r Calendar.utc_mktime Sample.numEvents
                 Sample.keepConfig).
Local Notation utcNotifyTimes :=
  (notifyTimes Calendar.utc_localtime_r Calendar.utc_mktime Sample.numEvents
               Sample.keepConfig).
Local Notation utcSlotsValid :=
  (slotsValid Calendar.utc_localtime_r Calendar.utc_mktime Sample.numEvents
              Sample.numStopEvents).
Local Notation utcStateAfter :=
  (stateAfter Calendar.utc_localtime_r Calendar.utc_mktime Sample.numEvents
              Sample.numNormalEvents Sample.numStopEvents Sample.readable
              Sample.keepConfig).

(** The caches of the sample events are what the recurrence engine
    computes from their reference times. *)
Example sample_caches_coherent :
  updateReferenceTime Calendar.utc_localtime_r Calendar.utc_mktime
                      Sample.oneShot 1688166000 = Sample.oneShot /\
  updateReferenceTime Calendar.cet_localtime_r Calendar.cet_mktime
                      Sample.springEvent 1679788800 = Sample.springEvent /\
  updateReferenceTime Calendar.utc_localtime_r Calendar.utc_mktime
                      Sample.exhausted 5000 = Sample.exhausted /\
  updateReferenceTime Calendar.utc_localtime_r Calendar.utc_mktime
                      (Sample.startAt 0 50 0 1 30) 0 = Sample.startAt 0 50 0 1 30.
Proof. repeat split; vm_compute; reflexivity. Qed.

(** [getNextEventTime] on the day planner: the stop event at 2000 s is
    next from 1500 s, the start event at 5000 s from 3500 s, nothing
    from 6000 s; the unused slot at 1000 s never counts. *)
Example getNextEventTime_day :
  snd (utcNextEventTime Sample.dayPlanner 500 false) = 2000 /\
  snd (utcNextEventTime Sample.dayPlanner 1500 false) = 2000 /\
  snd (utcNextEventTime Sample.dayPlanner 2000 false) = 2000 /\
  snd (utcNextEventTime Sample.dayPlanner 3500 false) = 5000 /\
  snd (utcNextEventTime Sample.dayPlanner 6000 false) = 0.
Proof. repeat split; vm_compute; reflexivity. Qed.

(** Witness of C6: asked at 2000 s with the start time excluded, the
    day planner skips the stop event due at 2000 s and answers 3000 s. *)
Lemma getNextEventTime_excludes_startTime_witness :
  Calendar.utc_mktime (tm_add_sec (Calendar.utc_localtime_r 2000) 1) = 2000 + 1 /\
  snd (utcNextEventTime Sample.dayPlanner 2000 true) = 3000 /\
  2000 < snd (utcNextEventTime Sample.dayPlanner 2000 true) /\
  snd (utcNextEventTime Sample.dayPlanner 2000 true) <> 2000.
Proof.
  assert (Hrt : Calendar.utc_mktime (tm_add_sec (Calendar.utc_localtime_r 2000) 1)
                = 2000 + 1) by (vm_compute; reflexivity).
  assert (Hlive : allLiveOccurrences Calendar.utc_localtime_r Calendar.utc_mktime
                    Sample.numEvents Sample.numStopEvents Sample.dayPlanner (2000 + 1)
                  <> []) by (intros E; vm_compute in E; discriminate E).
  destruct (getNextEventTime_excludes_startTime
              Calendar.utc_localtime_r Calendar.utc_mktime
              Sample.numEvents Sample.numStopEvents Sample.dayPlanner 2000 Hrt Hlive)
    as (_ & _ & Hlt & Hne).
  split; [exact Hrt |]. split; [vm_compute; reflexivity |].
  split; [exact Hlt | exact Hne].
Defined.

(** The one-second step of the search floor is exact across the
    beginning and the end of summer time: the daylight-saving flag that
    [localtime_r] reports is kept for [mktime]. *)
Example searchFloor_across_dst :
  searchFloor Calendar.cet_localtime_r Calendar.cet_mktime
              (Calendar.cet_dst_begin - 1) true = Calendar.cet_dst_begin /\
  searchFloor Calendar.cet_localtime_r Calendar.cet_mktime
              (Calendar.cet_dst_end - 1) true = Calendar.cet_dst_end.
Proof. split; vm_compute; reflexivity. Qed.

(** Witness of C3: with 8 zones of 4 channel slots each, zone 4 is
    refused. *)
Lemma getZoneConfig_refuses_zone_witness :
  (Sample.zoneCfgElements < Sample.numZones)%nat /\
  getZoneConfig Sample.numZones Sample.zoneCfgElements Sample.dayPlanner 4 =
  (ERR_INVALID_ZONE_IDX, CfgUntouched).
Proof.
  assert (H : (Sample.zoneCfgElements < Sample.numZones)%nat)
    by (unfold Sample.zoneCfgElements, Sample.numZones; lia).
  split; [exact H |].
  exact (getZoneConfig_refuses_zone Sample.numZones Sample.zoneCfgElements
                                    Sample.dayPlanner H).
Defined.

(** Zones 4 to 7 of that controller cannot be read, zone 3 can; with 4
    zones of 8 channel slots each, index 4 is accepted and read past
    the array. *)
Example getZoneConfig_on_sample :
  fst (getZoneConfig 8 4 Sample.dayPlanner 3) = ERR_OK /\
  fst (getZoneConfig 8 4 Sample.dayPlanner 5) = ERR_INVALID_ZONE_IDX /\
  fst (getZoneConfig 8 4 Sample.dayPlanner 7) = ERR_INVALID_ZONE_IDX /\
  getZoneConfig 4 8 Sample.dayPlanner 4 = (ERR_OK, CfgReadPastArray).
Proof. repeat split; reflexivity. Qed.

Lemma sample_one_shot_handle_valid (p : IrrigationPlanner) :
  eventsUsed p 2%nat = true ->
  validStartHandle Sample.numEvents p (mkHandle 2 true).
Proof.
  intros H. unfold validStartHandle, Sample.numEvents. cbn [idx isStartHandle].
  repeat split; try lia; try reflexivity. exact H.
Defined.

(** Witness of C4: the one-shot start event in slot 2 is retired
    although both stop slots are in use, and the call reports
    [ERR_NO_STOP_SLOT_AVAIL]. *)
Lemma confirmEvent_retires_one_shot_witness :
  validStartHandle Sample.numEvents Sample.fullStopPlanner (mkHandle 2 true) /\
  eventsUsed (fst (utcConfirmEvent Sample.readable Sample.fullStopPlanner
                                   (mkHandle 2 true))) 2%nat = false /\
  snd (utcConfirmEvent Sample.readable Sample.fullStopPlanner (mkHandle 2 true)) =
  ERR_NO_STOP_SLOT_AVAIL.
Proof.
  assert (Hv : validStartHandle Sample.numEvents Sample.fullStopPlanner
                                (mkHandle 2 true))
    by (apply sample_one_shot_handle_valid; reflexivity).
  assert (Hone : Z.of_nat Sample.numNormalEvents <= idx (mkHandle 2 true))
    by (unfold Sample.numNormalEvents; cbn [idx]; lia).
  assert (Hfull : forall j, (j < Sample.numStopEvents)%nat ->
                            stopEventsUsed Sample.fullStopPlanner j = true).
  { unfold Sample.numStopEvents. intros j Hj.
    destruct j as [| [| j]]; [reflexivity | reflexivity | lia]. }
  destruct (confirmEvent_retires_one_shot
              Calendar.utc_localtime_r Calendar.utc_mktime Sample.numEvents
              Sample.numNormalEvents Sample.numStopEvents Sample.readable
              Sample.fullStopPlanner (mkHandle 2 true) Hv) as [Hret Hno].
  split; [exact Hv |]. split; [exact (Hret Hone) | exact (proj1 (Hno Hfull))].
Defined.



(** A duration that does not fit [tm_sec]: 30 + 2147483647 is reduced
    to -2147483619, and the stop event of the event due on 2023-06-30
    is dated 1955-06-12; it has no occurrence. *)
Example confirmEvent_duration_overflow :
  (tm_sec (tm_add_sec (Calendar.utc_localtime_r 1688169570) 2147483647) = -2147483619) /\
  snd (utcConfirmEvent Sample.readable Sample.endlessPlanner (mkHandle 2 true)) = ERR_OK /\
  eventRecurrence (stopEvents (fst (utcConfirmEvent Sample.readable Sample.endlessPlanner
                                                    (mkHandle 2 true))) 0%nat) =
    SingleEvent 20 45 21 12 6 1955 /\
  getNextOccurance (stopEvents (fst (utcConfirmEvent Sample.readable Sample.endlessPlanner
                                                     (mkHandle 2 true))) 0%nat) = 0.
Proof. repeat split; vm_compute; reflexivity. Qed.

(** The error branch of the data read on the month-end planner: stop
    slot 1 ends up flagged used and still blank. *)
Example confirmEvent_unreadable_on_sample :
  snd (utcConfirmEvent Sample.unreadable Sample.monthEndPlanner (mkHandle 2 true)) =
    ERR_NO_STOP_SLOT_AVAIL /\
  stopEventsUsed Sample.monthEndPlanner 1%nat = false /\
  stopEventsUsed (fst (utcConfirmEvent Sample.unreadable Sample.monthEndPlanner
                                       (mkHandle 2 true))) 1%nat = true /\
  stopEvents (fst (utcConfirmEvent Sample.unreadable Sample.monthEndPlanner
                                   (mkHandle 2 true))) 1%nat = Sample.blank.
Proof. repeat split; reflexivity. Qed.

Lemma sample_keepConfig_delivers
    (valid : irrigation_event_data_t -> recurrence -> Prop) :
  deliversValid Sample.numEvents Sample.keepConfig valid.
Proof.
  intros z e u H j Hj Hu. cbn [Sample.keepConfig fst snd] in *. apply H; assumption.
Defined.

Lemma sample_monthEndPlanner_valid :
  utcSlotsValid (fun d _ => isStart d = true) Sample.monthEndPlanner.
Proof.
  split.
  - intros j Hj Hu. unfold Sample.numStopEvents in Hj.
    destruct j as [| [| j]]; [vm_compute; reflexivity | discriminate Hu | lia].
  - intros j Hj Hu. unfold Sample.numEvents in Hj.
    destruct j as [| [| [| [| j]]]];
      [discriminate Hu | discriminate Hu | | discriminate Hu | lia].
    split; [reflexivity | vm_compute; reflexivity].
Defined.

(** Witness of C7: the month-end planner holds a valid one-shot start
    event and a valid stop event; confirming the start event takes stop
    slot 1, writes a complete stop event into it and leaves stop slot 0
    alone; every used slot is valid afterwards. *)
Lemma pool_invariant_preserved_witness :
  let p' := utcStateAfter Sample.monthEndPlanner (ConfirmEvent (mkHandle 2 true)) in
  (forall e, Sample.readable e = true) /\
  utcSlotsValid (fun d _ => isStart d = true) Sample.monthEndPlanner /\
  utcSlotsValid (fun d _ => isStart d = true) p' /\
  (forall j, (Sample.numStopEvents <= j)%nat ->
     stopEventsUsed p' j = stopEventsUsed Sample.monthEndPlanner j /\
     stopEvents p' j = stopEvents Sample.monthEndPlanner j) /\
  stopEvents p' 0%nat = stopEvents Sample.monthEndPlanner 0%nat /\
  stopEventsUsed p' 1%nat = true /\
  isStopEvent Calendar.utc_localtime_r Calendar.utc_mktime (stopEvents p' 1%nat) = true.
Proof.
  assert (Hread : forall e, Sample.readable e = true) by reflexivity.
  destruct (pool_invariant_preserved
              Calendar.utc_localtime_r Calendar.utc_mktime Sample.numEvents
              Sample.numNormalEvents Sample.numStopEvents Sample.readable
              Sample.keepConfig (fun d _ => isStart d = true)
              Sample.monthEndPlanner (ConfirmEvent (mkHandle 2 true)))
    as (_ & Hbeyond & Hkeep & _ & _ & _ & Hvalid).
  pose proof (Hvalid Hread (sample_keepConfig_delivers _) sample_monthEndPlanner_valid)
    as Hafter.
  split; [exact Hread |]. split; [exact sample_monthEndPlanner_valid |].
  split; [exact Hafter |]. split; [exact Hbeyond |].
  split; [exact (proj1 (Hkeep (mkHandle 2 true) 0%nat eq_refl)) |].
  split; [reflexivity |].
  exact (proj1 Hafter 1%nat ltac:(unfold Sample.numStopEvents; lia) eq_refl).
Defined.

(** [getEventHandles] on the busy planner, for the time 00:50:00
    (3000 s) at which start slots 0 and 2 and stop slot 0 are due, into
    a buffer holding handles of index 99: with room for two, for five,
    and for none; and for a time at which nothing is due. *)
Example getEventHandles_busy :
  let dest : array event_handle_t := fun _ => mkHandle 99 true in
  let image (r : err_t * array event_handle_t) := (fst r, map (snd r) (seq 0 6)) in
  allMatches Sample.numEvents Sample.numStopEvents Sample.busyPlanner 3000 =
    [mkHandle 0 true; mkHandle 2 true; mkHandle 0 false] /\
  image (sampleEventHandles Sample.busyPlanner 3000 dest 2%nat) =
    (ERR_PARTIAL_EVENT_HANDLES,
     [mkHandle 0 true; mkHandle 2 true; mkHandle 99 true; mkHandle 99 true;
      mkHandle 99 true; mkHandle 99 true]) /\
  image (sampleEventHandles Sample.busyPlanner 3000 dest 5%nat) =
    (ERR_OK,
     [mkHandle 0 true; mkHandle 2 true; mkHandle 0 false; mkHandle (-1) true;
      mkHandle (-1) true; mkHandle 99 true]) /\
  image (sampleEventHandles Sample.busyPlanner 3000 dest 0%nat) =
    (ERR_NO_HANDLES_FOUND,
     [mkHandle 99 true; mkHandle 99 true; mkHandle 99 true; mkHandle 99 true;
      mkHandle 99 true; mkHandle 99 true]) /\
  image (sampleEventHandles Sample.busyPlanner 777 dest 3%nat) =
    (ERR_NO_HANDLES_FOUND,
     [mkHandle (-1) true; mkHandle (-1) true; mkHandle (-1) true; mkHandle 99 true;
      mkHandle 99 true; mkHandle 99 true]).
Proof. repeat split; vm_compute; reflexivity. Qed.

(** Witness of C9: three notifications arrive while the lock is held;
    releasing the lock reloads once and calls hook 7 once; a
    notification with the lock free does the same. *)
Lemma config_update_deferred_while_locked_witness :
  snd (utcNotifyTimes Sample.lockedPlanner [10; 20; 30]) = [] /\
  configUpdatedDuringLock (fst (utcNotifyTimes Sample.lockedPlanner [10; 20; 30])) = true /\
  snd (utcSetConfigLock (fst (utcNotifyTimes Sample.lockedPlanner [10; 20; 30])) false 40) =
    [CopyZonesAndEvents; HookCalled 7 42] /\
  configUpdatedDuringLock
    (fst (utcSetConfigLock (fst (utcNotifyTimes Sample.lockedPlanner [10; 20; 30]))
                           false 40)) = false /\
  snd (utcConfigUpdated Sample.unlockedPlanner 40) =
    [CopyZonesAndEvents; HookCalled 7 42].
Proof.
  assert (Hne : [10; 20; 30] <> @nil time_t) by discriminate.
  destruct (config_update_deferred_while_locked
              Calendar.utc_localtime_r Calendar.utc_mktime Sample.numEvents
              Sample.keepConfig Sample.lockedPlanner Sample.unlockedPlanner
              [10; 20; 30] 40 7%nat 7%nat
              eq_refl eq_refl Hne eq_refl eq_refl)
    as (Hdefer & Hrelease & Hfree).
  destruct (Hrelease eq_refl) as (Hcalls & _ & _ & Hcleared & _).
  split; [rewrite Hdefer; reflexivity |]. split; [rewrite Hdefer; reflexivity |].
  split; [exact Hcalls |]. split; [exact Hcleared | exact (Hfree eq_refl)].
Defined.

(** Counterexample to C9 as stated.  Three notifications arrive while
    the lock is held and raise the flag; the lock is released while
    another task holds the configuration mutex: nothing is copied, no
    hook is called, and the flag is cleared, so releasing the lock again
    with the mutex free does nothing either.  And a notification with
    the lock free reloads without calling the registered hook 7 while
    another task holds the hook mutex. *)
Lemma deferred_update_lost_on_mutex_timeout :
  let p1 := fst (utcNotifyTimes Sample.lockedPlanner [10; 20; 30]) in
  let p2 := fst (utcSetConfigLock (set_configMutex p1 true) false 40) in
  configLock p1 = true /\
  configUpdatedDuringLock p1 = true /\
  snd (utcSetConfigLock (set_configMutex p1 true) false 40) = [] /\
  configLock p2 = false /\
  configUpdatedDuringLock p2 = false /\
  snd (utcSetConfigLock (set_configMutex p2 false) false 50) = [] /\
  configLock (set_hookMutex Sample.unlockedPlanner true) = false /\
  configUpdatedHook (set_hookMutex Sample.unlockedPlanner true) = Some 7%nat /\
  snd (utcConfigUpdated (set_hookMutex Sample.unlockedPlanner true) 40) =
    [CopyZonesAndEvents].
Proof. repeat split; reflexivity. Qed.

(** Witness of C10: registering a null hook on a planner that had hook
    7 succeeds and changes the stored pair only; the two reloads that
    follow copy the configuration and call nothing, and with the config
    lock held or the hook mutex busy nothing is called either. *)
Lemma register_null_hook_unregisters_witness :
  let p0 := fst (registerIrrigPlanUpdatedHook Sample.unlockedPlanner None 0) in
  configUpdatedHook Sample.unlockedPlanner = Some 7%nat /\
  snd (registerIrrigPlanUpdatedHook Sample.unlockedPlanner None 0) = ERR_OK /\
  p0 = set_hook Sample.unlockedPlanner None 0 /\
  snd (utcNotifyTimes p0 [10; 20]) = [CopyZonesAndEvents; CopyZonesAndEvents] /\
  snd (utcNotifyTimes (set_hookMutex p0 true) [10; 20]) =
    [CopyZonesAndEvents; CopyZonesAndEvents] /\
  snd (utcNotifyTimes (set_configLock p0 true) [10; 20]) = [].
Proof.
  destruct (register_null_hook_unregisters
              Calendar.utc_localtime_r Calendar.utc_mktime Sample.numEvents
              Sample.keepConfig Sample.unlockedPlanner 0)
    as (Hfree & _).
  destruct (Hfree eq_refl) as (Hret & Hpair & Hlater).
  intros p0.
  split; [reflexivity |]. split; [exact Hret |]. split; [exact Hpair |].
  split; [exact (proj1 (Hlater p0 [10; 20] 0 eq_refl)) |].
  split; [exact (proj1 (Hlater (set_hookMutex p0 true) [10; 20] 0 eq_refl)) |].
  exact (proj1 (Hlater (set_configLock p0 true) [10; 20] 0 eq_refl)).
Defined.

(** Counterexample to C10 as stated: while another task holds the hook
    mutex, registering a null hook on the planner that stores hook 7
    returns [ERR_TIMEOUT], not [ERR_OK]; the stored pair is not
    replaced, and the next reload, with the mutex free again, calls
    hook 7. *)
Lemma register_null_hook_timeout_keeps_hook :
  let busy := set_hookMutex Sample.unlockedPlanner true in
  let r := registerIrrigPlanUpdatedHook busy None 0 in
  snd r = ERR_TIMEOUT /\
  snd r <> ERR_OK /\
  fst r = busy /\
  configUpdatedHook (fst r) = Some 7%nat /\
  configUpdatedHookParamPtr (fst r) = 42 /\
  snd (utcConfigUpdated (set_hookMutex (fst r) false) 10) =
    [CopyZonesAndEvents; HookCalled 7 42].
Proof. repeat split; try reflexivity. discriminate. Qed.

(** The scenario of the specification, in UTC: zone 0 is watered on
    Tuesdays and Thursdays at 06:00:00 for 300 s.  From Wednesday
    2023-07-05 00:00:00 the next event is Thursday 06:00:00; confirming
    it allocates stop slot 0 for 06:05:00 and keeps the recurring start
    slot; the stop event is next, confirming it frees the slot, and the
    next event is then Tuesday 2023-07-11 06:00:00. *)
Example scenario_tuesday_thursday :
  let wednesday := 1688515200 in
  let thursday6 := 1688623200 in
  let r1 := utcNextEventTime Sample.weekPlanner wednesday false in
  let h1 := sampleEventHandles (fst r1) (snd r1) (fun _ => mkHandle 99 true) 4%nat in
  let r2 := utcConfirmEvent Sample.readable (fst r1) (snd h1 0%nat) in
  let r3 := utcNextEventTime (fst r2) thursday6 true in
  let h3 := sampleEventHandles (fst r3) (snd r3) (fun _ => mkHandle 99 true) 4%nat in
  let r4 := utcConfirmEvent Sample.readable (fst r3) (snd h3 0%nat) in
  let r5 := utcNextEventTime (fst r4) (snd r3) true in
  snd r1 = thursday6 /\
  (fst h1, snd h1 0%nat, idx (snd h1 1%nat)) = (ERR_OK, mkHandle 0 true, -1) /\
  snd r2 = ERR_OK /\
  eventsUsed (fst r2) 0%nat = true /\
  stopEventsUsed (fst r2) 0%nat = true /\
  snd r3 = thursday6 + 300 /\
  (fst h3, snd h3 0%nat) = (ERR_OK, mkHandle 0 false) /\
  snd r4 = ERR_OK /\
  stopEventsUsed (fst r4) 0%nat = false /\
  snd r5 = 1689055200.
Proof. repeat split; vm_compute; reflexivity. Qed.

(* ------------------------------------------------------------------ *)
(** ** Further properties on the concrete controller *)

Local Notation sampleNoLiveSlot :=
  (noLiveSlot Sample.numEvents Sample.numStopEvents).
Local Notation sampleAccepted :=
  (handleAccepted Sample.numEvents Sample.numStopEvents).
Local Notation sampleMatches :=
  (allMatches Sample.numEvents Sample.numStopEvents).
Local Notation utcNew :=
  (IrrigationPlanner_new Calendar.utc_localtime_r Calendar.utc_mktime Sample.numZones
                         Sample.numEvents Sample.numStopEvents Sample.zoneCfgElements
                         16%nat).

(** The constructor run over memory that holds the busy planner: the
    slots are all free afterwards and the planner is idle. *)
Example constructor_on_used_memory :
  map (eventsUsed (utcNew Sample.busyPlanner 100)) (seq 0 4) =
    [false; false; false; false] /\
  map (stopEventsUsed (utcNew Sample.busyPlanner 100)) (seq 0 2) = [false; false] /\
  snd (utcNextEventTime (utcNew Sample.busyPlanner 100) 0 false) = 0 /\
  snd (utcConfirmEvent Sample.readable (utcNew Sample.busyPlanner 100)
                       (mkHandle 0 true)) = ERR_INVALID_HANDLE.
Proof. repeat split; vm_compute; reflexivity. Qed.

Lemma sample_emptyPlanner_idle : sampleNoLiveSlot Sample.emptyPlanner.
Proof.
  split; intros j _; unfold Sample.emptyPlanner, Sample.plannerOf, Sample.arrayOf;
    cbn [eventsUsed stopEventsUsed]; destruct j; reflexivity.
Defined.

(** Witness of X2: the planner without used slots. *)
Lemma idle_planner_witness :
  sampleNoLiveSlot Sample.emptyPlanner /\
  snd (utcNextEventTime Sample.emptyPlanner 1500 true) = 0 /\
  fst (sampleEventHandles Sample.emptyPlanner 0 (fun _ => mkHandle 99 true) 3%nat) =
    ERR_NO_HANDLES_FOUND /\
  utcConfirmEvent Sample.readable Sample.emptyPlanner (mkHandle 1 false) =
    (Sample.emptyPlanner, ERR_INVALID_HANDLE).
Proof.
  destruct (idle_planner Calendar.utc_localtime_r Calendar.utc_mktime
              Sample.numEvents Sample.numNormalEvents Sample.numStopEvents
              Sample.readable Sample.emptyPlanner sample_emptyPlanner_idle)
    as (Htime & Hhandles & Hconfirm & _).
  split; [exact sample_emptyPlanner_idle |].
  split; [exact (Htime 1500 true) |].
  split; [exact (proj1 (Hhandles 0 (fun _ => mkHandle 99 true) 3%nat)) |].
  exact (Hconfirm (mkHandle 1 false)).
Defined.

(** Witness of X5: three matches and room for two. *)
Lemma getEventHandles_status_table_witness :
  (0 < 2)%nat /\
  length (sampleMatches Sample.busyPlanner 3000) = 3%nat /\
  fst (sampleEventHandles Sample.busyPlanner 3000 (fun _ => mkHandle 99 true) 2%nat) =
    ERR_PARTIAL_EVENT_HANDLES.
Proof.
  assert (Hpos : (0 < 2)%nat) by lia.
  destruct (getEventHandles_status_table Sample.numEvents Sample.numStopEvents
              Sample.busyPlanner 3000 (fun _ => mkHandle 99 true) 2%nat Hpos)
    as (_ & Hpartial & _).
  split; [exact Hpos |]. split; [reflexivity |].
  apply Hpartial. vm_compute. lia.
Defined.

(** Witness of X6: from 1500 s the day planner answers 2000 s, and the
    handles for 2000 s start with the stop handle of slot 0. *)
Lemma next_event_time_has_handles_witness :
  snd (utcNextEventTime Sample.dayPlanner 1500 false) <> 0 /\
  fst (sampleEventHandles (fst (utcNextEventTime Sample.dayPlanner 1500 false))
         (snd (utcNextEventTime Sample.dayPlanner 1500 false))
         (fun _ => mkHandle 99 true) 1%nat) <> ERR_NO_HANDLES_FOUND /\
  snd (sampleEventHandles (fst (utcNextEventTime Sample.dayPlanner 1500 false))
         (snd (utcNextEventTime Sample.dayPlanner 1500 false))
         (fun _ => mkHandle 99 true) 1%nat) O = mkHandle 0 false.
Proof.
  assert (Hr : snd (utcNextEventTime Sample.dayPlanner 1500 false) <> 0)
    by (intros E; vm_compute in E; discriminate E).
  assert (Hpos : (0 < 1)%nat) by lia.
  destruct (next_event_time_has_handles Calendar.utc_localtime_r Calendar.utc_mktime
              Sample.numEvents Sample.numStopEvents Sample.dayPlanner 1500 false
              (fun _ => mkHandle 99 true) 1%nat Hr Hpos) as (Hstatus & _).
  split; [exact Hr |]. split; [exact Hstatus |]. vm_compute. reflexivity.
Defined.

(** Witness of X7: from 6000 s nothing is left on the day planner; its
    live slots (start slots 0 and 1, stop slot 0) all match the time 0. *)
Lemma zero_time_matches_every_live_slot_witness :
  snd (utcNextEventTime Sample.dayPlanner 6000 false) = 0 /\
  In (mkHandle 1 true)
     (sampleMatches (fst (utcNextEventTime Sample.dayPlanner 6000 false)) 0) /\
  sampleMatches (fst (utcNextEventTime Sample.dayPlanner 6000 false)) 0 =
    [mkHandle 0 true; mkHandle 1 true; mkHandle 0 false].
Proof.
  assert (Hz : snd (utcNextEventTime Sample.dayPlanner 6000 false) = 0)
    by (vm_compute; reflexivity).
  assert (Ha : sampleAccepted (fst (utcNextEventTime Sample.dayPlanner 6000 false))
                              (mkHandle 1 true)).
  { left. unfold validStartHandle, Sample.numEvents. cbn [idx isStartHandle].
    repeat split; try lia; reflexivity. }
  split; [exact Hz |]. split.
  - exact (proj1 (zero_time_matches_every_live_slot
                    Calendar.utc_localtime_r Calendar.utc_mktime
                    Sample.numEvents Sample.numStopEvents Sample.dayPlanner 6000 false
                    Hz (mkHandle 1 true)) Ha).
  - vm_compute. reflexivity.
Defined.

Lemma sample_stop_handle_valid (p : IrrigationPlanner) :
  stopEventsUsed p 0%nat = true ->
  validStopHandle Sample.numStopEvents p (mkHandle 0 false).
Proof.
  intros H. unfold validStopHandle, Sample.numStopEvents. cbn [idx isStartHandle].
  repeat split; try lia; try reflexivity. exact H.
Defined.

(** Witness of X9: the stop event of the day planner is confirmed, and
    confirmed once more. *)
Lemma confirmEvent_frees_stop_slot_witness :
  validStopHandle Sample.numStopEvents Sample.dayPlanner (mkHandle 0 false) /\
  snd (utcConfirmEvent Sample.readable Sample.dayPlanner (mkHandle 0 false)) = ERR_OK /\
  stopEventsUsed (fst (utcConfirmEvent Sample.readable Sample.dayPlanner
                                       (mkHandle 0 false))) 0%nat = false /\
  snd (utcConfirmEvent Sample.readable
         (fst (utcConfirmEvent Sample.readable Sample.dayPlanner (mkHandle 0 false)))
         (mkHandle 0 false)) = ERR_INVALID_HANDLE.
Proof.
  assert (Hv : validStopHandle Sample.numStopEvents Sample.dayPlanner
                               (mkHandle 0 false))
    by (apply sample_stop_handle_valid; reflexivity).
  destruct (confirmEvent_frees_stop_slot Calendar.utc_localtime_r Calendar.utc_mktime
              Sample.numEvents Sample.numNormalEvents Sample.numStopEvents
              Sample.readable Sample.dayPlanner (mkHandle 0 false) Hv)
    as (Hfirst & Hfree & _ & Hsecond).
  split; [exact Hv |].
  rewrite Hfirst. cbn [fst snd]. split; [reflexivity |]. split; [exact Hfree |].
  rewrite Hsecond. reflexivity.
Defined.

(** Witness of X10: the one-shot event of the month-end planner cannot
    be confirmed twice; the recurring event of the week planner stays
    valid. *)
Lemma confirmEvent_start_handle_afterwards_witness :
  validStartHandle Sample.numEvents Sample.monthEndPlanner (mkHandle 2 true) /\
  snd (utcConfirmEvent Sample.readable
         (fst (utcConfirmEvent Sample.readable Sample.monthEndPlanner (mkHandle 2 true)))
         (mkHandle 2 true)) = ERR_INVALID_HANDLE /\
  validStartHandle Sample.numEvents
    (fst (utcConfirmEvent Sample.readable Sample.weekPlanner (mkHandle 0 true)))
    (mkHandle 0 true).
Proof.
  assert (Hw : validStartHandle Sample.numEvents Sample.weekPlanner (mkHandle 0 true)).
  { unfold validStartHandle, Sample.numEvents. cbn [idx isStartHandle].
    repeat split; try lia; reflexivity. }
  assert (Hrec : idx (mkHandle 0 true) < Z.of_nat Sample.numNormalEvents)
    by (unfold Sample.numNormalEvents; cbn [idx]; lia).
  destruct (confirmEvent_start_handle_afterwards
              Calendar.utc_localtime_r Calendar.utc_mktime
              Sample.numEvents Sample.numNormalEvents Sample.numStopEvents
              Sample.readable Sample.weekPlanner (mkHandle 0 true) Hw)
    as (_ & _ & Hstays & _).
  assert (Hv : validStartHandle Sample.numEvents Sample.monthEndPlanner
                                (mkHandle 2 true))
    by (apply sample_one_shot_handle_valid; reflexivity).
  assert (Hone : Z.of_nat Sample.numNormalEvents <= idx (mkHandle 2 true))
    by (unfold Sample.numNormalEvents; cbn [idx]; lia).
  destruct (confirmEvent_start_handle_afterwards
              Calendar.utc_localtime_r Calendar.utc_mktime
              Sample.numEvents Sample.numNormalEvents Sample.numStopEvents
              Sample.readable Sample.monthEndPlanner (mkHandle 2 true) Hv)
    as (_ & _ & _ & Hdead).
  split; [exact Hv |]. split; [rewrite (Hdead Hone); reflexivity |].
  exact (Hstays Hrec).
Defined.

(** Witness of X11: stop slot 1 of the month-end planner is taken and
    given back. *)
Lemma stop_slot_round_trip_witness :
  validStartHandle Sample.numEvents Sample.monthEndPlanner (mkHandle 2 true) /\
  firstFree (stopEventsUsed Sample.monthEndPlanner) Sample.numStopEvents = Some 1%nat /\
  usedCount (stopEventsUsed (fst (utcConfirmEvent Sample.readable Sample.monthEndPlanner
                                                  (mkHandle 2 true))))
            Sample.numStopEvents = 2%nat /\
  snd (utcConfirmEvent Sample.readable
         (fst (utcConfirmEvent Sample.readable Sample.monthEndPlanner (mkHandle 2 true)))
         (mkHandle (Z.of_nat 1) false)) = ERR_OK /\
  stopEventsUsed
    (fst (utcConfirmEvent Sample.readable
            (fst (utcConfirmEvent Sample.readable Sample.monthEndPlanner
                                  (mkHandle 2 true)))
            (mkHandle (Z.of_nat 1) false))) 1%nat = false.
Proof.
  assert (Hv : validStartHandle Sample.numEvents Sample.monthEndPlanner
                                (mkHandle 2 true))
    by (apply sample_one_shot_handle_valid; reflexivity).
  assert (Hfree : firstFree (stopEventsUsed Sample.monthEndPlanner)
                            Sample.numStopEvents = Some 1%nat) by reflexivity.
  destruct (stop_slot_round_trip Calendar.utc_localtime_r Calendar.utc_mktime
              Sample.numEvents Sample.numNormalEvents Sample.numStopEvents
              Sample.readable Sample.monthEndPlanner (mkHandle 2 true) 1%nat Hv Hfree)
    as (Hcount & _ & Hok & Hback).
  split; [exact Hv |]. split; [exact Hfree |].
  split; [exact Hcount |]. split; [exact Hok |]. exact (Hback 1%nat).
Defined.

(** Witness of X16: the postponed update of the contended planner is
    lost when the lock is released; a notification to the unlocked
    planner is dropped while the mutex is held. *)
Lemma update_dropped_on_config_mutex_timeout_witness :
  utcConfigUpdated (set_configMutex Sample.unlockedPlanner true) 40 =
    (set_configMutex Sample.unlockedPlanner true, []) /\
  configMutex Sample.contendedPlanner = true /\
  snd (utcSetConfigLock Sample.contendedPlanner false 40) = [] /\
  configUpdatedDuringLock (fst (utcSetConfigLock Sample.contendedPlanner false 40)) =
    false /\
  snd (utcSetConfigLock
         (set_configMutex (fst (utcSetConfigLock Sample.contendedPlanner false 40)) false)
         false 50) = [].
Proof.
  destruct (update_dropped_on_config_mutex_timeout
              Calendar.utc_localtime_r Calendar.utc_mktime Sample.numEvents
              Sample.keepConfig Sample.contendedPlanner 40 50 eq_refl) as [_ Hlost].
  destruct (Hlost eq_refl) as (Hcalls & Hflag & _ & _ & _ & Hlater).
  destruct (update_dropped_on_config_mutex_timeout
              Calendar.utc_localtime_r Calendar.utc_mktime Sample.numEvents
              Sample.keepConfig (set_configMutex Sample.unlockedPlanner true) 40 50
              eq_refl) as [Hdrop _].
  split; [exact (Hdrop eq_refl) |].
  split; [reflexivity |]. split; [exact Hcalls |]. split; [exact Hflag | exact Hlater].
Defined.

(** Witness of X17: a reload while another task holds the hook mutex. *)
Lemma hook_skipped_on_hook_mutex_timeout_witness :
  configUpdatedHook (set_hookMutex Sample.unlockedPlanner true) = Some 7%nat /\
  snd (utcConfigUpdated (set_hookMutex Sample.unlockedPlanner true) 40) =
    [CopyZonesAndEvents].
Proof.
  destruct (hook_skipped_on_hook_mutex_timeout
              Calendar.utc_localtime_r Calendar.utc_mktime Sample.numEvents
              Sample.keepConfig (set_hookMutex Sample.unlockedPlanner true) 40
              eq_refl eq_refl eq_refl) as (Hcalls & _).
  split; [reflexivity | exact Hcalls].
Defined.

(** Witness of X18: hook 3 is registered, then hook 5. *)
Lemma registration_replaces_hook_witness :
  snd (utcConfigUpdated
         (fst (registerIrrigPlanUpdatedHook
                 (fst (registerIrrigPlanUpdatedHook Sample.unlockedPlanner
                                                    (Some 3%nat) 30))
                 (Some 5%nat) 50)) 40) =
  [CopyZonesAndEvents; HookCalled 5 50].
Proof.
  destruct (registration_replaces_hook
              Calendar.utc_localtime_r Calendar.utc_mktime Sample.numEvents
              Sample.keepConfig Sample.unlockedPlanner 3%nat 5%nat 30 50 40
              eq_refl (conj eq_refl eq_refl)) as (_ & _ & _ & Hsecond & _).
  exact Hsecond.
Defined.

(** Witness of X19: a reload of the unlocked planner at clock value 40
    leaves its used start event with reference time 40. *)
Lemma reload_installs_configuration_witness :
  configLock Sample.unlockedPlanner = false /\
  getReferenceTime (events (fst (utcConfigUpdated Sample.unlockedPlanner 40)) 0%nat) =
    40 /\
  eventsUsed (fst (utcConfigUpdated Sample.unlockedPlanner 40)) 0%nat = true.
Proof.
  destruct (reload_installs_configuration
              Calendar.utc_localtime_r Calendar.utc_mktime Sample.numEvents
              Sample.keepConfig Sample.unlockedPlanner 40
              eq_refl (conj eq_refl eq_refl)) as (_ & Hused & Hev & _).
  split; [reflexivity |]. split.
  - rewrite (Hev 0%nat). reflexivity.
  - rewrite Hused. reflexivity.
Defined.

(** Witness of X20: start slots 1 and 2 of the tie planner are due at
    the same time, earlier than slot 0; the scan returns slot 1. *)
Lemma getNextEventIdx_lowest_index_wins_witness :
  snd (getNextEventIdx Calendar.utc_localtime_r Calendar.utc_mktime 0
         (events Sample.tiePlanner) (eventsUsed Sample.tiePlanner) Sample.numEvents) = 1 /\
  occurrenceAt Calendar.utc_localtime_r Calendar.utc_mktime 0
               (events Sample.tiePlanner) 2%nat =
  occurrenceAt Calendar.utc_localtime_r Calendar.utc_mktime 0
               (events Sample.tiePlanner) 1%nat /\
  (Z.to_nat (snd (getNextEventIdx Calendar.utc_localtime_r Calendar.utc_mktime 0%Z
                    (events Sample.tiePlanner) (eventsUsed Sample.tiePlanner)
                    Sample.numEvents)) <= 2)%nat.
Proof.
  assert (Hi : 0 <= snd (getNextEventIdx Calendar.utc_localtime_r Calendar.utc_mktime 0
                           (events Sample.tiePlanner) (eventsUsed Sample.tiePlanner)
                           Sample.numEvents))
    by (apply Z.leb_le; vm_compute; reflexivity).
  assert (Htie : occurrenceAt Calendar.utc_localtime_r Calendar.utc_mktime 0
                              (events Sample.tiePlanner) 2%nat =
                 occurrenceAt Calendar.utc_localtime_r Calendar.utc_mktime 0
                              (events Sample.tiePlanner) 1%nat)
    by (vm_compute; reflexivity).
  destruct (getNextEventIdx_lowest_index_wins
              Calendar.utc_localtime_r Calendar.utc_mktime 0
              (events Sample.tiePlanner) (eventsUsed Sample.tiePlanner)
              Sample.numEvents Hi) as (_ & _ & _ & _ & Hlow).
  split; [vm_compute; reflexivity |]. split; [exact Htie |].
  apply (Hlow 2%nat); [unfold Sample.numEvents; lia | reflexivity |].
  rewrite Htie. vm_compute. reflexivity.
Defined.
